(** * agent-checklist: workflow state machine and memory model

    A shallow embedding of [agent_checklist.domain], [agent_checklist.memory.models],
    [agent_checklist.skills.models], [agent_checklist.memory.state_manager],
    [agent_checklist.engine.coordinator], the table of
    [agent_checklist.skills.definitions] and the methods of [ChecklistAgent]
    ([agent_checklist.app]), followed by the properties of the transition
    functions, of the skill-result handlers, of the coordinator and of the
    agent.  The dump of an artifact, the executor (prompt rendering and the
    call of the language model) and the repository (the file system) are
    parameters of the code that calls them.

    Conventions of the embedding.
    - A Python [str] is a [string]; every character stands for one code point
      below 256.  The tables of [Py] (white space, decimal digits) are the
      ones of the interpreter restricted to that range.
    - A Python [int] is a [Z].  Conversions between [int] and [str] are the
      ones of the language; the interpreter's configurable cap on the number
      of digits of a conversion is not modelled.
    - [datetime.utcnow()] and [uuid4().hex] read an explicit [World]; code
      that calls them lives in the monad [M], which also carries raised
      exceptions.
    - Values of the pydantic models are immutable records, so [deepcopy] is
      the identity.  Where the source keeps several references to one object
      (the id-indexed dictionaries of the refinement and progress handlers),
      the objects live in an explicit store and the dictionaries hold
      addresses into it. *)

From Stdlib Require Import ZArith String Ascii List Bool Lia.
From Stdlib Require Import DecimalString DecimalPos DecimalZ.
From stdpp Require Import base option list.
Import ListNotations.

Local Open Scope string_scope.
Local Open Scope list_scope.

(** ** Python built-ins used by the source *)

Module Py.

(** [str.isspace] on one code point below 256. *)
Definition is_space (c : ascii) : bool :=
  let n := nat_of_ascii c in
  (((9 <=? n) && (n <=? 13)) || ((28 <=? n) && (n <=? 32))
   || (n =? 133) || (n =? 160))%nat.

(** White space skipped by [int(str)]: the C-locale blanks, and the
    non-ASCII blanks that the conversion first rewrites to a space. *)
Definition is_int_space (c : ascii) : bool :=
  let n := nat_of_ascii c in
  (((9 <=? n) && (n <=? 13)) || (n =? 32) || (n =? 133) || (n =? 160))%nat.

Definition is_digit (c : ascii) : bool :=
  let n := nat_of_ascii c in ((48 <=? n) && (n <=? 57))%nat.

Fixpoint lstrip_with (p : ascii -> bool) (s : string) : string :=
  match s with
  | EmptyString => EmptyString
  | String c r => if p c then lstrip_with p r else s
  end.

Fixpoint rstrip_with (p : ascii -> bool) (s : string) : string :=
  match s with
  | EmptyString => EmptyString
  | String c r =>
      match rstrip_with p r with
      | EmptyString => if p c then EmptyString else String c EmptyString
      | r' => String c r'
      end
  end.

(** [s.strip()] *)
Definition strip (s : string) : string :=
  rstrip_with is_space (lstrip_with is_space s).

(** Truth value of a [str]: the empty string is false. *)
Definition truthy (s : string) : bool :=
  match s with EmptyString => false | String _ _ => true end.

(** Truth value of a [str | None]. *)
Definition truthy_opt (o : option string) : bool :=
  match o with None => false | Some s => truthy s end.

(** [a or b] with [a : str | None] and [b : str]. *)
Definition or_str (a : option string) (b : string) : string :=
  match a with
  | Some s => if truthy s then s else b
  | None => b
  end.

(** [a or b] with [a, b : str | None]. *)
Definition or_opt (a b : option string) : option string :=
  if truthy_opt a then a else b.

(** [s.startswith(prefix)] *)
Definition startswith (s prefix : string) : bool := String.prefix prefix s.

(** [s.split(sep)] for a one-character separator. *)
Fixpoint split (sep : ascii) (s : string) : list string :=
  match s with
  | EmptyString => [EmptyString]
  | String c r =>
      if Ascii.eqb c sep then EmptyString :: split sep r
      else match split sep r with
           | h :: t => String c h :: t
           | [] => [String c EmptyString]
           end
  end.

(** [s.split(sep, 1)] for a one-character separator. *)
Fixpoint split1 (sep : ascii) (s : string) : list string :=
  match s with
  | EmptyString => [EmptyString]
  | String c r =>
      if Ascii.eqb c sep then [EmptyString; r]
      else match split1 sep r with
           | h :: t => String c h :: t
           | [] => [String c EmptyString]
           end
  end.

(** Digits of an integer literal: a digit first, then digits each
    optionally preceded by a single underscore. *)
Fixpoint grouped_digits (after_digit : bool) (s : string) : bool :=
  match s with
  | EmptyString => after_digit
  | String c r =>
      if is_digit c then grouped_digits true r
      else if Ascii.eqb c "_" then after_digit && grouped_digits false r
      else false
  end.

Fixpoint drop_underscores (s : string) : string :=
  match s with
  | EmptyString => EmptyString
  | String c r =>
      if Ascii.eqb c "_" then drop_underscores r
      else String c (drop_underscores r)
  end.

(** [int(s)]; [None] stands for [ValueError]. *)
Definition int (s : string) : option Z :=
  let t := rstrip_with is_int_space (lstrip_with is_int_space s) in
  let '(negative, body) :=
    match t with
    | String "-" r => (true, r)
    | String "+" r => (false, r)
    | _ => (false, t)
    end in
  if grouped_digits false body then
    match NilEmpty.uint_of_string (drop_underscores body) with
    | Some u =>
        let n := Z.of_N (N.of_uint u) in
        Some (if negative then (- n)%Z else n)
    | None => None
    end
  else None.

(** [str(n)], also the rendering of an [int] inside an f-string. *)
Definition str (n : Z) : string := NilZero.string_of_int (Z.to_int n).

(** [l[start:]] *)
Definition slice_from {A : Type} (start : Z) (l : list A) : list A :=
  let len := Z.of_nat (length l) in
  let start := if (start <? 0)%Z then (start + len)%Z else start in
  let start := if (start <? 0)%Z then 0%Z else start in
  drop (Z.to_nat start) l.

End Py.

(** ** Insertion-ordered dictionaries with [str] keys *)

Module Dict.

Definition t (V : Type) : Type := list (string * V).

Definition empty {V : Type} : t V := [].

(** [d.get(k)] *)
Fixpoint get {V : Type} (k : string) (d : t V) : option V :=
  match d with
  | [] => None
  | (k', v) :: r => if String.eqb k' k then Some v else get k r
  end.

(** [k in d] *)
Definition mem {V : Type} (k : string) (d : t V) : bool :=
  match get k d with Some _ => true | None => false end.

(** [d[k] = v]: an existing key keeps its position. *)
Fixpoint set {V : Type} (k : string) (v : V) (d : t V) : t V :=
  match d with
  | [] => [(k, v)]
  | (k', v') :: r =>
      if String.eqb k' k then (k', v) :: r else (k', v') :: set k v r
  end.

(** [d.pop(k, None)] *)
Fixpoint pop {V : Type} (k : string) (d : t V) : t V :=
  match d with
  | [] => []
  | (k', v') :: r =>
      if String.eqb k' k then pop k r else (k', v') :: pop k r
  end.

(** [list(d.keys())] *)
Definition keys {V : Type} (d : t V) : list string := map fst d.

(** [{k: v for (k, v) in l}] *)
Definition of_pairs {V : Type} (l : list (string * V)) : t V :=
  fold_left (fun d kv => set (fst kv) (snd kv) d) l empty.

End Dict.

(** ** agent_checklist.domain *)

Module WorkflowPhase.
Inductive t : Set :=
  | IDLE
  | RECEIVING_DESCRIPTION
  | GENERATING_CHECKLIST
  | PRESENTING_INITIAL_CHECKLIST
  | ASKING_REFINEMENT_QUESTIONS
  | AWAITING_USER_RESPONSE
  | PROCESSING_FEEDBACK
  | UPDATING_CHECKLIST
  | PRESENTING_REVISED_CHECKLIST
  | CHECK_APPROVAL
  | SAVING_CHECKLIST
  | CONFIRMING_SAVE
  | LISTENING_FOR_PROGRESS
  | RECEIVING_USER_INPUT
  | INTERPRETING_INTENT
  | ASKING_CLARIFICATION
  | LOGGING_CONTEXT
  | PERSISTING_UPDATE
  | ACKNOWLEDGING_PROGRESS
  | CHECKING_COMPLETION
  | GENERATING_SUMMARY
  | PRESENTING_SUMMARY
  | SESSION_COMPLETE.

Definition eqb (a b : t) : bool :=
  match a, b with
  | IDLE, IDLE
  | RECEIVING_DESCRIPTION, RECEIVING_DESCRIPTION
  | GENERATING_CHECKLIST, GENERATING_CHECKLIST
  | PRESENTING_INITIAL_CHECKLIST, PRESENTING_INITIAL_CHECKLIST
  | ASKING_REFINEMENT_QUESTIONS, ASKING_REFINEMENT_QUESTIONS
  | AWAITING_USER_RESPONSE, AWAITING_USER_RESPONSE
  | PROCESSING_FEEDBACK, PROCESSING_FEEDBACK
  | UPDATING_CHECKLIST, UPDATING_CHECKLIST
  | PRESENTING_REVISED_CHECKLIST, PRESENTING_REVISED_CHECKLIST
  | CHECK_APPROVAL, CHECK_APPROVAL
  | SAVING_CHECKLIST, SAVING_CHECKLIST
  | CONFIRMING_SAVE, CONFIRMING_SAVE
  | LISTENING_FOR_PROGRESS, LISTENING_FOR_PROGRESS
  | RECEIVING_USER_INPUT, RECEIVING_USER_INPUT
  | INTERPRETING_INTENT, INTERPRETING_INTENT
  | ASKING_CLARIFICATION, ASKING_CLARIFICATION
  | LOGGING_CONTEXT, LOGGING_CONTEXT
  | PERSISTING_UPDATE, PERSISTING_UPDATE
  | ACKNOWLEDGING_PROGRESS, ACKNOWLEDGING_PROGRESS
  | CHECKING_COMPLETION, CHECKING_COMPLETION
  | GENERATING_SUMMARY, GENERATING_SUMMARY
  | PRESENTING_SUMMARY, PRESENTING_SUMMARY
  | SESSION_COMPLETE, SESSION_COMPLETE => true
  | _, _ => false
  end.
End WorkflowPhase.

Module ChecklistItemStatus.
Inductive t : Set := PENDING | IN_PROGRESS | COMPLETE.

Definition eqb (a b : t) : bool :=
  match a, b with
  | PENDING, PENDING | IN_PROGRESS, IN_PROGRESS | COMPLETE, COMPLETE => true
  | _, _ => false
  end.
End ChecklistItemStatus.

Module ConversationEntryKind.
Inductive t : Set := SYSTEM | USER | AGENT | PROGRESS.
End ConversationEntryKind.

Module SkillName.
Inductive t : Set :=
  | GENERATE_INITIAL_CHECKLIST
  | GENERATE_REFINEMENT_QUESTIONS
  | INCORPORATE_REFINEMENTS
  | INTERPRET_PROGRESS_UPDATE
  | GENERATE_COMPLETION_SUMMARY.

Definition value (s : t) : string :=
  match s with
  | GENERATE_INITIAL_CHECKLIST => "generate_initial_checklist"
  | GENERATE_REFINEMENT_QUESTIONS => "generate_refinement_questions"
  | INCORPORATE_REFINEMENTS => "incorporate_refinements"
  | INTERPRET_PROGRESS_UPDATE => "interpret_progress_update"
  | GENERATE_COMPLETION_SUMMARY => "generate_completion_summary"
  end.
End SkillName.

Module DecisionType.
Inductive t : Set := LLM_SKILL | TOOL | COMPLETE | NOOP.
End DecisionType.

Definition MAX_REFINEMENT_QUESTIONS : Z := 3.

(** Values of type [Any] held in metadata and preference dictionaries. *)
Local Unset Elimination Schemes.
Inductive Any : Type :=
  | AnyNone
  | AnyBool (b : bool)
  | AnyInt (n : Z)
  | AnyStr (s : string)
  | AnyList (l : list Any)
  | AnyDict (d : list (string * Any)).
Local Set Elimination Schemes.

Module Decision.
Record t : Type := mk {
  decision_type : DecisionType.t;
  skill : option SkillName.t;
  reason : string;
  metadata : Dict.t Any }.

Definition llm (skill : SkillName.t) (reason : string)
    (metadata : option (Dict.t Any)) : t :=
  mk DecisionType.LLM_SKILL (Some skill) reason
     (match metadata with Some m => m | None => Dict.empty end).

Definition complete (reason : string) : t :=
  mk DecisionType.COMPLETE None reason Dict.empty.

Definition noop (reason : string) : t :=
  mk DecisionType.NOOP None reason Dict.empty.
End Decision.

(** ** agent_checklist.memory.models *)

Definition datetime : Type := Z.

Module ChecklistSubItem.
Record t : Type := mk {
  sub_item_id : string;
  summary : string;
  detail : option string;
  status : ChecklistItemStatus.t;
  success_criteria : option string;
  notes : list string }.

Definition with_summary (v : string) (x : t) : t :=
  mk (sub_item_id x) v (detail x) (status x) (success_criteria x) (notes x).
Definition with_detail (v : option string) (x : t) : t :=
  mk (sub_item_id x) (summary x) v (status x) (success_criteria x) (notes x).
Definition with_status (v : ChecklistItemStatus.t) (x : t) : t :=
  mk (sub_item_id x) (summary x) (detail x) v (success_criteria x) (notes x).
Definition with_success_criteria (v : option string) (x : t) : t :=
  mk (sub_item_id x) (summary x) (detail x) (status x) v (notes x).
Definition with_notes (v : list string) (x : t) : t :=
  mk (sub_item_id x) (summary x) (detail x) (status x) (success_criteria x) v.
End ChecklistSubItem.

Module ChecklistItem.
Record t : Type := mk {
  item_id : string;
  summary : string;
  detail : option string;
  status : ChecklistItemStatus.t;
  success_criteria : option string;
  notes : list string;
  sub_items : list ChecklistSubItem.t }.

Definition with_summary (v : string) (x : t) : t :=
  mk (item_id x) v (detail x) (status x) (success_criteria x) (notes x)
     (sub_items x).
Definition with_detail (v : option string) (x : t) : t :=
  mk (item_id x) (summary x) v (status x) (success_criteria x) (notes x)
     (sub_items x).
Definition with_status (v : ChecklistItemStatus.t) (x : t) : t :=
  mk (item_id x) (summary x) (detail x) v (success_criteria x) (notes x)
     (sub_items x).
Definition with_success_criteria (v : option string) (x : t) : t :=
  mk (item_id x) (summary x) (detail x) (status x) v (notes x) (sub_items x).
Definition with_notes (v : list string) (x : t) : t :=
  mk (item_id x) (summary x) (detail x) (status x) (success_criteria x) v
     (sub_items x).
Definition with_sub_items (v : list ChecklistSubItem.t) (x : t) : t :=
  mk (item_id x) (summary x) (detail x) (status x) (success_criteria x)
     (notes x) v.
End ChecklistItem.

Module RefinementPrompt.
Record t : Type := mk { question : string; intent : string }.
End RefinementPrompt.

Module RefinementExchange.
Record t : Type := mk {
  question : string;
  answer : string;
  intent : string;
  collected_at : datetime }.
End RefinementExchange.

Module ConversationEntry.
Record t : Type := mk {
  entry_id : string;
  kind : ConversationEntryKind.t;
  content : string;
  created_at : datetime;
  metadata : Dict.t Any }.
End ConversationEntry.

Module ProgressLogEntry.
Record t : Type := mk {
  entry_id : string;
  user_text : string;
  referenced_item_ids : list string;
  status_transitions : Dict.t ChecklistItemStatus.t;
  sub_status_transitions : Dict.t ChecklistItemStatus.t;
  contextual_notes : option string;
  recorded_at : datetime }.
End ProgressLogEntry.

Module CoreMemory.
Record t : Type := mk {
  persona_name : string;
  mission : string;
  version : string }.
End CoreMemory.

Module SemanticMemory.
Record t : Type := mk {
  user_handle : option string;
  preferred_tone : string;
  timezone : option string;
  saved_preferences : Dict.t Any }.
End SemanticMemory.

Module WorkflowState.
Record t : Type := mk {
  phase : WorkflowPhase.t;
  questions_asked : Z;
  max_refinement_questions : Z;
  checklist_finalized : bool;
  pending_save : bool;
  listening_started_at : option datetime;
  last_transition_at : datetime;
  awaiting_clarification : bool }.

Definition with_phase (v : WorkflowPhase.t) (x : t) : t :=
  mk v (questions_asked x) (max_refinement_questions x)
     (checklist_finalized x) (pending_save x) (listening_started_at x)
     (last_transition_at x) (awaiting_clarification x).
Definition with_questions_asked (v : Z) (x : t) : t :=
  mk (phase x) v (max_refinement_questions x)
     (checklist_finalized x) (pending_save x) (listening_started_at x)
     (last_transition_at x) (awaiting_clarification x).
Definition with_max_refinement_questions (v : Z) (x : t) : t :=
  mk (phase x) (questions_asked x) v
     (checklist_finalized x) (pending_save x) (listening_started_at x)
     (last_transition_at x) (awaiting_clarification x).
Definition with_checklist_finalized (v : bool) (x : t) : t :=
  mk (phase x) (questions_asked x) (max_refinement_questions x)
     v (pending_save x) (listening_started_at x)
     (last_transition_at x) (awaiting_clarification x).
Definition with_pending_save (v : bool) (x : t) : t :=
  mk (phase x) (questions_asked x) (max_refinement_questions x)
     (checklist_finalized x) v (listening_started_at x)
     (last_transition_at x) (awaiting_clarification x).
Definition with_listening_started_at (v : option datetime) (x : t) : t :=
  mk (phase x) (questions_asked x) (max_refinement_questions x)
     (checklist_finalized x) (pending_save x) v
     (last_transition_at x) (awaiting_clarification x).
Definition with_last_transition_at (v : datetime) (x : t) : t :=
  mk (phase x) (questions_asked x) (max_refinement_questions x)
     (checklist_finalized x) (pending_save x) (listening_started_at x)
     v (awaiting_clarification x).
Definition with_awaiting_clarification (v : bool) (x : t) : t :=
  mk (phase x) (questions_asked x) (max_refinement_questions x)
     (checklist_finalized x) (pending_save x) (listening_started_at x)
     (last_transition_at x) v.
End WorkflowState.

Module WorkingMemory.
Record t : Type := mk {
  original_description : option string;
  checklist_items : list ChecklistItem.t;
  refinement_questions : list RefinementPrompt.t;
  refinement_exchanges : list RefinementExchange.t;
  latest_user_message : option string;
  conversation_log : list ConversationEntry.t;
  progress_log : list ProgressLogEntry.t;
  checklist_file_path : option string;
  completion_summary : option string;
  clarification_prompt : option string }.

Definition with_original_description (v : option string) (x : t) : t :=
  mk v (checklist_items x) (refinement_questions x) (refinement_exchanges x)
     (latest_user_message x) (conversation_log x) (progress_log x)
     (checklist_file_path x) (completion_summary x) (clarification_prompt x).
Definition with_checklist_items (v : list ChecklistItem.t) (x : t) : t :=
  mk (original_description x) v (refinement_questions x)
     (refinement_exchanges x) (latest_user_message x) (conversation_log x)
     (progress_log x) (checklist_file_path x) (completion_summary x)
     (clarification_prompt x).
Definition with_refinement_questions (v : list RefinementPrompt.t) (x : t)
    : t :=
  mk (original_description x) (checklist_items x) v (refinement_exchanges x)
     (latest_user_message x) (conversation_log x) (progress_log x)
     (checklist_file_path x) (completion_summary x) (clarification_prompt x).
Definition with_refinement_exchanges (v : list RefinementExchange.t) (x : t)
    : t :=
  mk (original_description x) (checklist_items x) (refinement_questions x) v
     (latest_user_message x) (conversation_log x) (progress_log x)
     (checklist_file_path x) (completion_summary x) (clarification_prompt x).
Definition with_latest_user_message (v : option string) (x : t) : t :=
  mk (original_description x) (checklist_items x) (refinement_questions x)
     (refinement_exchanges x) v (conversation_log x) (progress_log x)
     (checklist_file_path x) (completion_summary x) (clarification_prompt x).
Definition with_conversation_log (v : list ConversationEntry.t) (x : t) : t :=
  mk (original_description x) (checklist_items x) (refinement_questions x)
     (refinement_exchanges x) (latest_user_message x) v (progress_log x)
     (checklist_file_path x) (completion_summary x) (clarification_prompt x).
Definition with_progress_log (v : list ProgressLogEntry.t) (x : t) : t :=
  mk (original_description x) (checklist_items x) (refinement_questions x)
     (refinement_exchanges x) (latest_user_message x) (conversation_log x) v
     (checklist_file_path x) (completion_summary x) (clarification_prompt x).
Definition with_checklist_file_path (v : option string) (x : t) : t :=
  mk (original_description x) (checklist_items x) (refinement_questions x)
     (refinement_exchanges x) (latest_user_message x) (conversation_log x)
     (progress_log x) v (completion_summary x) (clarification_prompt x).
Definition with_completion_summary (v : option string) (x : t) : t :=
  mk (original_description x) (checklist_items x) (refinement_questions x)
     (refinement_exchanges x) (latest_user_message x) (conversation_log x)
     (progress_log x) (checklist_file_path x) v (clarification_prompt x).
Definition with_clarification_prompt (v : option string) (x : t) : t :=
  mk (original_description x) (checklist_items x) (refinement_questions x)
     (refinement_exchanges x) (latest_user_message x) (conversation_log x)
     (progress_log x) (checklist_file_path x) (completion_summary x) v.
End WorkingMemory.

Module ResearchState.
Record t : Type := mk {
  core : CoreMemory.t;
  semantic : SemanticMemory.t;
  workflow : WorkflowState.t;
  working : WorkingMemory.t }.

Definition with_semantic (v : SemanticMemory.t) (x : t) : t :=
  mk (core x) v (workflow x) (working x).
Definition with_workflow (v : WorkflowState.t) (x : t) : t :=
  mk (core x) (semantic x) v (working x).
Definition with_working (v : WorkingMemory.t) (x : t) : t :=
  mk (core x) (semantic x) (workflow x) v.
End ResearchState.

Module ChecklistArtifactItem.
Record t : Type := mk {
  summary : string;
  detail : option string;
  status : ChecklistItemStatus.t;
  notes : list string;
  sub_items : list ChecklistSubItem.t }.
End ChecklistArtifactItem.

Module ChecklistArtifact.
Record t : Type := mk {
  task_description : string;
  created_at : datetime;
  items : list ChecklistArtifactItem.t;
  refinement_context : list RefinementExchange.t;
  progress_log : list ProgressLogEntry.t;
  completion_notes : option string;
  conversation_excerpt : list ConversationEntry.t }.
End ChecklistArtifact.

(** ** agent_checklist.skills.models *)

Module ChecklistSubBullet.
Record t : Type := mk {
  summary : string;
  detail : option string;
  success_criteria : option string }.
End ChecklistSubBullet.

Module ChecklistBullet.
Record t : Type := mk {
  summary : string;
  detail : option string;
  success_criteria : option string;
  sub_items : list ChecklistSubBullet.t }.
End ChecklistBullet.

Module GenerateInitialChecklistOutput.
Record t : Type := mk {
  ai_response : string;
  items : list ChecklistBullet.t;
  risks : list string }.
End GenerateInitialChecklistOutput.

Module RefinementQuestionModel.
Record t : Type := mk {
  question : string;
  intent : string;
  missing_detail : option string }.
End RefinementQuestionModel.

Module GenerateRefinementQuestionsOutput.
Record t : Type := mk {
  ai_response : string;
  questions : list RefinementQuestionModel.t }.
End GenerateRefinementQuestionsOutput.

(** [Literal["add", "update", "remove"]] *)
Module Action.
Inductive t : Set := add | update | remove.
End Action.

Module RefinementSubItemUpdateModel.
Record t : Type := mk {
  sub_item_id : option string;
  action : Action.t;
  summary : option string;
  detail : option string;
  success_criteria : option string }.
End RefinementSubItemUpdateModel.

Module RefinementUpdateModel.
Record t : Type := mk {
  item_id : option string;
  action : Action.t;
  summary : option string;
  detail : option string;
  success_criteria : option string;
  sub_items : list ChecklistSubBullet.t;
  sub_item_updates : list RefinementSubItemUpdateModel.t }.
End RefinementUpdateModel.

Module IncorporateRefinementsOutput.
Record t : Type := mk {
  ai_response : string;
  updates : list RefinementUpdateModel.t;
  notes : list string }.
End IncorporateRefinementsOutput.

Module ProgressSignalModel.
Record t : Type := mk {
  item_ids : list string;
  sub_item_ids : list string;
  new_status : option ChecklistItemStatus.t;
  note : option string;
  context : option string }.
End ProgressSignalModel.

Module InterpretProgressUpdateOutput.
Record t : Type := mk {
  ai_response : string;
  signals : list ProgressSignalModel.t;
  needs_clarification : bool;
  clarification_prompt : option string }.
End InterpretProgressUpdateOutput.

Module CompletionSummaryOutput.
Record t : Type := mk {
  ai_response : string;
  accomplishments : list string;
  highlights : list string;
  timeline : list string }.
End CompletionSummaryOutput.

(** ** The world read by [datetime.utcnow()] and [uuid4()] *)

Record World : Type := mkWorld {
  utc_clock : nat -> datetime;
  utc_reads : nat;
  uuid_pool : nat -> string;
  uuid_draws : nat }.

Inductive Exception : Type :=
  | ValueError (msg : string).

Inductive Outcome (A : Type) : Type :=
  | Return (a : A)
  | Raise (e : Exception).
Arguments Return {A} a.
Arguments Raise {A} e.

Definition M (A : Type) : Type := World -> Outcome A * World.

Definition ret {A : Type} (a : A) : M A := fun w => (Return a, w).

Definition bind {A B : Type} (c : M A) (k : A -> M B) : M B :=
  fun w =>
    match c w with
    | (Return a, w') => k a w'
    | (Raise e, w') => (Raise e, w')
    end.

Definition raise {A : Type} (e : Exception) : M A := fun w => (Raise e, w).

Notation "'let*' x ':=' c 'in' k" := (bind c (fun x => k))
  (at level 10, x name, c at level 100, k at level 200).

(** [datetime.utcnow()] *)
Definition utcnow : M datetime :=
  fun w =>
    (Return (utc_clock w (utc_reads w)),
     mkWorld (utc_clock w) (S (utc_reads w)) (uuid_pool w) (uuid_draws w)).

(** [uuid4().hex] *)
Definition uuid4_hex : M string :=
  fun w =>
    (Return (uuid_pool w (uuid_draws w)),
     mkWorld (utc_clock w) (utc_reads w) (uuid_pool w) (S (uuid_draws w))).

(** [for x in l: s = body(s, x)] for a body with effects. *)
Fixpoint for_each {A S : Type} (body : S -> A -> M S) (l : list A) (s : S)
    : M S :=
  match l with
  | [] => ret s
  | x :: r => let* s' := body s x in for_each body r s'
  end.

(** [deepcopy]: the values of the embedding own all their parts. *)
Definition deepcopy {A : Type} (x : A) : A := x.

(** Constructors of the models whose defaults are computed on creation, in
    field order. *)
Definition new_ConversationEntry (kind : ConversationEntryKind.t)
    (content : string) (metadata : Dict.t Any) : M ConversationEntry.t :=
  let* entry_id := uuid4_hex in
  let* created_at := utcnow in
  ret (ConversationEntry.mk entry_id kind content created_at metadata).

Definition new_RefinementExchange (question intent answer : string)
    : M RefinementExchange.t :=
  let* collected_at := utcnow in
  ret (RefinementExchange.mk question answer intent collected_at).

Definition new_ProgressLogEntry (user_text : string)
    (referenced_item_ids : list string)
    (status_transitions sub_status_transitions : Dict.t ChecklistItemStatus.t)
    (contextual_notes : option string) : M ProgressLogEntry.t :=
  let* entry_id := uuid4_hex in
  let* recorded_at := utcnow in
  ret (ProgressLogEntry.mk entry_id user_text referenced_item_ids
         status_transitions sub_status_transitions contextual_notes
         recorded_at).

Definition new_ResearchState : M ResearchState.t :=
  let* last_transition_at := utcnow in
  ret (ResearchState.mk
         (CoreMemory.mk "AI Checklist Agent"
            ("Transform user goals into measurable checklists, guide execution through "
             ++ "dialogue, and summarize outcomes with documented context.")%string
            "1.0.0")
         (SemanticMemory.mk None "collaborative" None Dict.empty)
         (WorkflowState.mk WorkflowPhase.IDLE 0 3 false false None
            last_transition_at false)
         (WorkingMemory.mk None [] [] [] None [] [] None None None)).

(** Assignments to the attributes of a state, [state.workflow.x = v] and
    [state.working.x = v]. *)
Definition on_workflow (f : WorkflowState.t -> WorkflowState.t)
    (s : ResearchState.t) : ResearchState.t :=
  ResearchState.with_workflow (f (ResearchState.workflow s)) s.

Definition on_working (f : WorkingMemory.t -> WorkingMemory.t)
    (s : ResearchState.t) : ResearchState.t :=
  ResearchState.with_working (f (ResearchState.working s)) s.

Definition set_phase (v : WorkflowPhase.t) : ResearchState.t -> ResearchState.t :=
  on_workflow (WorkflowState.with_phase v).
Definition set_last_transition_at (v : datetime)
    : ResearchState.t -> ResearchState.t :=
  on_workflow (WorkflowState.with_last_transition_at v).
Definition set_questions_asked (v : Z) : ResearchState.t -> ResearchState.t :=
  on_workflow (WorkflowState.with_questions_asked v).
Definition set_awaiting_clarification (v : bool)
    : ResearchState.t -> ResearchState.t :=
  on_workflow (WorkflowState.with_awaiting_clarification v).
Definition set_checklist_items (v : list ChecklistItem.t)
    : ResearchState.t -> ResearchState.t :=
  on_working (WorkingMemory.with_checklist_items v).
Definition set_latest_user_message (v : option string)
    : ResearchState.t -> ResearchState.t :=
  on_working (WorkingMemory.with_latest_user_message v).
Definition set_refinement_questions (v : list RefinementPrompt.t)
    : ResearchState.t -> ResearchState.t :=
  on_working (WorkingMemory.with_refinement_questions v).
Definition set_clarification_prompt (v : option string)
    : ResearchState.t -> ResearchState.t :=
  on_working (WorkingMemory.with_clarification_prompt v).

(** [state.working.conversation_log.append(entry)] *)
Definition append_conversation_log (entry : ConversationEntry.t)
    : ResearchState.t -> ResearchState.t :=
  on_working (fun m =>
    WorkingMemory.with_conversation_log
      (WorkingMemory.conversation_log m ++ [entry]) m).

(** [state.working.refinement_exchanges.append(x)] *)
Definition append_refinement_exchange (x : RefinementExchange.t)
    : ResearchState.t -> ResearchState.t :=
  on_working (fun m =>
    WorkingMemory.with_refinement_exchanges
      (WorkingMemory.refinement_exchanges m ++ [x]) m).

(** [state.working.progress_log.append(entry)] *)
Definition append_progress_log (entry : ProgressLogEntry.t)
    : ResearchState.t -> ResearchState.t :=
  on_working (fun m =>
    WorkingMemory.with_progress_log
      (WorkingMemory.progress_log m ++ [entry]) m).

Definition phase_of (s : ResearchState.t) : WorkflowPhase.t :=
  WorkflowState.phase (ResearchState.workflow s).
Definition items_of (s : ResearchState.t) : list ChecklistItem.t :=
  WorkingMemory.checklist_items (ResearchState.working s).

(** ** agent_checklist.memory.state_manager *)

(** The index that one key contributes to [_next_item_id]: the body of the
    loop, [None] when the key is skipped.  A key that starts with ["item-"]
    always has a second part after the split. *)
Definition item_index (item_id : string) : option Z :=
  if Py.startswith item_id "item-" then
    match Py.split1 "-" item_id with
    | _ :: tail :: _ => Py.int tail
    | _ => None
    end
  else None.

Definition _next_item_id {V : Type} (existing_ids : Dict.t V) : string :=
  let max_index :=
    fold_left
      (fun max_index item_id =>
         match item_index item_id with
         | Some idx => Z.max max_index idx
         | None => max_index
         end)
      (Dict.keys existing_ids) 0%Z in
  ("item-" ++ Py.str (max_index + 1))%string.

(** The last part of [sub_id.split("-")]. *)
Definition last_part (sub_id : string) : string :=
  List.last (Py.split "-" sub_id) EmptyString.

Definition sub_item_index (prefix sub_id : string) : option Z :=
  if Py.startswith sub_id prefix then Py.int (last_part sub_id) else None.

Definition _next_sub_item_id (parent_id : string) (existing_ids : list string)
    : string :=
  let prefix := (parent_id ++ "-")%string in
  let max_index :=
    fold_left
      (fun max_index sub_id =>
         match sub_item_index prefix sub_id with
         | Some idx => Z.max max_index idx
         | None => max_index
         end)
      existing_ids 0%Z in
  (parent_id ++ "-" ++ Py.str (max_index + 1))%string.

Definition _build_sub_items_from_bullets (parent_id : string)
    (sub_bullets : list ChecklistSubBullet.t) : list ChecklistSubItem.t :=
  imap
    (fun index sub =>
       ChecklistSubItem.mk
         (parent_id ++ "-" ++ Py.str (Z.of_nat index + 1))%string
         (ChecklistSubBullet.summary sub)
         (ChecklistSubBullet.detail sub)
         ChecklistItemStatus.PENDING
         (ChecklistSubBullet.success_criteria sub)
         [])
    sub_bullets.

(** The objects reachable in [_apply_sub_item_updates]: [objects] holds the
    sub-item objects, the local list [sub_items] and the dictionary
    [sub_map] hold addresses of them. *)
Module SubStore.
Record t : Type := mk {
  objects : list ChecklistSubItem.t;
  sub_items : list nat;
  sub_map : Dict.t nat }.

Definition id_at (st : t) (a : nat) : option string :=
  ChecklistSubItem.sub_item_id <$> (objects st !! a).

(** [list(item.sub_items)] and
    [{sub.sub_item_id: sub for sub in sub_items}] *)
Definition load (subs : list ChecklistSubItem.t) : t :=
  mk subs (seq 0 (length subs))
     (Dict.of_pairs (imap (fun a sub => (ChecklistSubItem.sub_item_id sub, a)) subs)).

(** The sub-items that the list refers to, in order. *)
Definition read (st : t) : list ChecklistSubItem.t :=
  omap (fun a => objects st !! a) (sub_items st).
End SubStore.

Definition apply_sub_item_change (parent_id : string) (st : SubStore.t)
    (change : RefinementSubItemUpdateModel.t) : SubStore.t :=
  match RefinementSubItemUpdateModel.action change with
  | Action.add =>
      match RefinementSubItemUpdateModel.summary change with
      | Some summary =>
          if Py.truthy summary then
            let new_id :=
              match RefinementSubItemUpdateModel.sub_item_id change with
              | Some i =>
                  if Py.truthy i then i
                  else _next_sub_item_id parent_id
                         (Dict.keys (SubStore.sub_map st))
              | None =>
                  _next_sub_item_id parent_id (Dict.keys (SubStore.sub_map st))
              end in
            let new_sub :=
              ChecklistSubItem.mk new_id summary
                (RefinementSubItemUpdateModel.detail change)
                ChecklistItemStatus.PENDING
                (RefinementSubItemUpdateModel.success_criteria change)
                [] in
            let a := length (SubStore.objects st) in
            SubStore.mk (SubStore.objects st ++ [new_sub])
              (SubStore.sub_items st ++ [a])
              (Dict.set new_id a (SubStore.sub_map st))
          else st
      | None => st
      end
  | Action.remove =>
      match RefinementSubItemUpdateModel.sub_item_id change with
      | Some i =>
          if Dict.mem i (SubStore.sub_map st) then
            SubStore.mk (SubStore.objects st)
              (List.filter
                 (fun a =>
                    match SubStore.id_at st a with
                    | Some j => negb (String.eqb j i)
                    | None => false
                    end)
                 (SubStore.sub_items st))
              (Dict.pop i (SubStore.sub_map st))
          else st
      | None => st
      end
  | Action.update =>
      match RefinementSubItemUpdateModel.sub_item_id change with
      | Some i =>
          match Dict.get i (SubStore.sub_map st) with
          | Some a =>
              match SubStore.objects st !! a with
              | Some sub =>
                  let sub :=
                    ChecklistSubItem.with_summary
                      (Py.or_str (RefinementSubItemUpdateModel.summary change)
                         (ChecklistSubItem.summary sub)) sub in
                  let sub :=
                    ChecklistSubItem.with_detail
                      (Py.or_opt (RefinementSubItemUpdateModel.detail change)
                         (ChecklistSubItem.detail sub)) sub in
                  let sub :=
                    ChecklistSubItem.with_success_criteria
                      (Py.or_opt
                         (RefinementSubItemUpdateModel.success_criteria change)
                         (ChecklistSubItem.success_criteria sub)) sub in
                  SubStore.mk (<[a := sub]> (SubStore.objects st))
                    (SubStore.sub_items st) (SubStore.sub_map st)
              | None => st
              end
          | None => st
          end
      | None => st
      end
  end.

(** The item is passed by reference in the source; the embedding returns
    the item after the assignment to [item.sub_items]. *)
Definition _apply_sub_item_updates (item : ChecklistItem.t)
    (updates : list RefinementSubItemUpdateModel.t) : ChecklistItem.t :=
  match updates with
  | [] => item
  | _ =>
      let st :=
        fold_left (apply_sub_item_change (ChecklistItem.item_id item)) updates
          (SubStore.load (ChecklistItem.sub_items item)) in
      ChecklistItem.with_sub_items (SubStore.read st) item
  end.

Definition create_initial_state (user_handle : option string)
    : M ResearchState.t :=
  let* state := new_ResearchState in
  let state :=
    ResearchState.with_semantic
      (SemanticMemory.mk user_handle
         (SemanticMemory.preferred_tone (ResearchState.semantic state))
         (SemanticMemory.timezone (ResearchState.semantic state))
         (SemanticMemory.saved_preferences (ResearchState.semantic state)))
      state in
  let state :=
    on_workflow
      (WorkflowState.with_max_refinement_questions MAX_REFINEMENT_QUESTIONS)
      state in
  ret state.

Definition ingest_user_description (state : ResearchState.t)
    (description : string) : M ResearchState.t :=
  let new_state := deepcopy state in
  let sanitized := Py.strip description in
  if negb (Py.truthy sanitized) then ret new_state
  else
    let new_state :=
      on_working (WorkingMemory.with_original_description (Some sanitized))
        new_state in
    let new_state := set_phase WorkflowPhase.GENERATING_CHECKLIST new_state in
    let* now := utcnow in
    let new_state := set_last_transition_at now new_state in
    let* entry :=
      new_ConversationEntry ConversationEntryKind.USER sanitized Dict.empty in
    ret (append_conversation_log entry new_state).

Definition record_user_feedback (state : ResearchState.t) (feedback : string)
    : M ResearchState.t :=
  let new_state := deepcopy state in
  let sanitized := Py.strip feedback in
  if negb (Py.truthy sanitized) then ret new_state
  else
    let new_state := set_latest_user_message (Some sanitized) new_state in
    let new_state := set_phase WorkflowPhase.PROCESSING_FEEDBACK new_state in
    let* now := utcnow in
    let new_state := set_last_transition_at now new_state in
    let* entry :=
      new_ConversationEntry ConversationEntryKind.USER sanitized Dict.empty in
    ret (append_conversation_log entry new_state).

Definition ingest_progress_input (state : ResearchState.t)
    (user_message : string) : M ResearchState.t :=
  let new_state := deepcopy state in
  let sanitized := Py.strip user_message in
  if negb (Py.truthy sanitized) then ret new_state
  else
    let new_state := set_latest_user_message (Some sanitized) new_state in
    let new_state := set_phase WorkflowPhase.INTERPRETING_INTENT new_state in
    let* now := utcnow in
    let new_state := set_last_transition_at now new_state in
    let* entry :=
      new_ConversationEntry ConversationEntryKind.USER sanitized Dict.empty in
    ret (append_conversation_log entry new_state).

Definition mark_checklist_approved (state : ResearchState.t)
    : M ResearchState.t :=
  let new_state := deepcopy state in
  let new_state :=
    on_workflow (WorkflowState.with_checklist_finalized true) new_state in
  let new_state := set_phase WorkflowPhase.SAVING_CHECKLIST new_state in
  let new_state :=
    on_workflow (WorkflowState.with_pending_save true) new_state in
  let* now := utcnow in
  ret (set_last_transition_at now new_state).

Definition mark_checklist_rejected (state : ResearchState.t) (reason : string)
    : M ResearchState.t :=
  let new_state := deepcopy state in
  let sanitized := Py.strip reason in
  let* new_state :=
    (if Py.truthy sanitized then
       let* entry :=
         new_ConversationEntry ConversationEntryKind.USER sanitized
           Dict.empty in
       ret (append_conversation_log entry new_state)
     else ret new_state) in
  let new_state := set_phase WorkflowPhase.PROCESSING_FEEDBACK new_state in
  let* now := utcnow in
  ret (set_last_transition_at now new_state).

Definition activate_tracking_mode (state : ResearchState.t)
    : M ResearchState.t :=
  let new_state := deepcopy state in
  let new_state := set_phase WorkflowPhase.LISTENING_FOR_PROGRESS new_state in
  let* started :=
    (match WorkflowState.listening_started_at
             (ResearchState.workflow new_state) with
     | Some t => ret t
     | None => utcnow
     end) in
  let new_state :=
    on_workflow (WorkflowState.with_listening_started_at (Some started))
      new_state in
  let* now := utcnow in
  ret (set_last_transition_at now new_state).

Definition acknowledge_progress_ack (state : ResearchState.t)
    : M ResearchState.t :=
  let new_state := deepcopy state in
  let new_state := set_phase WorkflowPhase.LISTENING_FOR_PROGRESS new_state in
  let new_state := set_awaiting_clarification false new_state in
  let* now := utcnow in
  let new_state := set_last_transition_at now new_state in
  let new_state := set_clarification_prompt None new_state in
  let new_state := set_latest_user_message None new_state in
  ret new_state.

Definition acknowledge_summary_delivery (state : ResearchState.t)
    : M ResearchState.t :=
  let new_state := deepcopy state in
  let new_state := set_phase WorkflowPhase.SESSION_COMPLETE new_state in
  let* now := utcnow in
  ret (set_last_transition_at now new_state).

(** The loop of [checklist_is_complete], with its early returns. *)
Fixpoint every_item_complete (items : list ChecklistItem.t) : bool :=
  match items with
  | [] => true
  | item :: rest =>
      if negb (ChecklistItemStatus.eqb (ChecklistItem.status item)
                 ChecklistItemStatus.COMPLETE)
      then false
      else if existsb
                (fun sub =>
                   negb (ChecklistItemStatus.eqb (ChecklistSubItem.status sub)
                           ChecklistItemStatus.COMPLETE))
                (ChecklistItem.sub_items item)
      then false
      else every_item_complete rest
  end.

Definition checklist_is_complete (state : ResearchState.t) : bool :=
  match items_of state with
  | [] => false
  | items => every_item_complete items
  end.

Definition build_artifact (state : ResearchState.t) : M ChecklistArtifact.t :=
  match WorkingMemory.original_description (ResearchState.working state) with
  | None =>
      raise (ValueError
               "Cannot persist checklist without an original description")
  | Some original_description =>
      let items :=
        map
          (fun item =>
             ChecklistArtifactItem.mk
               (ChecklistItem.summary item)
               (ChecklistItem.detail item)
               (ChecklistItem.status item)
               (ChecklistItem.notes item)
               (map
                  (fun sub =>
                     ChecklistSubItem.mk
                       (ChecklistSubItem.sub_item_id sub)
                       (ChecklistSubItem.summary sub)
                       (ChecklistSubItem.detail sub)
                       (ChecklistSubItem.status sub)
                       (ChecklistSubItem.success_criteria sub)
                       (ChecklistSubItem.notes sub))
                  (ChecklistItem.sub_items item)))
          (items_of state) in
      let* created_at := utcnow in
      ret (ChecklistArtifact.mk
             original_description
             created_at
             items
             (WorkingMemory.refinement_exchanges (ResearchState.working state))
             (WorkingMemory.progress_log (ResearchState.working state))
             (WorkingMemory.completion_summary (ResearchState.working state))
             (Py.slice_from (-10)
                (WorkingMemory.conversation_log
                   (ResearchState.working state))))
  end.

Definition skill_metadata (skill : SkillName.t) : Dict.t Any :=
  [("skill", AnyStr (SkillName.value skill))].

Definition _handle_generate_initial_checklist (state : ResearchState.t)
    (output : GenerateInitialChecklistOutput.t) : M ResearchState.t :=
  let new_state := deepcopy state in
  let items :=
    imap
      (fun index bullet =>
         let parent_id := ("item-" ++ Py.str (Z.of_nat index + 1))%string in
         let sub_items :=
           _build_sub_items_from_bullets parent_id
             (ChecklistBullet.sub_items bullet) in
         ChecklistItem.mk parent_id
           (ChecklistBullet.summary bullet)
           (ChecklistBullet.detail bullet)
           ChecklistItemStatus.PENDING
           (ChecklistBullet.success_criteria bullet)
           []
           sub_items)
      (GenerateInitialChecklistOutput.items output) in
  let new_state := set_checklist_items items new_state in
  let new_state := set_questions_asked 0 new_state in
  let new_state :=
    set_phase WorkflowPhase.ASKING_REFINEMENT_QUESTIONS new_state in
  let* now := utcnow in
  let new_state := set_last_transition_at now new_state in
  let* entry :=
    new_ConversationEntry ConversationEntryKind.AGENT
      (GenerateInitialChecklistOutput.ai_response output)
      (skill_metadata SkillName.GENERATE_INITIAL_CHECKLIST) in
  ret (append_conversation_log entry new_state).

Definition _handle_generate_refinement_questions (state : ResearchState.t)
    (output : GenerateRefinementQuestionsOutput.t) : M ResearchState.t :=
  let new_state := deepcopy state in
  let prompts :=
    map
      (fun question =>
         RefinementPrompt.mk (RefinementQuestionModel.question question)
           (RefinementQuestionModel.intent question))
      (GenerateRefinementQuestionsOutput.questions output) in
  let new_state := set_refinement_questions prompts new_state in
  let new_state :=
    set_questions_asked
      (WorkflowState.questions_asked (ResearchState.workflow new_state)
       + Z.of_nat (length prompts))
      new_state in
  let new_state :=
    set_phase
      (match prompts with
       | _ :: _ => WorkflowPhase.AWAITING_USER_RESPONSE
       | [] => WorkflowPhase.CHECK_APPROVAL
       end)
      new_state in
  let* now := utcnow in
  let new_state := set_last_transition_at now new_state in
  let agent_message :=
    Py.or_str (Some (GenerateRefinementQuestionsOutput.ai_response output))
      "Here are a few clarification questions." in
  let* entry :=
    new_ConversationEntry ConversationEntryKind.AGENT agent_message
      (skill_metadata SkillName.GENERATE_REFINEMENT_QUESTIONS) in
  let new_state := append_conversation_log entry new_state in
  for_each
    (fun new_state prompt =>
       let* entry :=
         new_ConversationEntry ConversationEntryKind.AGENT
           (RefinementPrompt.question prompt) Dict.empty in
       ret (append_conversation_log entry new_state))
    prompts new_state.

(** The objects reachable in [_handle_incorporate_refinements]: [objects]
    holds the item objects, the list [checklist_items] of the new state and
    the dictionary [items_by_id] hold addresses of them. *)
Module ItemStore.
Record t : Type := mk {
  objects : list ChecklistItem.t;
  checklist_items : list nat;
  items_by_id : Dict.t nat }.

Definition id_at (st : t) (a : nat) : option string :=
  ChecklistItem.item_id <$> (objects st !! a).

(** The deep copy of the item list and
    [{item.item_id: item for item in new_state.working.checklist_items}] *)
Definition load (items : list ChecklistItem.t) : t :=
  mk items (seq 0 (length items))
     (Dict.of_pairs (imap (fun a item => (ChecklistItem.item_id item, a)) items)).

(** The items that the list refers to, in order. *)
Definition read (st : t) : list ChecklistItem.t :=
  omap (fun a => objects st !! a) (checklist_items st).
End ItemStore.

(** One turn of the loop over [output.updates]. *)
Definition apply_refinement_update (st : ItemStore.t)
    (update : RefinementUpdateModel.t) : ItemStore.t :=
  match RefinementUpdateModel.action update with
  | Action.add =>
      match RefinementUpdateModel.summary update with
      | Some summary =>
          if Py.truthy summary then
            let new_id :=
              match RefinementUpdateModel.item_id update with
              | Some i =>
                  if Py.truthy i then i
                  else _next_item_id (ItemStore.items_by_id st)
              | None => _next_item_id (ItemStore.items_by_id st)
              end in
            let new_item :=
              ChecklistItem.mk new_id summary
                (RefinementUpdateModel.detail update)
                ChecklistItemStatus.PENDING
                (RefinementUpdateModel.success_criteria update)
                []
                (_build_sub_items_from_bullets new_id
                   (RefinementUpdateModel.sub_items update)) in
            let new_item :=
              match RefinementUpdateModel.sub_item_updates update with
              | [] => new_item
              | _ =>
                  _apply_sub_item_updates new_item
                    (RefinementUpdateModel.sub_item_updates update)
              end in
            let a := length (ItemStore.objects st) in
            ItemStore.mk (ItemStore.objects st ++ [new_item])
              (ItemStore.checklist_items st ++ [a])
              (Dict.set new_id a (ItemStore.items_by_id st))
          else st
      | None => st
      end
  | Action.remove =>
      match RefinementUpdateModel.item_id update with
      | Some i =>
          if Py.truthy i && Dict.mem i (ItemStore.items_by_id st) then
            ItemStore.mk (ItemStore.objects st)
              (List.filter
                 (fun a =>
                    match ItemStore.id_at st a with
                    | Some j => negb (String.eqb j i)
                    | None => false
                    end)
                 (ItemStore.checklist_items st))
              (Dict.pop i (ItemStore.items_by_id st))
          else st
      | None => st
      end
  | Action.update =>
      match RefinementUpdateModel.item_id update with
      | Some i =>
          if Py.truthy i then
            match Dict.get i (ItemStore.items_by_id st) with
            | Some a =>
                match ItemStore.objects st !! a with
                | Some item =>
                    let item :=
                      ChecklistItem.with_summary
                        (Py.or_str (RefinementUpdateModel.summary update)
                           (ChecklistItem.summary item)) item in
                    let item :=
                      ChecklistItem.with_detail
                        (Py.or_opt (RefinementUpdateModel.detail update)
                           (ChecklistItem.detail item)) item in
                    let item :=
                      ChecklistItem.with_success_criteria
                        (Py.or_opt
                           (RefinementUpdateModel.success_criteria update)
                           (ChecklistItem.success_criteria item)) item in
                    let item :=
                      match RefinementUpdateModel.sub_items update with
                      | [] => item
                      | bullets =>
                          ChecklistItem.with_sub_items
                            (_build_sub_items_from_bullets
                               (ChecklistItem.item_id item) bullets) item
                      end in
                    let item :=
                      _apply_sub_item_updates item
                        (RefinementUpdateModel.sub_item_updates update) in
                    ItemStore.mk (<[a := item]> (ItemStore.objects st))
                      (ItemStore.checklist_items st)
                      (ItemStore.items_by_id st)
                | None => st
                end
            | None => st
            end
          else st
      | None => st
      end
  end.

(** The item list of the new state after the loop over [updates]. *)
Definition refined_items (items : list ChecklistItem.t)
    (updates : list RefinementUpdateModel.t) : list ChecklistItem.t :=
  ItemStore.read (fold_left apply_refinement_update updates (ItemStore.load items)).

Definition _handle_incorporate_refinements (state : ResearchState.t)
    (output : IncorporateRefinementsOutput.t) : M ResearchState.t :=
  let new_state := deepcopy state in
  let new_state :=
    set_checklist_items
      (refined_items (items_of new_state)
         (IncorporateRefinementsOutput.updates output))
      new_state in
  let answer_text :=
    Py.or_str
      (WorkingMemory.latest_user_message (ResearchState.working new_state))
      "" in
  let* new_state :=
    for_each
      (fun new_state prompt =>
         let* exchange :=
           new_RefinementExchange (RefinementPrompt.question prompt)
             (RefinementPrompt.intent prompt) answer_text in
         ret (append_refinement_exchange exchange new_state))
      (WorkingMemory.refinement_questions (ResearchState.working new_state))
      new_state in
  let new_state := set_refinement_questions [] new_state in
  let new_state := set_latest_user_message None new_state in
  let new_state := set_phase WorkflowPhase.CHECK_APPROVAL new_state in
  let* now := utcnow in
  let new_state := set_last_transition_at now new_state in
  let* entry :=
    new_ConversationEntry ConversationEntryKind.AGENT
      (IncorporateRefinementsOutput.ai_response output)
      (skill_metadata SkillName.INCORPORATE_REFINEMENTS) in
  ret (append_conversation_log entry new_state).

(** In [_handle_interpret_progress_update] no item is created or dropped:
    the item list of the new state is the object store, an item object is
    named by its position and a sub-item object by the position of its
    parent and its position in the parent. *)
Definition index_items (items : list ChecklistItem.t) : Dict.t nat :=
  Dict.of_pairs (imap (fun a item => (ChecklistItem.item_id item, a)) items).

Definition index_sub_items (items : list ChecklistItem.t)
    : Dict.t (nat * nat) :=
  Dict.of_pairs
    (concat
       (imap
          (fun a item =>
             imap (fun b sub => (ChecklistSubItem.sub_item_id sub, (a, b)))
               (ChecklistItem.sub_items item))
          items)).

Definition sub_item_at (items : list ChecklistItem.t) (p : nat * nat)
    : option ChecklistSubItem.t :=
  match items !! fst p with
  | Some item => ChecklistItem.sub_items item !! snd p
  | None => None
  end.

Definition store_sub_item (items : list ChecklistItem.t) (p : nat * nat)
    (sub : ChecklistSubItem.t) : list ChecklistItem.t :=
  match items !! fst p with
  | Some item =>
      <[fst p :=
          ChecklistItem.with_sub_items
            (<[snd p := sub]> (ChecklistItem.sub_items item)) item]> items
  | None => items
  end.

(** One turn of [for item_id in signal.item_ids]. *)
Definition signal_item_step (items_by_id : Dict.t nat)
    (signal : ProgressSignalModel.t)
    (acc : list ChecklistItem.t * Dict.t ChecklistItemStatus.t)
    (item_id : string)
    : list ChecklistItem.t * Dict.t ChecklistItemStatus.t :=
  let '(items, transition_map) := acc in
  match Dict.get item_id items_by_id with
  | None => acc
  | Some a =>
      match items !! a with
      | None => acc
      | Some item =>
          let item :=
            match ProgressSignalModel.new_status signal with
            | Some new_status =>
                if negb (ChecklistItemStatus.eqb (ChecklistItem.status item)
                           new_status)
                then ChecklistItem.with_status new_status item
                else item
            | None => item
            end in
          let item :=
            match ProgressSignalModel.note signal with
            | Some note =>
                if Py.truthy note
                then ChecklistItem.with_notes
                       (ChecklistItem.notes item ++ [note]) item
                else item
            | None => item
            end in
          (<[a := item]> items,
           Dict.set item_id (ChecklistItem.status item) transition_map)
      end
  end.

(** One turn of [for sub_item_id in signal.sub_item_ids]. *)
Definition signal_sub_item_step (sub_items_by_id : Dict.t (nat * nat))
    (signal : ProgressSignalModel.t)
    (acc : list ChecklistItem.t * Dict.t ChecklistItemStatus.t)
    (sub_item_id : string)
    : list ChecklistItem.t * Dict.t ChecklistItemStatus.t :=
  let '(items, sub_transition_map) := acc in
  match Dict.get sub_item_id sub_items_by_id with
  | None => acc
  | Some p =>
      match sub_item_at items p with
      | None => acc
      | Some sub_item =>
          let sub_item :=
            match ProgressSignalModel.new_status signal with
            | Some new_status =>
                if negb (ChecklistItemStatus.eqb
                           (ChecklistSubItem.status sub_item) new_status)
                then ChecklistSubItem.with_status new_status sub_item
                else sub_item
            | None => sub_item
            end in
          let sub_item :=
            match ProgressSignalModel.note signal with
            | Some note =>
                if Py.truthy note
                then ChecklistSubItem.with_notes
                       (ChecklistSubItem.notes sub_item ++ [note]) sub_item
                else sub_item
            | None => sub_item
            end in
          (store_sub_item items p sub_item,
           Dict.set sub_item_id (ChecklistSubItem.status sub_item)
             sub_transition_map)
      end
  end.

(** One turn of [for signal in output.signals]. *)
Definition apply_signal (items_by_id : Dict.t nat)
    (sub_items_by_id : Dict.t (nat * nat)) (new_state : ResearchState.t)
    (signal : ProgressSignalModel.t) : M ResearchState.t :=
  let '(items, transition_map) :=
    fold_left (signal_item_step items_by_id signal)
      (ProgressSignalModel.item_ids signal)
      (items_of new_state, Dict.empty) in
  let '(items, sub_transition_map) :=
    fold_left (signal_sub_item_step sub_items_by_id signal)
      (ProgressSignalModel.sub_item_ids signal)
      (items, Dict.empty) in
  let new_state := set_checklist_items items new_state in
  let user_text :=
    Py.or_str
      (WorkingMemory.latest_user_message (ResearchState.working new_state))
      "" in
  match transition_map with
  | _ :: _ =>
      let* entry :=
        new_ProgressLogEntry user_text (Dict.keys transition_map)
          transition_map sub_transition_map
          (ProgressSignalModel.context signal) in
      ret (append_progress_log entry new_state)
  | [] =>
      match sub_transition_map with
      | _ :: _ =>
          let* entry :=
            new_ProgressLogEntry user_text [] Dict.empty sub_transition_map
              (ProgressSignalModel.context signal) in
          ret (append_progress_log entry new_state)
      | [] => ret new_state
      end
  end.

Definition _handle_interpret_progress_update (state : ResearchState.t)
    (output : InterpretProgressUpdateOutput.t) : M ResearchState.t :=
  let new_state := deepcopy state in
  let items_by_id := index_items (items_of new_state) in
  let sub_items_by_id := index_sub_items (items_of new_state) in
  let* new_state :=
    for_each (apply_signal items_by_id sub_items_by_id)
      (InterpretProgressUpdateOutput.signals output) new_state in
  let* entry :=
    new_ConversationEntry ConversationEntryKind.AGENT
      (InterpretProgressUpdateOutput.ai_response output)
      (skill_metadata SkillName.INTERPRET_PROGRESS_UPDATE) in
  let new_state := append_conversation_log entry new_state in
  let new_state :=
    if InterpretProgressUpdateOutput.needs_clarification output then
      let new_state := set_awaiting_clarification true new_state in
      let new_state :=
        set_phase WorkflowPhase.ASKING_CLARIFICATION new_state in
      set_clarification_prompt
        (InterpretProgressUpdateOutput.clarification_prompt output) new_state
    else
      let new_state := set_awaiting_clarification false new_state in
      let new_state := set_clarification_prompt None new_state in
      set_phase
        (if checklist_is_complete new_state
         then WorkflowPhase.GENERATING_SUMMARY
         else WorkflowPhase.ACKNOWLEDGING_PROGRESS)
        new_state in
  let* now := utcnow in
  ret (set_last_transition_at now new_state).

Definition _handle_completion_summary (state : ResearchState.t)
    (output : CompletionSummaryOutput.t) : M ResearchState.t :=
  let new_state := deepcopy state in
  let new_state :=
    on_working
      (WorkingMemory.with_completion_summary
         (Some (CompletionSummaryOutput.ai_response output)))
      new_state in
  let new_state := set_phase WorkflowPhase.PRESENTING_SUMMARY new_state in
  let* now := utcnow in
  let new_state := set_last_transition_at now new_state in
  let* entry :=
    new_ConversationEntry ConversationEntryKind.AGENT
      (CompletionSummaryOutput.ai_response output)
      (skill_metadata SkillName.GENERATE_COMPLETION_SUMMARY) in
  ret (append_conversation_log entry new_state).

(** The output model that the skill definitions attach to each skill. *)
Definition output_model (skill_name : SkillName.t) : Type :=
  match skill_name with
  | SkillName.GENERATE_INITIAL_CHECKLIST => GenerateInitialChecklistOutput.t
  | SkillName.GENERATE_REFINEMENT_QUESTIONS =>
      GenerateRefinementQuestionsOutput.t
  | SkillName.INCORPORATE_REFINEMENTS => IncorporateRefinementsOutput.t
  | SkillName.INTERPRET_PROGRESS_UPDATE => InterpretProgressUpdateOutput.t
  | SkillName.GENERATE_COMPLETION_SUMMARY => CompletionSummaryOutput.t
  end.

Definition SkillHandler (skill_name : SkillName.t) : Type :=
  ResearchState.t -> output_model skill_name -> M ResearchState.t.

(** [_SKILL_HANDLERS.get(skill_name)] *)
Definition _SKILL_HANDLERS (skill_name : SkillName.t)
    : option (SkillHandler skill_name) :=
  match skill_name with
  | SkillName.GENERATE_INITIAL_CHECKLIST =>
      Some _handle_generate_initial_checklist
  | SkillName.GENERATE_REFINEMENT_QUESTIONS =>
      Some _handle_generate_refinement_questions
  | SkillName.INCORPORATE_REFINEMENTS => Some _handle_incorporate_refinements
  | SkillName.INTERPRET_PROGRESS_UPDATE =>
      Some _handle_interpret_progress_update
  | SkillName.GENERATE_COMPLETION_SUMMARY => Some _handle_completion_summary
  end.

Definition update_state_from_skill (state : ResearchState.t)
    (skill_name : SkillName.t) (output : output_model skill_name)
    : M ResearchState.t :=
  match _SKILL_HANDLERS skill_name with
  | None =>
      raise (ValueError
               ("No handler registered for skill: "
                ++ SkillName.value skill_name)%string)
  | Some handler => handler state output
  end.

(** ** agent_checklist.engine.coordinator *)

Module Coordinator.
Definition next_action (state : ResearchState.t) : Decision.t :=
  let phase := phase_of state in
  if WorkflowPhase.eqb phase WorkflowPhase.GENERATING_CHECKLIST then
    Decision.llm SkillName.GENERATE_INITIAL_CHECKLIST
      "Transform the goal description into a checklist" None
  else if WorkflowPhase.eqb phase WorkflowPhase.ASKING_REFINEMENT_QUESTIONS
  then
    if (WorkflowState.max_refinement_questions (ResearchState.workflow state)
        <=? WorkflowState.questions_asked (ResearchState.workflow state))%Z
    then
      Decision.noop
        "Awaiting user responses because refinement question limit was reached"
    else
      Decision.llm SkillName.GENERATE_REFINEMENT_QUESTIONS
        "Need up to three clarifying questions" None
  else if WorkflowPhase.eqb phase WorkflowPhase.PROCESSING_FEEDBACK then
    Decision.llm SkillName.INCORPORATE_REFINEMENTS
      "User provided refinement feedback" None
  else if WorkflowPhase.eqb phase WorkflowPhase.INTERPRETING_INTENT then
    Decision.llm SkillName.INTERPRET_PROGRESS_UPDATE
      "Interpret the latest progress update" None
  else if WorkflowPhase.eqb phase WorkflowPhase.GENERATING_SUMMARY then
    Decision.llm SkillName.GENERATE_COMPLETION_SUMMARY
      "All items complete; compile the final summary" None
  else Decision.noop "No LLM action required for the current phase".
End Coordinator.

(** ** Vocabulary of the properties *)

(** A text made of white space only; the empty text is one. *)
Fixpoint blank (s : string) : bool :=
  match s with
  | EmptyString => true
  | String c r => Py.is_space c && blank r
  end.


Definition item_ids (items : list ChecklistItem.t) : list string :=
  map ChecklistItem.item_id items.

Definition sub_item_ids (item : ChecklistItem.t) : list string :=
  map ChecklistSubItem.sub_item_id (ChecklistItem.sub_items item).

(** Item ids pairwise distinct, and sub-item ids pairwise distinct inside
    each parent. *)
Definition unique_ids (items : list ChecklistItem.t) : Prop :=
  NoDup (item_ids items) /\ Forall (fun item => NoDup (sub_item_ids item)) items.

Definition item_complete (item : ChecklistItem.t) : Prop :=
  ChecklistItem.status item = ChecklistItemStatus.COMPLETE /\
  Forall (fun sub => ChecklistSubItem.status sub = ChecklistItemStatus.COMPLETE)
    (ChecklistItem.sub_items item).

(** The world after one reading of the clock. *)
Definition after_utcnow (w : World) : World :=
  mkWorld (utc_clock w) (S (utc_reads w)) (uuid_pool w) (uuid_draws w).

Definition a_world : World :=
  mkWorld Z.of_nat 0
          (fun n =>
             match n with
             | 0 => "5f0c"
             | 1 => "a1d2"
             | 2 => "e3b4"
             | _ => "77c9"
             end%nat)
          0.

Definition a_state : ResearchState.t :=
  ResearchState.mk
    (CoreMemory.mk "AI Checklist Agent" "mission" "1.0.0")
    (SemanticMemory.mk None "collaborative" None Dict.empty)
    (WorkflowState.mk WorkflowPhase.IDLE 0 3 false false None 0%Z false)
    (WorkingMemory.mk None [] [] [] None [] [] None None None).

Definition an_item (item_id summary : string)
    (status : ChecklistItemStatus.t) (sub_items : list ChecklistSubItem.t)
    : ChecklistItem.t :=
  ChecklistItem.mk item_id summary None status None [] sub_items.

Definition a_sub_item (sub_item_id summary : string)
    (status : ChecklistItemStatus.t) : ChecklistSubItem.t :=
  ChecklistSubItem.mk sub_item_id summary None status None [].

(** The state with [entries] appended to its conversation log. *)
Definition append_entries (entries : list ConversationEntry.t)
    : ResearchState.t -> ResearchState.t :=
  on_working (fun m =>
    WorkingMemory.with_conversation_log
      (WorkingMemory.conversation_log m ++ entries) m).

Definition questions_asked_of (s : ResearchState.t) : Z :=
  WorkflowState.questions_asked (ResearchState.workflow s).

Definition conversation_log_of (s : ResearchState.t)
    : list ConversationEntry.t :=
  WorkingMemory.conversation_log (ResearchState.working s).

Definition progress_log_of (s : ResearchState.t) : list ProgressLogEntry.t :=
  WorkingMemory.progress_log (ResearchState.working s).

Definition asking_state (asked : Z) : ResearchState.t :=
  set_questions_asked asked
    (set_phase WorkflowPhase.ASKING_REFINEMENT_QUESTIONS a_state).

Definition original_description_of (s : ResearchState.t) : option string :=
  WorkingMemory.original_description (ResearchState.working s).

Definition missing_description : Exception :=
  ValueError "Cannot persist checklist without an original description".

(** The store of the refinement handler is well formed: the list refers to
    allocated objects only, and the keys of the dictionary are the ids of
    the listed items. *)
Definition store_ok (st : ItemStore.t) : Prop :=
  Forall (fun a => a < length (ItemStore.objects st))
    (ItemStore.checklist_items st) /\
  forall k,
    Dict.mem k (ItemStore.items_by_id st) = true
    <-> k ∈ item_ids (ItemStore.read st).



Definition an_update (action : Action.t) (item_id summary : option string)
    : RefinementUpdateModel.t :=
  RefinementUpdateModel.mk item_id action summary None None [] [].

(** The sub-item ids of all the items, in order. *)
Definition all_sub_item_ids (items : list ChecklistItem.t) : list string :=
  concat (map sub_item_ids items).

(** The ids of a checklist, item by item: the part of a checklist that the
    progress handler never changes. *)
Definition id_shape (items : list ChecklistItem.t)
    : list (string * list string) :=
  map (fun item => (ChecklistItem.item_id item, sub_item_ids item)) items.


Definition is_one_of (l : list string) (k : string) : bool :=
  existsb (String.eqb k) l.

(** The signal names the id of an item, or of a sub-item, of the
    checklist. *)
Definition names_item (items : list ChecklistItem.t)
    (signal : ProgressSignalModel.t) : bool :=
  existsb (is_one_of (item_ids items)) (ProgressSignalModel.item_ids signal).

Definition names_sub_item (items : list ChecklistItem.t)
    (signal : ProgressSignalModel.t) : bool :=
  existsb (is_one_of (all_sub_item_ids items))
    (ProgressSignalModel.sub_item_ids signal).

Definition names_something (items : list ChecklistItem.t)
    (signal : ProgressSignalModel.t) : bool :=
  names_item items signal || names_sub_item items signal.

(** The progress log entry [e] is the one of [signal] on a checklist with
    the ids of [items]: it refers to the ids of the signal that are ids of
    items, each once, these are the keys of its status transitions, and
    the keys of its sub-item transitions are the sub-item ids of the
    signal that are ids of sub-items. *)
Definition logged_for (items : list ChecklistItem.t)
    (signal : ProgressSignalModel.t) (e : ProgressLogEntry.t) : Prop :=
  ProgressLogEntry.referenced_item_ids e
    = Dict.keys (ProgressLogEntry.status_transitions e) /\
  NoDup (ProgressLogEntry.referenced_item_ids e) /\
  (forall k,
     k ∈ ProgressLogEntry.referenced_item_ids e
     <-> k ∈ ProgressSignalModel.item_ids signal /\ k ∈ item_ids items) /\
  NoDup (Dict.keys (ProgressLogEntry.sub_status_transitions e)) /\
  (forall k,
     k ∈ Dict.keys (ProgressLogEntry.sub_status_transitions e)
     <-> k ∈ ProgressSignalModel.sub_item_ids signal /\
         k ∈ all_sub_item_ids items) /\
  ProgressLogEntry.contextual_notes e = ProgressSignalModel.context signal.


Definition a_signal (item_ids sub_item_ids : list string)
    (new_status : option ChecklistItemStatus.t) (note : option string)
    : ProgressSignalModel.t :=
  ProgressSignalModel.mk item_ids sub_item_ids new_status note None.





(** ** Further parts of the source *)

(** [d.update(other)] *)
Definition dict_update {V : Type} (d other : Dict.t V) : Dict.t V :=
  fold_left (fun d kv => Dict.set (fst kv) (snd kv) d) other d.

(** Truth value of a mapping or [None]: [None] and the empty mapping are
    false. *)
Definition truthy_mapping {V : Type} (m : option (Dict.t V)) : bool :=
  match m with
  | Some (_ :: _) => true
  | _ => false
  end.

(** [Decision.tool] of [agent_checklist.domain] *)
Definition Decision_tool (tool reason : string)
    (metadata : option (Dict.t Any)) : Decision.t :=
  let payload : Dict.t Any := [("tool", AnyStr tool)] in
  let payload :=
    match metadata with
    | Some ((_ :: _) as m) => dict_update payload m
    | _ => payload
    end in
  Decision.mk DecisionType.TOOL None reason payload.

(** *** agent_checklist.skills.definitions, without the rendering of
    prompts *)

Module SkillDefinition.
Record t : Type := mk {
  name : SkillName.t;
  template_path : string;
  output_model : Type;
  description : string }.
End SkillDefinition.

(** [_SKILL_DEFINITIONS.get(name)] *)
Definition _SKILL_DEFINITIONS (name : SkillName.t)
    : option SkillDefinition.t :=
  match name with
  | SkillName.GENERATE_INITIAL_CHECKLIST =>
      Some (SkillDefinition.mk SkillName.GENERATE_INITIAL_CHECKLIST
              "skills/generate_initial_checklist.j2"
              GenerateInitialChecklistOutput.t
              "Create a measurable checklist from the user's description.")
  | SkillName.GENERATE_REFINEMENT_QUESTIONS =>
      Some (SkillDefinition.mk SkillName.GENERATE_REFINEMENT_QUESTIONS
              "skills/generate_refinement_questions.j2"
              GenerateRefinementQuestionsOutput.t
              "Ask up to three high-value refinement questions.")
  | SkillName.INCORPORATE_REFINEMENTS =>
      Some (SkillDefinition.mk SkillName.INCORPORATE_REFINEMENTS
              "skills/incorporate_refinements.j2"
              IncorporateRefinementsOutput.t
              "Adjust the checklist based on user feedback.")
  | SkillName.INTERPRET_PROGRESS_UPDATE =>
      Some (SkillDefinition.mk SkillName.INTERPRET_PROGRESS_UPDATE
              "skills/interpret_progress_update.j2"
              InterpretProgressUpdateOutput.t
              "Map user input to checklist progress and context logs.")
  | SkillName.GENERATE_COMPLETION_SUMMARY =>
      Some (SkillDefinition.mk SkillName.GENERATE_COMPLETION_SUMMARY
              "skills/completion_summary.j2"
              CompletionSummaryOutput.t
              "Summarize the completed work using checklist data and logs.")
  end.

(** [get_skill_definition]; [None] stands for [KeyError]. *)
Definition get_skill_definition (name : SkillName.t)
    : option SkillDefinition.t :=
  match _SKILL_DEFINITIONS name with
  | None => None
  | Some definition => Some definition
  end.

(** *** The collaborators of the core

    [model_dump] is the dump of an artifact by the model library,
    [run_skill] is [Executor.run_skill] (prompt rendering and the call of
    the language model) and [repository_save] is [ChecklistRepository.save]
    followed by [str]; the core only calls them. *)

(** A method of [ChecklistAgent]: the agent holds its state in a field that
    [_swap_state] replaces, and the field keeps its value when a call
    raises. *)
Definition Method (A : Type) : Type :=
  ResearchState.t -> World -> Outcome A * ResearchState.t * World.

Definition method_ret {A : Type} (a : A) : Method A :=
  fun st w => (Return a, st, w).

Definition method_bind {A B : Type} (c : Method A) (k : A -> Method B)
    : Method B :=
  fun st w =>
    match c st w with
    | (Return a, st', w') => k a st' w'
    | (Raise e, st', w') => (Raise e, st', w')
    end.

Notation "'do*' x ':=' c 'in' k" := (method_bind c (fun x => k))
  (at level 10, x name, c at level 100, k at level 200).

(** [self.state] *)
Definition self_state : Method ResearchState.t :=
  fun st w => (Return st, st, w).

(** [self._swap_state(new_state)] *)
Definition _swap_state (new_state : ResearchState.t) : Method unit :=
  fun _ w => (Return tt, new_state, w).

(** A call of a function of the core from a method. *)
Definition call {A : Type} (c : M A) : Method A :=
  fun st w => let '(o, w') := c w in (o, st, w').

(** [context or decision.metadata or None] *)
Definition planned_context (context : option (Dict.t Any))
    (metadata : Dict.t Any) : option (Dict.t Any) :=
  if truthy_mapping context then context
  else if truthy_mapping (Some metadata) then Some metadata
  else None.

Section Collaborators.

Variable model_dump : ChecklistArtifact.t -> Any.
Variable run_skill :
  forall skill_name : SkillName.t,
    ResearchState.t -> option (Dict.t Any) -> M (output_model skill_name).
Variable repository_save : ChecklistArtifact.t -> M string.

Definition record_save_result (state : ResearchState.t)
    (artifact : ChecklistArtifact.t) (file_path : string)
    : M ResearchState.t :=
  let new_state := deepcopy state in
  let new_state :=
    on_working (WorkingMemory.with_checklist_file_path (Some file_path))
      new_state in
  let new_state :=
    on_workflow (WorkflowState.with_pending_save false) new_state in
  let new_state := set_phase WorkflowPhase.CONFIRMING_SAVE new_state in
  let* now := utcnow in
  let new_state := set_last_transition_at now new_state in
  let* entry :=
    new_ConversationEntry ConversationEntryKind.SYSTEM
      ("Checklist saved to " ++ file_path)%string
      [("artifact_summary", model_dump artifact)] in
  ret (append_conversation_log entry new_state).

(** The methods of [ChecklistAgent] (agent_checklist.app). *)

Definition ingest_description (description : string) : Method unit :=
  do* state := self_state in
  do* new_state := call (ingest_user_description state description) in
  _swap_state new_state.

Definition record_refinement_feedback (feedback : string) : Method unit :=
  do* state := self_state in
  do* new_state := call (record_user_feedback state feedback) in
  _swap_state new_state.

Definition approve_checklist : Method unit :=
  do* state := self_state in
  do* new_state := call (mark_checklist_approved state) in
  _swap_state new_state.

Definition request_more_changes (reason : string) : Method unit :=
  do* state := self_state in
  do* new_state := call (mark_checklist_rejected state reason) in
  _swap_state new_state.

Definition start_tracking : Method unit :=
  do* state := self_state in
  do* new_state := call (activate_tracking_mode state) in
  _swap_state new_state.

Definition ingest_progress_update (update : string) : Method unit :=
  do* state := self_state in
  do* new_state := call (ingest_progress_input state update) in
  _swap_state new_state.

Definition acknowledge_progress : Method unit :=
  do* state := self_state in
  do* new_state := call (acknowledge_progress_ack state) in
  _swap_state new_state.

Definition acknowledge_summary : Method unit :=
  do* state := self_state in
  do* new_state := call (acknowledge_summary_delivery state) in
  _swap_state new_state.

Definition save_checklist : Method string :=
  do* state := self_state in
  do* artifact := call (build_artifact state) in
  do* file_path := call (repository_save artifact) in
  do* state := self_state in
  do* new_state := call (record_save_result state artifact file_path) in
  do* _ := _swap_state new_state in
  do* state := self_state in
  do* new_state := call (activate_tracking_mode state) in
  do* _ := _swap_state new_state in
  method_ret file_path.

Definition next_decision : Method Decision.t :=
  do* state := self_state in
  method_ret (Coordinator.next_action state).

Definition run_planned_action (context : option (Dict.t Any))
    : Method Decision.t :=
  do* decision := next_decision in
  match Decision.decision_type decision, Decision.skill decision with
  | DecisionType.LLM_SKILL, Some skill =>
      do* state := self_state in
      do* output :=
        call (run_skill skill state
                (planned_context context (Decision.metadata decision))) in
      do* state := self_state in
      do* new_state := call (update_state_from_skill state skill output) in
      do* _ := _swap_state new_state in
      method_ret decision
  | _, _ => method_ret decision
  end.

End Collaborators.

(** ** Vocabulary of the further properties *)

(** One call of a function of the state manager, with any input and in any
    world. *)
Inductive transition (model_dump : ChecklistArtifact.t -> Any)
    : ResearchState.t -> ResearchState.t -> Prop :=
  | by_ingest_user_description s text w s' w' :
      ingest_user_description s text w = (Return s', w') -> transition model_dump s s'
  | by_record_user_feedback s text w s' w' :
      record_user_feedback s text w = (Return s', w') -> transition model_dump s s'
  | by_ingest_progress_input s text w s' w' :
      ingest_progress_input s text w = (Return s', w') -> transition model_dump s s'
  | by_mark_checklist_approved s w s' w' :
      mark_checklist_approved s w = (Return s', w') -> transition model_dump s s'
  | by_mark_checklist_rejected s text w s' w' :
      mark_checklist_rejected s text w = (Return s', w') -> transition model_dump s s'
  | by_record_save_result s artifact file_path w s' w' :
      record_save_result model_dump s artifact file_path w = (Return s', w') ->
      transition model_dump s s'
  | by_activate_tracking_mode s w s' w' :
      activate_tracking_mode s w = (Return s', w') -> transition model_dump s s'
  | by_acknowledge_progress_ack s w s' w' :
      acknowledge_progress_ack s w = (Return s', w') -> transition model_dump s s'
  | by_acknowledge_summary_delivery s w s' w' :
      acknowledge_summary_delivery s w = (Return s', w') -> transition model_dump s s'
  | by_update_state_from_skill s skill_name output w s' w' :
      update_state_from_skill s skill_name output w = (Return s', w') ->
      transition model_dump s s'.

(** The states that calls of the state manager lead to from a state made by
    [create_initial_state]. *)
Inductive reachable (model_dump : ChecklistArtifact.t -> Any)
    : ResearchState.t -> Prop :=
  | reachable_initial user_handle w s w' :
      create_initial_state user_handle w = (Return s, w') ->
      reachable model_dump s
  | reachable_step s s' :
      reachable model_dump s -> transition model_dump s s' ->
      reachable model_dump s'.

(** The phases that some function of the state manager sets, with the
    initial one. *)
Definition phase_in_use (phase : WorkflowPhase.t) : bool :=
  match phase with
  | WorkflowPhase.IDLE
  | WorkflowPhase.GENERATING_CHECKLIST
  | WorkflowPhase.ASKING_REFINEMENT_QUESTIONS
  | WorkflowPhase.AWAITING_USER_RESPONSE
  | WorkflowPhase.PROCESSING_FEEDBACK
  | WorkflowPhase.CHECK_APPROVAL
  | WorkflowPhase.SAVING_CHECKLIST
  | WorkflowPhase.CONFIRMING_SAVE
  | WorkflowPhase.LISTENING_FOR_PROGRESS
  | WorkflowPhase.INTERPRETING_INTENT
  | WorkflowPhase.ASKING_CLARIFICATION
  | WorkflowPhase.ACKNOWLEDGING_PROGRESS
  | WorkflowPhase.GENERATING_SUMMARY
  | WorkflowPhase.PRESENTING_SUMMARY
  | WorkflowPhase.SESSION_COMPLETE => true
  | _ => false
  end.

(** The state with [exchanges] appended to its refinement exchanges. *)
Definition append_exchanges (exchanges : list RefinementExchange.t)
    : ResearchState.t -> ResearchState.t :=
  on_working (fun m =>
    WorkingMemory.with_refinement_exchanges
      (WorkingMemory.refinement_exchanges m ++ exchanges) m).

(** The state with another checklist and another progress log. *)
Definition with_progress (items : list ChecklistItem.t)
    (log : list ProgressLogEntry.t) : ResearchState.t -> ResearchState.t :=
  on_working (fun m =>
    WorkingMemory.with_progress_log log
      (WorkingMemory.with_checklist_items items m)).

(** The ids that the signals name. *)
Definition named_item_ids (signals : list ProgressSignalModel.t)
    : list string :=
  concat (map ProgressSignalModel.item_ids signals).

Definition named_sub_item_ids (signals : list ProgressSignalModel.t)
    : list string :=
  concat (map ProgressSignalModel.sub_item_ids signals).

(** What the progress handler may do to a sub-item and to an item, given
    the ids that the signals name: the id and the texts stay, notes are
    only appended, and what is not named keeps its status and its notes. *)
Definition sub_item_moved (named_sub_items : list string)
    (old new : ChecklistSubItem.t) : Prop :=
  ChecklistSubItem.sub_item_id new = ChecklistSubItem.sub_item_id old /\
  ChecklistSubItem.summary new = ChecklistSubItem.summary old /\
  ChecklistSubItem.detail new = ChecklistSubItem.detail old /\
  ChecklistSubItem.success_criteria new
    = ChecklistSubItem.success_criteria old /\
  (exists more,
     ChecklistSubItem.notes new = ChecklistSubItem.notes old ++ more) /\
  (ChecklistSubItem.sub_item_id old ∉ named_sub_items -> new = old).

Definition item_moved (named_items named_sub_items : list string)
    (old new : ChecklistItem.t) : Prop :=
  ChecklistItem.item_id new = ChecklistItem.item_id old /\
  ChecklistItem.summary new = ChecklistItem.summary old /\
  ChecklistItem.detail new = ChecklistItem.detail old /\
  ChecklistItem.success_criteria new = ChecklistItem.success_criteria old /\
  (exists more, ChecklistItem.notes new = ChecklistItem.notes old ++ more) /\
  (ChecklistItem.item_id old ∉ named_items ->
   ChecklistItem.status new = ChecklistItem.status old /\
   ChecklistItem.notes new = ChecklistItem.notes old) /\
  Forall2 (sub_item_moved named_sub_items)
    (ChecklistItem.sub_items old) (ChecklistItem.sub_items new).

Definition latest_user_message_of (s : ResearchState.t) : option string :=
  WorkingMemory.latest_user_message (ResearchState.working s).

Definition refinement_exchanges_of (s : ResearchState.t)
    : list RefinementExchange.t :=
  WorkingMemory.refinement_exchanges (ResearchState.working s).

Definition listening_started_at_of (s : ResearchState.t) : option datetime :=
  WorkflowState.listening_started_at (ResearchState.workflow s).

(** A text as the ingestion functions store it: not blank, and with no
    white space at either end. *)
Definition stored_text (t : string) : Prop :=
  blank t = false /\ Py.strip t = t.

Definition a_dump (artifact : ChecklistArtifact.t) : Any :=
  AnyDict [("task_description",
            AnyStr (ChecklistArtifact.task_description artifact))].

(** What holds of the fields of a state in each phase. *)
Definition coherent (s : ResearchState.t) : Prop :=
  let workflow := ResearchState.workflow s in
  let working := ResearchState.working s in
  phase_in_use (phase_of s) = true /\
  WorkflowState.max_refinement_questions workflow = MAX_REFINEMENT_QUESTIONS /\
  (0 <= WorkflowState.questions_asked workflow)%Z /\
  (phase_of s = WorkflowPhase.ASKING_REFINEMENT_QUESTIONS ->
   WorkflowState.questions_asked workflow = 0%Z) /\
  (forall d, WorkingMemory.original_description working = Some d ->
             stored_text d) /\
  (forall t, WorkingMemory.latest_user_message working = Some t ->
             stored_text t) /\
  (phase_of s = WorkflowPhase.GENERATING_CHECKLIST ->
   WorkingMemory.original_description working <> None) /\
  (phase_of s = WorkflowPhase.INTERPRETING_INTENT ->
   WorkingMemory.latest_user_message working <> None) /\
  (phase_of s = WorkflowPhase.GENERATING_SUMMARY ->
   checklist_is_complete s = true) /\
  (WorkflowState.pending_save workflow = true ->
   WorkflowState.checklist_finalized workflow = true) /\
  (phase_of s = WorkflowPhase.SAVING_CHECKLIST ->
   WorkflowState.pending_save workflow = true) /\
  (phase_of s = WorkflowPhase.CONFIRMING_SAVE ->
   WorkingMemory.checklist_file_path working <> None /\
   WorkflowState.pending_save workflow = false) /\
  (phase_of s = WorkflowPhase.AWAITING_USER_RESPONSE ->
   WorkingMemory.refinement_questions working <> []) /\
  (phase_of s = WorkflowPhase.CHECK_APPROVAL ->
   WorkingMemory.refinement_questions working = []) /\
  (phase_of s = WorkflowPhase.ASKING_CLARIFICATION ->
   WorkflowState.awaiting_clarification workflow = true) /\
  (phase_of s = WorkflowPhase.PRESENTING_SUMMARY ->
   WorkingMemory.completion_summary working <> None) /\
  (phase_of s = WorkflowPhase.IDLE ->
   WorkingMemory.conversation_log working = [] /\
   WorkingMemory.checklist_items working = [] /\
   WorkingMemory.original_description working = None).

(** *** An example session *)

(** The state and the world after one more call, for the examples. *)
Definition after (step : ResearchState.t -> M ResearchState.t)
    (sw : ResearchState.t * World) : ResearchState.t * World :=
  match step (fst sw) (snd sw) with
  | (Return s', w') => (s', w')
  | (Raise _, w') => (fst sw, w')
  end.

Definition a_checklist_output : GenerateInitialChecklistOutput.t :=
  GenerateInitialChecklistOutput.mk "Here is a first draft."
    [ChecklistBullet.mk "Write spec" None None
       [ChecklistSubBullet.mk "Outline" None None];
     ChecklistBullet.mk "Ship" None None []]
    [].

Definition a_questions_output : GenerateRefinementQuestionsOutput.t :=
  GenerateRefinementQuestionsOutput.mk "One question."
    [RefinementQuestionModel.mk "Who reviews the spec?" "ownership" None].

Definition a_refinement_output : IncorporateRefinementsOutput.t :=
  IncorporateRefinementsOutput.mk "Added a review step."
    [an_update Action.add None (Some "Review")] [].

Definition a_progress_output : InterpretProgressUpdateOutput.t :=
  InterpretProgressUpdateOutput.mk "Noted."
    [a_signal ["item-2"] [] (Some ChecklistItemStatus.COMPLETE)
       (Some "shipped on Friday")]
    false None.

Definition a_summary_output : CompletionSummaryOutput.t :=
  CompletionSummaryOutput.mk "All done." [] [] [].

Definition an_artifact : ChecklistArtifact.t :=
  ChecklistArtifact.mk "Launch v2" 0%Z [] [] [] None [].

Definition a_session_start : ResearchState.t * World :=
  after (fun _ => create_initial_state (Some "ada")) (a_state, a_world).

Definition a_session_described : ResearchState.t * World :=
  after (fun s => ingest_user_description s " Launch v2 ") a_session_start.

Definition a_session_drafted : ResearchState.t * World :=
  after (fun s =>
           update_state_from_skill s SkillName.GENERATE_INITIAL_CHECKLIST
             a_checklist_output)
    a_session_described.

Definition a_session_asked : ResearchState.t * World :=
  after (fun s =>
           update_state_from_skill s SkillName.GENERATE_REFINEMENT_QUESTIONS
             a_questions_output)
    a_session_drafted.

Definition a_session_answered : ResearchState.t * World :=
  after (fun s => record_user_feedback s "Ada reviews it") a_session_asked.

Definition a_session_refined : ResearchState.t * World :=
  after (fun s =>
           update_state_from_skill s SkillName.INCORPORATE_REFINEMENTS
             a_refinement_output)
    a_session_answered.

Definition a_session_approved : ResearchState.t * World :=
  after mark_checklist_approved a_session_refined.

Definition a_session_saved : ResearchState.t * World :=
  after (fun s => record_save_result a_dump s an_artifact "launch.json")
    a_session_approved.

Definition a_session_tracking : ResearchState.t * World :=
  after activate_tracking_mode a_session_saved.

Definition a_session_reported : ResearchState.t * World :=
  after (fun s => ingest_progress_input s "shipped it") a_session_tracking.

Definition a_session_progressed : ResearchState.t * World :=
  after (fun s =>
           update_state_from_skill s SkillName.INTERPRET_PROGRESS_UPDATE
             a_progress_output)
    a_session_reported.

(** An executor that answers each skill with the example output, one whose
    call fails (the class of the exception is not told apart), and a
    repository that returns a fixed path. *)
Definition an_executor (skill_name : SkillName.t) (state : ResearchState.t)
    (context : option (Dict.t Any)) : M (output_model skill_name) :=
  match skill_name return M (output_model skill_name) with
  | SkillName.GENERATE_INITIAL_CHECKLIST => ret a_checklist_output
  | SkillName.GENERATE_REFINEMENT_QUESTIONS => ret a_questions_output
  | SkillName.INCORPORATE_REFINEMENTS => ret a_refinement_output
  | SkillName.INTERPRET_PROGRESS_UPDATE => ret a_progress_output
  | SkillName.GENERATE_COMPLETION_SUMMARY => ret a_summary_output
  end.

Definition a_failing_executor (skill_name : SkillName.t)
    (state : ResearchState.t) (context : option (Dict.t Any))
    : M (output_model skill_name) :=
  raise (ValueError "Failed to execute LLM call").

Definition a_repository (artifact : ChecklistArtifact.t) : M string :=
  ret "storage/checklists/checklist_20240101T000000.json".

(** The agent's state and the world after [run_planned_action] with the
    example executor. *)
Definition a_planned_step (sw : ResearchState.t * World)
    : ResearchState.t * World :=
  let '(_, st, w) := run_planned_action an_executor None (fst sw) (snd sw) in
  (st, w).


(** Whatever the world and the outcome, the method leaves the agent in a
    state with the property. *)
Definition lands_in {A : Type} (P : ResearchState.t -> Prop) (m : Method A)
    (st : ResearchState.t) : Prop :=
  forall w outcome st' w', m st w = (outcome, st', w') -> P st'.

(** * Properties *)

(** ** Lists and object stores *)

Lemma map_lookup {A B : Type} (f : A -> B) (l : list A) (i : nat) :
  map f l !! i = f <$> (l !! i).
Proof.
  revert i. induction l as [|x l IH]; intros [|i]; simpl; try reflexivity.
  apply IH.
Qed.

Lemma map_insert {A B : Type} (f : A -> B) (l : list A) (i : nat) (x : A) :
  map f (<[i := x]> l) = <[i := f x]> (map f l).
Proof.
  revert i. induction l as [|y l IH]; intros [|i]; simpl; try reflexivity.
  now rewrite IH.
Qed.



Lemma map_omap {A B C : Type} (f : B -> C) (g : A -> option B) (l : list A) :
  map f (omap g l) = omap (fun a => f <$> g a) l.
Proof.
  induction l as [|x l IH]; csimpl; [reflexivity|].
  destruct (g x); csimpl; now rewrite IH.
Qed.

Lemma map_fst_imap {A K V : Type} (key : A -> K) (l : list A) :
  forall val : nat -> A -> V,
    map fst (imap (fun a x => (key x, val a x)) l) = map key l.
Proof.
  induction l as [|x l IH]; intros val; simpl; [reflexivity|].
  f_equal. apply (IH (fun a => val (S a))).
Qed.

(** Reading a list of addresses from a store of objects. *)
Section Store.
Context {A : Type} (id_of : A -> string).






(** No listed address is dropped when all of them are allocated. *)
Lemma read_length (objects : list A) (listed : list nat) :
  Forall (fun a => a < length objects) listed ->
  length (omap (fun a => objects !! a) listed) = length listed.
Proof.
  induction 1 as [|a l Ha _ IH]; csimpl; [reflexivity|].
  apply lookup_lt_is_Some_2 in Ha as [x ->]. simpl. now rewrite IH.
Qed.


End Store.

(** ** The built-ins *)

Lemma lstrip_blank (s : string) :
  blank s = true -> Py.lstrip_with Py.is_space s = EmptyString.
Proof.
  induction s as [|c r IH]; simpl; [reflexivity|].
  intros H. apply andb_true_iff in H as [Hc Hr].
  rewrite Hc. now apply IH.
Qed.

Lemma strip_blank (s : string) : blank s = true -> Py.strip s = EmptyString.
Proof.
  intros H. unfold Py.strip. now rewrite lstrip_blank.
Qed.

Lemma rstrip_empty (s : string) :
  Py.rstrip_with Py.is_space s = EmptyString -> blank s = true.
Proof.
  induction s as [|c r IH]; simpl; [reflexivity|].
  destruct (Py.rstrip_with Py.is_space r) eqn:E; [|discriminate].
  destruct (Py.is_space c); [|discriminate].
  intros _. now apply IH.
Qed.

Lemma lstrip_keeps_blank (s : string) :
  blank (Py.lstrip_with Py.is_space s) = blank s.
Proof.
  induction s as [|c r IH]; simpl; [reflexivity|].
  destruct (Py.is_space c) eqn:E; simpl; [exact IH|].
  now rewrite E.
Qed.

Lemma strip_empty_iff (s : string) :
  Py.strip s = EmptyString <-> blank s = true.
Proof.
  split; [|apply strip_blank].
  unfold Py.strip. intros H. apply rstrip_empty in H.
  now rewrite lstrip_keeps_blank in H.
Qed.

Lemma slice_last_ten {A : Type} (l : list A) :
  Py.slice_from (-10) l = drop (length l - 10) l.
Proof.
  unfold Py.slice_from. simpl.
  destruct (Z.ltb_spec (-10 + Z.of_nat (length l)) 0).
  - replace (length l - 10) with 0 by lia. reflexivity.
  - f_equal. lia.
Qed.

Example excerpt_of_twelve :
  Py.slice_from (-10) (seq 0 12) = seq 2 10 /\
  Py.slice_from (-10) (seq 0 3) = seq 0 3.
Proof. split; reflexivity. Qed.



















(** ** Dictionaries *)

Lemma dict_mem_keys {V : Type} (k : string) (d : Dict.t V) :
  Dict.mem k d = true <-> k ∈ Dict.keys d.
Proof.
  unfold Dict.mem, Dict.keys. induction d as [|[k' v] d IH]; simpl.
  - split; [discriminate|]. intros H. inversion H.
  - destruct (String.eqb_spec k' k) as [->|Hne].
    + split; [intros _; constructor|reflexivity].
    + rewrite IH. split.
      * intros H. now constructor.
      * intros H. inversion H; subst; [congruence|assumption].
Qed.

Lemma dict_get_set {V : Type} (k k' : string) (v : V) (d : Dict.t V) :
  Dict.get k (Dict.set k' v d)
  = if String.eqb k' k then Some v else Dict.get k d.
Proof.
  induction d as [|[k0 v0] d IH]; simpl.
  - reflexivity.
  - destruct (String.eqb_spec k0 k') as [->|Hne]; simpl.
    + now destruct (String.eqb_spec k' k).
    + rewrite IH. destruct (String.eqb_spec k0 k) as [->|]; [|reflexivity].
      destruct (String.eqb_spec k' k); congruence.
Qed.


Lemma dict_mem_set {V : Type} (k k' : string) (v : V) (d : Dict.t V) :
  Dict.mem k (Dict.set k' v d) = String.eqb k' k || Dict.mem k d.
Proof.
  unfold Dict.mem. rewrite dict_get_set. now destruct (String.eqb k' k).
Qed.


Lemma dict_mem_fold_set {V : Type} (k : string) (l : list (string * V)) :
  forall d : Dict.t V,
  Dict.mem k (fold_left (fun d kv => Dict.set (fst kv) (snd kv) d) l d) = true
  <-> k ∈ map fst l \/ Dict.mem k d = true.
Proof.
  induction l as [|[k' v] l IH]; intros d; simpl.
  - split; [now right|]. intros [H|H]; [inversion H|exact H].
  - rewrite IH, dict_mem_set, orb_true_iff. split.
    + intros [H|[H|H]]; [left; now constructor| |now right].
      apply String.eqb_eq in H as ->. left. constructor.
    + intros [H|H]; [|now right; right].
      inversion H; subst; [right; left; apply String.eqb_refl|now left].
Qed.

Lemma dict_mem_of_pairs {V : Type} (k : string) (l : list (string * V)) :
  Dict.mem k (Dict.of_pairs l) = true <-> k ∈ map fst l.
Proof.
  unfold Dict.of_pairs. rewrite dict_mem_fold_set. split; [|now left].
  intros [H|H]; [exact H|discriminate H].
Qed.

Lemma dict_get_fold_set {V : Type} (k : string) (v : V)
    (l : list (string * V)) :
  forall d : Dict.t V,
  Dict.get k (fold_left (fun d kv => Dict.set (fst kv) (snd kv) d) l d) = Some v
  -> (k, v) ∈ l \/ Dict.get k d = Some v.
Proof.
  induction l as [|[k' v'] l IH]; intros d; simpl.
  - now right.
  - intros H. apply IH in H as [H|H]; [left; now constructor|].
    rewrite dict_get_set in H. simpl in H.
    destruct (String.eqb_spec k' k) as [->|]; [|now right].
    injection H as ->. left. constructor.
Qed.

Lemma dict_get_of_pairs {V : Type} (k : string) (v : V)
    (l : list (string * V)) :
  Dict.get k (Dict.of_pairs l) = Some v -> (k, v) ∈ l.
Proof.
  intros H. apply dict_get_fold_set in H as [H|H]; [exact H|discriminate H].
Qed.

Lemma is_one_of_iff (l : list string) (k : string) :
  is_one_of l k = true <-> k ∈ l.
Proof.
  unfold is_one_of. rewrite existsb_exists. split.
  - intros (x & Hin & Heq). apply String.eqb_eq in Heq as ->.
    now apply list_elem_of_In.
  - intros H. exists k. split; [now apply list_elem_of_In|].
    apply String.eqb_refl.
Qed.

Lemma dict_mem_is_one_of {V : Type} (k : string) (d : Dict.t V) :
  Dict.mem k d = is_one_of (Dict.keys d) k.
Proof.
  apply eq_true_iff_eq. now rewrite dict_mem_keys, is_one_of_iff.
Qed.

Lemma dict_keys_set {V : Type} (k : string) (v : V) (d : Dict.t V) :
  Dict.keys (Dict.set k v d)
  = if Dict.mem k d then Dict.keys d else Dict.keys d ++ [k].
Proof.
  unfold Dict.mem, Dict.keys. induction d as [|[k0 v0] d IH]; simpl.
  - reflexivity.
  - destruct (String.eqb k0 k); simpl; [reflexivity|].
    rewrite IH. now destruct (Dict.get k d).
Qed.

(** ** Loops with effects *)


Lemma append_entries_nil (s : ResearchState.t) : append_entries [] s = s.
Proof.
  destruct s as [c m wf [d i q x l cl pl fp cs cp]].
  unfold append_entries, on_working. simpl. now rewrite app_nil_r.
Qed.

Lemma append_entries_app (e1 e2 : list ConversationEntry.t)
    (s : ResearchState.t) :
  append_entries e2 (append_entries e1 s) = append_entries (e1 ++ e2) s.
Proof.
  unfold append_entries, on_working. simpl. now rewrite app_assoc.
Qed.

Lemma ask_each_prompt (prompts : list RefinementPrompt.t) :
  forall (s : ResearchState.t) (w : World),
  exists entries w',
    for_each
      (fun new_state prompt =>
         let* entry :=
           new_ConversationEntry ConversationEntryKind.AGENT
             (RefinementPrompt.question prompt) Dict.empty in
         ret (append_conversation_log entry new_state))
      prompts s w
    = (Return (append_entries entries s), w') /\
    map ConversationEntry.content entries
      = map RefinementPrompt.question prompts.
Proof.
  induction prompts as [|p prompts IH]; intros s w.
  - exists [], w. simpl. now rewrite append_entries_nil.
  - simpl. unfold bind at 1. simpl.
    match goal with
    | |- context [for_each _ prompts ?s1 ?w1] =>
        destruct (IH s1 w1) as (entries & w' & Heq & Hc); rewrite Heq
    end.
    eexists (_ :: entries), w'. split.
    + change (append_conversation_log ?e s) with (append_entries [e] s).
      now rewrite append_entries_app.
    + simpl. now rewrite Hc.
Qed.

(** ** Generated ids *)







(** ** Text ingestion and rejection *)

(** C2. For every state, every world and every text made of white space
    only (the empty text included), each of [ingest_user_description],
    [record_user_feedback] and [ingest_progress_input] returns the input
    state itself: same phase, same conversation log, same working memory,
    same [last_transition_at]; the clock is not read and no identifier is
    drawn. *)
Theorem blank_text_is_identity (state : ResearchState.t) (text : string)
    (w : World) :
  blank text = true ->
  ingest_user_description state text w = (Return state, w) /\
  record_user_feedback state text w = (Return state, w) /\
  ingest_progress_input state text w = (Return state, w).
Proof.
  intros H. apply strip_blank in H.
  unfold ingest_user_description, record_user_feedback, ingest_progress_input.
  rewrite H. simpl. repeat split.
Qed.

Lemma blank_text_is_identity_witness :
  blank "   " = true /\
  ingest_user_description a_state "   " a_world = (Return a_state, a_world) /\
  record_user_feedback a_state "   " a_world = (Return a_state, a_world) /\
  ingest_progress_input a_state "   " a_world = (Return a_state, a_world).
Proof.
  split; [reflexivity|].
  apply (blank_text_is_identity a_state "   " a_world). reflexivity.
Defined.

(** A text with a visible character does change the state: the no-op is
    specific to blank input. *)
Example ingest_description_visible :
  exists s' w',
    ingest_user_description a_state " Launch v2 " a_world = (Return s', w') /\
    phase_of s' = WorkflowPhase.GENERATING_CHECKLIST /\
    WorkingMemory.original_description (ResearchState.working s')
      = Some "Launch v2" /\
    length (WorkingMemory.conversation_log (ResearchState.working s')) = 1.
Proof. do 2 eexists. split; [vm_compute; reflexivity|]. repeat split. Qed.

(** C10. For every state and every blank reason, [mark_checklist_rejected]
    returns; the phase of the result is [processing_feedback], its
    [last_transition_at] is the reading of the clock, the working memory
    (so also the conversation log) and every other field are those of the
    input. The result differs from the input whenever the input was in
    another phase. *)
Theorem reject_with_blank_reason (state : ResearchState.t) (reason : string)
    (w : World) :
  blank reason = true ->
  exists s',
    mark_checklist_rejected state reason w = (Return s', after_utcnow w) /\
    phase_of s' = WorkflowPhase.PROCESSING_FEEDBACK /\
    WorkflowState.last_transition_at (ResearchState.workflow s')
      = utc_clock w (utc_reads w) /\
    ResearchState.working s' = ResearchState.working state /\
    ResearchState.core s' = ResearchState.core state /\
    ResearchState.semantic s' = ResearchState.semantic state /\
    ResearchState.workflow s' =
      WorkflowState.with_last_transition_at (utc_clock w (utc_reads w))
        (WorkflowState.with_phase WorkflowPhase.PROCESSING_FEEDBACK
           (ResearchState.workflow state)) /\
    (phase_of state <> WorkflowPhase.PROCESSING_FEEDBACK -> s' <> state).
Proof.
  intros H. apply strip_blank in H.
  unfold mark_checklist_rejected. rewrite H. simpl.
  eexists. split; [reflexivity|].
  repeat split.
  intros Hne Heq. apply Hne. rewrite <- Heq. reflexivity.
Qed.

Lemma reject_with_blank_reason_witness :
  blank "  " = true /\
  exists s',
    mark_checklist_rejected a_state "  " a_world
      = (Return s', after_utcnow a_world) /\
    phase_of s' = WorkflowPhase.PROCESSING_FEEDBACK /\
    WorkflowState.last_transition_at (ResearchState.workflow s')
      = utc_clock a_world (utc_reads a_world) /\
    ResearchState.working s' = ResearchState.working a_state /\
    ResearchState.core s' = ResearchState.core a_state /\
    ResearchState.semantic s' = ResearchState.semantic a_state /\
    ResearchState.workflow s' =
      WorkflowState.with_last_transition_at
        (utc_clock a_world (utc_reads a_world))
        (WorkflowState.with_phase WorkflowPhase.PROCESSING_FEEDBACK
           (ResearchState.workflow a_state)) /\
    (phase_of a_state <> WorkflowPhase.PROCESSING_FEEDBACK -> s' <> a_state).
Proof.
  split; [reflexivity|].
  apply (reject_with_blank_reason a_state "  " a_world). reflexivity.
Defined.

(** The transitions and handlers that do not touch the checklist. *)
Lemma other_transitions_keep_items (state : ResearchState.t) (text : string)
    (w : World) :
  (exists s' w', ingest_user_description state text w = (Return s', w') /\
                 items_of s' = items_of state) /\
  (exists s' w', record_user_feedback state text w = (Return s', w') /\
                 items_of s' = items_of state) /\
  (exists s' w', ingest_progress_input state text w = (Return s', w') /\
                 items_of s' = items_of state) /\
  (exists s' w', mark_checklist_rejected state text w = (Return s', w') /\
                 items_of s' = items_of state) /\
  (exists s' w', mark_checklist_approved state w = (Return s', w') /\
                 items_of s' = items_of state) /\
  (exists s' w', activate_tracking_mode state w = (Return s', w') /\
                 items_of s' = items_of state) /\
  (exists s' w', acknowledge_progress_ack state w = (Return s', w') /\
                 items_of s' = items_of state) /\
  (exists s' w', acknowledge_summary_delivery state w = (Return s', w') /\
                 items_of s' = items_of state).
Proof.
  unfold ingest_user_description, record_user_feedback, ingest_progress_input,
    mark_checklist_rejected, mark_checklist_approved, activate_tracking_mode,
    acknowledge_progress_ack, acknowledge_summary_delivery, deepcopy.
  destruct (Py.strip text) as [|c r]; simpl;
    destruct (WorkflowState.listening_started_at
                (ResearchState.workflow state));
    repeat split; do 2 eexists; split; reflexivity.
Qed.

(** ** Completion predicate *)

Lemma status_eqb_eq (a b : ChecklistItemStatus.t) :
  ChecklistItemStatus.eqb a b = true <-> a = b.
Proof. destruct a, b; simpl; split; congruence. Qed.

Lemma status_neqb_false (a b : ChecklistItemStatus.t) :
  negb (ChecklistItemStatus.eqb a b) = false <-> a = b.
Proof. rewrite negb_false_iff. apply status_eqb_eq. Qed.

Lemma no_incomplete_sub_item (subs : list ChecklistSubItem.t) :
  existsb
    (fun sub =>
       negb (ChecklistItemStatus.eqb (ChecklistSubItem.status sub)
               ChecklistItemStatus.COMPLETE)) subs = false
  <-> Forall
        (fun sub => ChecklistSubItem.status sub = ChecklistItemStatus.COMPLETE)
        subs.
Proof.
  induction subs as [|sub subs IH]; simpl.
  - split; [constructor|reflexivity].
  - rewrite orb_false_iff, status_neqb_false, IH. split.
    + intros [H1 H2]. now constructor.
    + intros H. inversion H; subst. now split.
Qed.

Lemma every_item_complete_iff (items : list ChecklistItem.t) :
  every_item_complete items = true <-> Forall item_complete items.
Proof.
  induction items as [|item items IH]; simpl.
  - split; [constructor|reflexivity].
  - destruct (negb (ChecklistItemStatus.eqb (ChecklistItem.status item)
                      ChecklistItemStatus.COMPLETE)) eqn:Hs.
    + split; [discriminate|]. intros H. inversion H as [|? ? [Hc _] _]; subst.
      apply status_neqb_false in Hc. congruence.
    + apply status_neqb_false in Hs.
      destruct (existsb _ (ChecklistItem.sub_items item)) eqn:Hsub.
      * split; [discriminate|]. intros H. inversion H as [|? ? [_ Hc] _]; subst.
        apply no_incomplete_sub_item in Hc. congruence.
      * apply no_incomplete_sub_item in Hsub. rewrite IH. split.
        -- intros H. constructor; [now split|exact H].
        -- intros H. now inversion H.
Qed.

(** C4. [checklist_is_complete] answers true exactly when the item list is
    not empty and every item, and every sub-item of every item, has status
    [complete]. *)
Theorem checklist_is_complete_iff (state : ResearchState.t) :
  checklist_is_complete state = true <->
  items_of state <> [] /\ Forall item_complete (items_of state).
Proof.
  unfold checklist_is_complete.
  destruct (items_of state) as [|item items] eqn:E.
  - split; [discriminate|]. intros [H _]. now contradiction H.
  - rewrite every_item_complete_iff. split.
    + intros H. split; [discriminate|exact H].
    + now intros [_ H].
Qed.

(** The three ways of forcing [false]: no item, an item that is not
    complete, a sub-item that is not complete. *)
Lemma checklist_incomplete_cases (state : ResearchState.t) :
  (items_of state = [] -> checklist_is_complete state = false) /\
  (forall item, item ∈ items_of state ->
     ChecklistItem.status item <> ChecklistItemStatus.COMPLETE ->
     checklist_is_complete state = false) /\
  (forall item sub, item ∈ items_of state ->
     sub ∈ ChecklistItem.sub_items item ->
     ChecklistSubItem.status sub <> ChecklistItemStatus.COMPLETE ->
     checklist_is_complete state = false).
Proof.
  unfold checklist_is_complete. repeat split.
  - now intros ->.
  - intros item Hin Hne.
    destruct (items_of state) as [|i0 l0] eqn:E; [reflexivity|].
    apply not_true_is_false. rewrite every_item_complete_iff, Forall_forall.
    intros H. apply Hne. now apply (H item Hin).
  - intros item sub Hin Hsub Hne.
    destruct (items_of state) as [|i0 l0] eqn:E; [reflexivity|].
    apply not_true_is_false. rewrite every_item_complete_iff, Forall_forall.
    intros H. apply Hne. destruct (H item Hin) as [_ Hs].
    rewrite Forall_forall in Hs. now apply Hs.
Qed.

Example three_complete_items :
  checklist_is_complete
    (set_checklist_items
       [an_item "item-1" "a" ChecklistItemStatus.COMPLETE [];
        an_item "item-2" "b" ChecklistItemStatus.COMPLETE [];
        an_item "item-3" "c" ChecklistItemStatus.COMPLETE []] a_state) = true.
Proof. reflexivity. Qed.

Example one_pending_sub_item :
  checklist_is_complete
    (set_checklist_items
       [an_item "item-1" "a" ChecklistItemStatus.COMPLETE
          [a_sub_item "item-1-1" "s" ChecklistItemStatus.IN_PROGRESS]]
       a_state) = false.
Proof. reflexivity. Qed.

(** ** Coordinator *)

(** C6. In phase [asking_refinement_questions] the coordinator asks for the
    skill that generates refinement questions while [questions_asked] is
    below [max_refinement_questions], and answers [noop] from the ceiling
    on; no other field of the state is read. *)
Theorem refinement_question_ceiling (state : ResearchState.t) :
  phase_of state = WorkflowPhase.ASKING_REFINEMENT_QUESTIONS ->
  ((questions_asked_of state
    < WorkflowState.max_refinement_questions (ResearchState.workflow state))%Z ->
   Coordinator.next_action state =
     Decision.llm SkillName.GENERATE_REFINEMENT_QUESTIONS
       "Need up to three clarifying questions" None /\
   Decision.decision_type (Coordinator.next_action state)
     = DecisionType.LLM_SKILL /\
   Decision.skill (Coordinator.next_action state)
     = Some SkillName.GENERATE_REFINEMENT_QUESTIONS) /\
  ((questions_asked_of state
    >= WorkflowState.max_refinement_questions (ResearchState.workflow state))%Z ->
   Coordinator.next_action state =
     Decision.noop
       "Awaiting user responses because refinement question limit was reached" /\
   Decision.decision_type (Coordinator.next_action state) = DecisionType.NOOP).
Proof.
  intros Hp. unfold Coordinator.next_action, questions_asked_of.
  rewrite Hp. simpl. split; intros H.
  - destruct (Z.leb_spec
                (WorkflowState.max_refinement_questions
                   (ResearchState.workflow state))
                (WorkflowState.questions_asked (ResearchState.workflow state)));
      [lia|]. repeat split.
  - destruct (Z.leb_spec
                (WorkflowState.max_refinement_questions
                   (ResearchState.workflow state))
                (WorkflowState.questions_asked (ResearchState.workflow state)));
      [|lia]. repeat split.
Qed.

Lemma refinement_question_ceiling_witness :
  phase_of (asking_state 3) = WorkflowPhase.ASKING_REFINEMENT_QUESTIONS /\
  Coordinator.next_action (asking_state 3) =
    Decision.noop
      "Awaiting user responses because refinement question limit was reached" /\
  Coordinator.next_action (asking_state 2) =
    Decision.llm SkillName.GENERATE_REFINEMENT_QUESTIONS
      "Need up to three clarifying questions" None.
Proof.
  split; [reflexivity|]. split.
  - apply (refinement_question_ceiling (asking_state 3)); [reflexivity|].
    vm_compute. discriminate.
  - apply (refinement_question_ceiling (asking_state 2)); [reflexivity|].
    reflexivity.
Defined.

(** ** Artifact *)

(** C9. [build_artifact] raises its [ValueError] exactly when
    [original_description] is [None], before the clock is read.  When a
    description is set it returns an artifact that carries it and whose
    [conversation_excerpt] is the last ten entries of the conversation log
    in order, all of them when the log has fewer than ten.  The state is
    only read: the function has no state among its results. *)
Theorem build_artifact_needs_description (state : ResearchState.t)
    (w : World) :
  ((exists e w', build_artifact state w = (Raise e, w'))
   <-> original_description_of state = None) /\
  (original_description_of state = None ->
   build_artifact state w = (Raise missing_description, w)) /\
  (forall description, original_description_of state = Some description ->
   exists artifact older,
     build_artifact state w = (Return artifact, after_utcnow w) /\
     ChecklistArtifact.task_description artifact = description /\
     conversation_log_of state
       = older ++ ChecklistArtifact.conversation_excerpt artifact /\
     length (ChecklistArtifact.conversation_excerpt artifact)
       = Nat.min 10 (length (conversation_log_of state))).
Proof.
  unfold original_description_of, conversation_log_of, build_artifact.
  destruct (WorkingMemory.original_description (ResearchState.working state))
    as [d|] eqn:E.
  - split; [|split].
    + split; [|discriminate]. intros (e & w' & H). discriminate H.
    + discriminate.
    + intros description [= <-].
      eexists _, (take (length (WorkingMemory.conversation_log
                                  (ResearchState.working state)) - 10)
                    (WorkingMemory.conversation_log
                       (ResearchState.working state))).
      split; [reflexivity|].
      cbn [ChecklistArtifact.task_description
             ChecklistArtifact.conversation_excerpt].
      rewrite slice_last_ten.
      split; [reflexivity|]. split.
      * now rewrite take_drop.
      * rewrite length_drop. lia.
  - split; [|split].
    + split; [reflexivity|]. intros _. now eexists _, _.
    + reflexivity.
    + discriminate.
Qed.

(** ** Initial checklist *)

(** C7. For every state and every output with n proposed items, the handler
    returns; the checklist of the result has n items, the k-th one (from 1)
    has id [item-k], status [pending] and the fields of the k-th proposal,
    and its m sub-items have ids [item-k-1] to [item-k-m] in the order of
    the proposal, each [pending]; [questions_asked] is 0 and the phase is
    [asking_refinement_questions]. *)
Theorem initial_checklist_produced (state : ResearchState.t)
    (output : GenerateInitialChecklistOutput.t) (w : World) :
  exists s' w',
    _handle_generate_initial_checklist state output w = (Return s', w') /\
    length (items_of s')
      = length (GenerateInitialChecklistOutput.items output) /\
    (forall k bullet,
       GenerateInitialChecklistOutput.items output !! k = Some bullet ->
       exists item,
         items_of s' !! k = Some item /\
         ChecklistItem.item_id item
           = ("item-" ++ Py.str (Z.of_nat k + 1))%string /\
         ChecklistItem.status item = ChecklistItemStatus.PENDING /\
         ChecklistItem.summary item = ChecklistBullet.summary bullet /\
         ChecklistItem.detail item = ChecklistBullet.detail bullet /\
         ChecklistItem.success_criteria item
           = ChecklistBullet.success_criteria bullet /\
         ChecklistItem.notes item = [] /\
         length (ChecklistItem.sub_items item)
           = length (ChecklistBullet.sub_items bullet) /\
         (forall j sub_bullet,
            ChecklistBullet.sub_items bullet !! j = Some sub_bullet ->
            exists sub,
              ChecklistItem.sub_items item !! j = Some sub /\
              ChecklistSubItem.sub_item_id sub
                = ("item-" ++ Py.str (Z.of_nat k + 1) ++ "-"
                   ++ Py.str (Z.of_nat j + 1))%string /\
              ChecklistSubItem.status sub = ChecklistItemStatus.PENDING /\
              ChecklistSubItem.summary sub
                = ChecklistSubBullet.summary sub_bullet)) /\
    questions_asked_of s' = 0%Z /\
    phase_of s' = WorkflowPhase.ASKING_REFINEMENT_QUESTIONS.
Proof.
  unfold _handle_generate_initial_checklist.
  do 2 eexists. split; [reflexivity|].
  unfold items_of, questions_asked_of, phase_of. simpl.
  split; [apply length_imap|]. split; [|split; reflexivity].
  intros k bullet Hk. eexists. rewrite list_lookup_imap, Hk. simpl.
  split; [reflexivity|]. simpl.
  do 6 (split; [reflexivity|]).
  split; [apply length_imap|].
  intros j sub_bullet Hj. eexists.
  unfold _build_sub_items_from_bullets.
  rewrite list_lookup_imap, Hj. simpl.
  split; [reflexivity|]. simpl. repeat split.
Qed.

Example launch_v2_scenario :
  exists s1 w1 s2 w2,
    ingest_user_description a_state "Launch v2" a_world = (Return s1, w1) /\
    phase_of s1 = WorkflowPhase.GENERATING_CHECKLIST /\
    _handle_generate_initial_checklist s1
      (GenerateInitialChecklistOutput.mk "Here is a first checklist"
         [ChecklistBullet.mk "Write spec" None None
            [ChecklistSubBullet.mk "Outline" None None;
             ChecklistSubBullet.mk "Review" None None]] []) w1
      = (Return s2, w2) /\
    items_of s2
      = [an_item "item-1" "Write spec" ChecklistItemStatus.PENDING
           [a_sub_item "item-1-1" "Outline" ChecklistItemStatus.PENDING;
            a_sub_item "item-1-2" "Review" ChecklistItemStatus.PENDING]] /\
    phase_of s2 = WorkflowPhase.ASKING_REFINEMENT_QUESTIONS /\
    questions_asked_of s2 = 0%Z.
Proof.
  do 4 eexists. split; [vm_compute; reflexivity|].
  split; [reflexivity|]. split; [vm_compute; reflexivity|].
  repeat split.
Qed.


(** ** Refinement questions *)

(** C5. For every state and every output with N questions, the handler
    returns; in the result [questions_asked] is the former value plus N,
    the pending prompts are the N prompts of the output in order, and the
    phase is [awaiting_user_response] when N > 0 and [check_approval] when
    N = 0. *)
Theorem refinement_questions_produced (state : ResearchState.t)
    (output : GenerateRefinementQuestionsOutput.t) (w : World) :
  let N := length (GenerateRefinementQuestionsOutput.questions output) in
  exists s' w',
    _handle_generate_refinement_questions state output w = (Return s', w') /\
    questions_asked_of s' = (questions_asked_of state + Z.of_nat N)%Z /\
    WorkingMemory.refinement_questions (ResearchState.working s')
      = map (fun q => RefinementPrompt.mk (RefinementQuestionModel.question q)
                        (RefinementQuestionModel.intent q))
            (GenerateRefinementQuestionsOutput.questions output) /\
    length (WorkingMemory.refinement_questions (ResearchState.working s')) = N /\
    phase_of s' =
      (if (N =? 0)%nat then WorkflowPhase.CHECK_APPROVAL
       else WorkflowPhase.AWAITING_USER_RESPONSE).
Proof.
  intros N. unfold _handle_generate_refinement_questions.
  unfold bind at 1. simpl. unfold bind at 1. simpl.
  match goal with
  | |- context [for_each ?b ?l ?s1 ?w1] =>
      destruct (ask_each_prompt l s1 w1) as (entries & w' & Heq & _);
      rewrite Heq
  end.
  do 2 eexists. split; [reflexivity|].
  unfold questions_asked_of, phase_of. simpl.
  rewrite !length_map. fold N. repeat split.
  subst N. now destruct (GenerateRefinementQuestionsOutput.questions output).
Qed.

Example two_questions_then_none :
  exists s1 w1 s2 w2,
    _handle_generate_refinement_questions a_state
      (GenerateRefinementQuestionsOutput.mk "Two questions"
         [RefinementQuestionModel.mk "Who?" "owner" None;
          RefinementQuestionModel.mk "When?" "deadline" None]) a_world
      = (Return s1, w1) /\
    questions_asked_of s1 = 2%Z /\
    phase_of s1 = WorkflowPhase.AWAITING_USER_RESPONSE /\
    length (conversation_log_of s1) = 3 /\
    _handle_generate_refinement_questions s1
      (GenerateRefinementQuestionsOutput.mk "" []) w1 = (Return s2, w2) /\
    questions_asked_of s2 = 2%Z /\
    phase_of s2 = WorkflowPhase.CHECK_APPROVAL.
Proof.
  do 4 eexists. split; [vm_compute; reflexivity|].
  do 3 (split; [reflexivity|]).
  split; [vm_compute; reflexivity|]. split; reflexivity.
Qed.

(** ** The object store of the refinement handler *)

Lemma item_ids_read (st : ItemStore.t) :
  item_ids (ItemStore.read st)
  = omap (ItemStore.id_at st) (ItemStore.checklist_items st).
Proof. unfold item_ids, ItemStore.read. apply map_omap. Qed.



(** In a well-formed store every listed address is read. *)
Lemma read_total (st : ItemStore.t) :
  store_ok st ->
  length (ItemStore.read st) = length (ItemStore.checklist_items st).
Proof. intros [H _]. unfold ItemStore.read. now apply read_length. Qed.












(** ** Refinement instructions *)



Example add_after_gap :
  refined_items
    [an_item "item-1" "a" ChecklistItemStatus.PENDING [];
     an_item "item-3" "c" ChecklistItemStatus.PENDING []]
    [an_update Action.add None (Some "d");
     an_update Action.update (Some "item-9") (Some "ignored");
     an_update Action.remove (Some "item-9") None;
     an_update Action.add (Some "") (Some "e")]
  = [an_item "item-1" "a" ChecklistItemStatus.PENDING [];
     an_item "item-3" "c" ChecklistItemStatus.PENDING [];
     an_item "item-4" "d" ChecklistItemStatus.PENDING [];
     an_item "item-5" "e" ChecklistItemStatus.PENDING []].
Proof. reflexivity. Qed.

(** ** Ids under refinement *)










(** C1 at the failing inputs.  An [add] instruction that carries the id of
    an item of the checklist is appended under that id, and an [add]
    sub-instruction that carries the id of a sub-item of its parent is
    appended under that id: from a checklist with pairwise distinct ids the
    handler returns one with a repeated item id (first case) or with a
    repeated sub-item id inside one parent (second case). *)
Theorem explicit_id_add_duplicates :
  let state :=
    set_checklist_items
      [an_item "item-1" "Write spec" ChecklistItemStatus.PENDING
         [a_sub_item "item-1-1" "Outline" ChecklistItemStatus.PENDING]]
      a_state in
  unique_ids (items_of state) /\
  (exists s' w',
     _handle_incorporate_refinements state
       (IncorporateRefinementsOutput.mk "Added a step"
          [an_update Action.add (Some "item-1") (Some "Write spec again")] [])
       a_world = (Return s', w') /\
     item_ids (items_of s') = ["item-1"; "item-1"] /\
     ~ unique_ids (items_of s')) /\
  (exists s' w',
     _handle_incorporate_refinements state
       (IncorporateRefinementsOutput.mk "Added a sub-step"
          [RefinementUpdateModel.mk (Some "item-1") Action.update None None
             None []
             [RefinementSubItemUpdateModel.mk (Some "item-1-1") Action.add
                (Some "Outline again") None None]] [])
       a_world = (Return s', w') /\
     map sub_item_ids (items_of s') = [["item-1-1"; "item-1-1"]] /\
     ~ unique_ids (items_of s')).
Proof.
  cbv zeta. split; [|split].
  - split.
    + apply NoDup_singleton.
    + repeat constructor. intros H. inversion H.
  - do 2 eexists. split; [vm_compute; reflexivity|]. split; [reflexivity|].
    intros [H _]. cbn in H. apply NoDup_cons in H as [H _].
    apply H. constructor.
  - do 2 eexists. split; [vm_compute; reflexivity|]. split; [reflexivity|].
    intros [_ H]. apply Forall_cons in H as [H _]. cbn in H.
    apply NoDup_cons in H as [H _]. apply H. constructor.
Qed.

(** After the duplicate, the two items are no longer told apart: an
    [update] of that id reaches the newer item only, a [remove] drops
    both. *)
Example duplicate_id_aftermath :
  refined_items
    [an_item "item-1" "Write spec" ChecklistItemStatus.PENDING []]
    [an_update Action.add (Some "item-1") (Some "Write spec again");
     an_update Action.update (Some "item-1") (Some "Changed")]
  = [an_item "item-1" "Write spec" ChecklistItemStatus.PENDING [];
     an_item "item-1" "Changed" ChecklistItemStatus.PENDING []] /\
  refined_items
    [an_item "item-1" "Write spec" ChecklistItemStatus.PENDING []]
    [an_update Action.add (Some "item-1") (Some "Write spec again");
     an_update Action.remove (Some "item-1") None]
  = [].
Proof. split; reflexivity. Qed.

(** ** The progress handler *)

(** Folding a step that records a key when it is known and new. *)
Lemma fold_records_keys {Acc : Type} (step : Acc -> string -> Acc)
    (keys_of : Acc -> list string) (Inv : Acc -> Prop)
    (known : string -> bool) :
  (forall acc k, Inv acc ->
     Inv (step acc k) /\
     keys_of (step acc k)
       = if known k && negb (is_one_of (keys_of acc) k)
         then keys_of acc ++ [k] else keys_of acc) ->
  forall ids acc, Inv acc -> NoDup (keys_of acc) ->
    Inv (fold_left step ids acc) /\
    NoDup (keys_of (fold_left step ids acc)) /\
    forall k,
      k ∈ keys_of (fold_left step ids acc)
      <-> k ∈ keys_of acc \/ (k ∈ ids /\ known k = true).
Proof.
  intros Hstep. induction ids as [|id ids IH]; intros acc Hinv Hnd; simpl.
  - split; [exact Hinv|]. split; [exact Hnd|].
    intros k. rewrite elem_of_nil. tauto.
  - destruct (Hstep acc id Hinv) as [Hinv1 Hkeys1].
    assert (Hnd1 : NoDup (keys_of (step acc id))).
    { rewrite Hkeys1.
      destruct (known id && negb (is_one_of (keys_of acc) id)) eqn:E;
        [|exact Hnd].
      apply andb_true_iff in E as [_ E]. apply negb_true_iff in E.
      apply NoDup_app. split; [exact Hnd|]. split; [|apply NoDup_singleton].
      intros x Hx ->%list_elem_of_singleton.
      apply is_one_of_iff in Hx. congruence. }
    destruct (IH (step acc id) Hinv1 Hnd1) as (Hinv2 & Hnd2 & Hmem).
    split; [exact Hinv2|]. split; [exact Hnd2|].
    intros k. rewrite Hmem, Hkeys1, elem_of_cons.
    destruct (known id) eqn:Hk; simpl.
    + destruct (is_one_of (keys_of acc) id) eqn:Hone; simpl.
      * apply is_one_of_iff in Hone. split; [tauto|].
        intros [H|[[->|H] H']]; tauto.
      * rewrite elem_of_app, list_elem_of_singleton. split; [|tauto].
        intros [[H| ->]|H]; tauto.
    + split; [tauto|]. intros [H|[[->|H] H']]; [tauto|congruence|tauto].
Qed.

Lemma shape_lookup (items items0 : list ChecklistItem.t) (a : nat)
    (item0 : ChecklistItem.t) :
  id_shape items = id_shape items0 -> items0 !! a = Some item0 ->
  exists item,
    items !! a = Some item /\
    ChecklistItem.item_id item = ChecklistItem.item_id item0 /\
    sub_item_ids item = sub_item_ids item0.
Proof.
  intros Hshape H0.
  assert (H : id_shape items !! a = id_shape items0 !! a) by now rewrite Hshape.
  unfold id_shape in H. rewrite !map_lookup, H0 in H.
  destruct (items !! a) as [item|]; [|discriminate].
  simpl in H. injection H as H1 H2. now exists item.
Qed.

Lemma shape_store (items : list ChecklistItem.t) (a : nat)
    (item item' : ChecklistItem.t) :
  items !! a = Some item ->
  ChecklistItem.item_id item' = ChecklistItem.item_id item ->
  sub_item_ids item' = sub_item_ids item ->
  id_shape (<[a := item']> items) = id_shape items.
Proof.
  intros Ha Hid Hsub. unfold id_shape. rewrite map_insert, Hid, Hsub.
  apply list_insert_id. now rewrite map_lookup, Ha.
Qed.

Lemma item_ids_of_shape (items items0 : list ChecklistItem.t) :
  id_shape items = id_shape items0 -> item_ids items = item_ids items0.
Proof.
  intros H. unfold item_ids.
  assert (E : forall l, map ChecklistItem.item_id l = map fst (id_shape l)).
  { intros l. unfold id_shape. rewrite map_map. reflexivity. }
  now rewrite !E, H.
Qed.

Lemma index_items_get (items : list ChecklistItem.t) (k : string) (a : nat) :
  Dict.get k (index_items items) = Some a ->
  exists item, items !! a = Some item /\ ChecklistItem.item_id item = k.
Proof.
  intros H. apply dict_get_of_pairs, elem_of_lookup_imap in H
    as (i & item & [= -> ->] & Hitem).
  now exists item.
Qed.

Lemma index_items_mem (items : list ChecklistItem.t) (k : string) :
  Dict.mem k (index_items items) = is_one_of (item_ids items) k.
Proof.
  apply eq_true_iff_eq. unfold index_items.
  rewrite dict_mem_of_pairs, is_one_of_iff.
  now rewrite (map_fst_imap ChecklistItem.item_id items (fun a _ => a)).
Qed.

Lemma index_sub_items_get (items : list ChecklistItem.t) (k : string)
    (p : nat * nat) :
  Dict.get k (index_sub_items items) = Some p ->
  exists item sub,
    items !! fst p = Some item /\
    ChecklistItem.sub_items item !! snd p = Some sub /\
    ChecklistSubItem.sub_item_id sub = k.
Proof.
  intros H. apply dict_get_of_pairs, list_elem_of_In, in_concat in H
    as (l & Hl & Hin).
  apply list_elem_of_In, elem_of_lookup_imap in Hl
    as (a & item & -> & Hitem).
  apply list_elem_of_In, elem_of_lookup_imap in Hin
    as (b & sub & [= -> ->] & Hsub).
  now exists item, sub.
Qed.

Lemma index_sub_items_keys (items : list ChecklistItem.t) :
  forall h : nat -> nat,
    map (map fst)
      (imap
         (fun a item =>
            imap (fun b sub => (ChecklistSubItem.sub_item_id sub, (h a, b)))
              (ChecklistItem.sub_items item))
         items)
    = map sub_item_ids items.
Proof.
  induction items as [|item items IH]; intros h; simpl; [reflexivity|].
  f_equal.
  - apply (map_fst_imap ChecklistSubItem.sub_item_id
             (ChecklistItem.sub_items item) (fun b _ => (h 0, b))).
  - apply (IH (fun a => h (S a))).
Qed.

Lemma index_sub_items_mem (items : list ChecklistItem.t) (k : string) :
  Dict.mem k (index_sub_items items) = is_one_of (all_sub_item_ids items) k.
Proof.
  apply eq_true_iff_eq. unfold index_sub_items, all_sub_item_ids.
  rewrite dict_mem_of_pairs, is_one_of_iff, concat_map.
  now rewrite (index_sub_items_keys items (fun a => a)).
Qed.

Lemma all_sub_item_ids_of_shape (items items0 : list ChecklistItem.t) :
  id_shape items = id_shape items0 ->
  all_sub_item_ids items = all_sub_item_ids items0.
Proof.
  intros H. unfold all_sub_item_ids.
  assert (E : forall l, map sub_item_ids l = map snd (id_shape l)).
  { intros l. unfold id_shape. rewrite map_map. reflexivity. }
  now rewrite !E, H.
Qed.

Lemma signal_item_step_spec (items0 : list ChecklistItem.t)
    (signal : ProgressSignalModel.t)
    (acc : list ChecklistItem.t * Dict.t ChecklistItemStatus.t)
    (k : string) :
  id_shape (fst acc) = id_shape items0 ->
  id_shape (fst (signal_item_step (index_items items0) signal acc k))
    = id_shape items0 /\
  Dict.keys (snd (signal_item_step (index_items items0) signal acc k))
    = if is_one_of (item_ids items0) k
         && negb (is_one_of (Dict.keys (snd acc)) k)
      then Dict.keys (snd acc) ++ [k] else Dict.keys (snd acc).
Proof.
  destruct acc as [items tm]. simpl. intros Hshape.
  rewrite <- index_items_mem. unfold Dict.mem.
  destruct (Dict.get k (index_items items0)) as [a|] eqn:Hget; simpl;
    [|now split].
  apply index_items_get in Hget as (item0 & Ha0 & Hid0).
  destruct (shape_lookup items items0 a item0 Hshape Ha0)
    as (item & Ha & Hid & Hsub).
  rewrite Ha. simpl. split.
  - rewrite <- Hshape. apply (shape_store items a item); [exact Ha| |].
    + destruct (ProgressSignalModel.new_status signal) as [ns|],
        (ProgressSignalModel.note signal) as [note|];
        repeat match goal with |- context [if ?b then _ else _] =>
                 destruct b end; reflexivity.
    + destruct (ProgressSignalModel.new_status signal) as [ns|],
        (ProgressSignalModel.note signal) as [note|];
        repeat match goal with |- context [if ?b then _ else _] =>
                 destruct b end; reflexivity.
  - rewrite dict_keys_set, dict_mem_is_one_of.
    now destruct (is_one_of (Dict.keys tm) k).
Qed.

Lemma sub_ids_store (item : ChecklistItem.t) (b : nat)
    (sub sub' : ChecklistSubItem.t) :
  ChecklistItem.sub_items item !! b = Some sub ->
  ChecklistSubItem.sub_item_id sub' = ChecklistSubItem.sub_item_id sub ->
  sub_item_ids
    (ChecklistItem.with_sub_items
       (<[b := sub']> (ChecklistItem.sub_items item)) item)
  = sub_item_ids item.
Proof.
  intros Hb Hid. unfold sub_item_ids. simpl. rewrite map_insert, Hid.
  apply list_insert_id. now rewrite map_lookup, Hb.
Qed.

Lemma signal_sub_item_step_spec (items0 : list ChecklistItem.t)
    (signal : ProgressSignalModel.t)
    (acc : list ChecklistItem.t * Dict.t ChecklistItemStatus.t)
    (k : string) :
  id_shape (fst acc) = id_shape items0 ->
  id_shape (fst (signal_sub_item_step (index_sub_items items0) signal acc k))
    = id_shape items0 /\
  Dict.keys (snd (signal_sub_item_step (index_sub_items items0) signal acc k))
    = if is_one_of (all_sub_item_ids items0) k
         && negb (is_one_of (Dict.keys (snd acc)) k)
      then Dict.keys (snd acc) ++ [k] else Dict.keys (snd acc).
Proof.
  destruct acc as [items tm]. simpl. intros Hshape.
  rewrite <- index_sub_items_mem. unfold Dict.mem.
  destruct (Dict.get k (index_sub_items items0)) as [[a b]|] eqn:Hget; simpl;
    [|now split].
  apply index_sub_items_get in Hget as (item0 & sub0 & Ha0 & Hb0 & Hid0).
  simpl in Ha0, Hb0.
  destruct (shape_lookup items items0 a item0 Hshape Ha0)
    as (item & Ha & Hid & Hsub).
  assert (Hb : exists sub, ChecklistItem.sub_items item !! b = Some sub).
  { assert (H : sub_item_ids item !! b = sub_item_ids item0 !! b)
      by now rewrite Hsub.
    unfold sub_item_ids in H. rewrite !map_lookup, Hb0 in H.
    destruct (ChecklistItem.sub_items item !! b) as [sub|]; [|discriminate].
    now exists sub. }
  destruct Hb as (sub & Hb).
  unfold sub_item_at, store_sub_item. simpl. rewrite Ha, Hb. simpl. split.
  - rewrite <- Hshape. apply (shape_store items a item);
      [exact Ha|reflexivity|].
    apply (sub_ids_store item b sub); [exact Hb|].
    destruct (ProgressSignalModel.new_status signal) as [ns|],
      (ProgressSignalModel.note signal) as [note|];
      repeat match goal with |- context [if ?c then _ else _] =>
               destruct c end; reflexivity.
  - rewrite dict_keys_set, dict_mem_is_one_of.
    now destruct (is_one_of (Dict.keys tm) k).
Qed.

Lemma names_item_iff (items0 : list ChecklistItem.t)
    (signal : ProgressSignalModel.t) :
  names_item items0 signal = true
  <-> exists k, k ∈ ProgressSignalModel.item_ids signal /\
                is_one_of (item_ids items0) k = true.
Proof.
  unfold names_item. rewrite existsb_exists.
  split; intros (k & H1 & H2); exists k; split; try assumption;
    now apply list_elem_of_In.
Qed.

Lemma names_sub_item_iff (items0 : list ChecklistItem.t)
    (signal : ProgressSignalModel.t) :
  names_sub_item items0 signal = true
  <-> exists k, k ∈ ProgressSignalModel.sub_item_ids signal /\
                is_one_of (all_sub_item_ids items0) k = true.
Proof.
  unfold names_sub_item. rewrite existsb_exists.
  split; intros (k & H1 & H2); exists k; split; try assumption;
    now apply list_elem_of_In.
Qed.

Lemma keys_nonempty_iff {V : Type} (d : Dict.t V) (ids : list string)
    (known : string -> bool) :
  (forall k, k ∈ Dict.keys d <-> k ∈ Dict.keys (@Dict.empty V)
                                 \/ (k ∈ ids /\ known k = true)) ->
  (exists k, k ∈ ids /\ known k = true) <-> d <> [].
Proof.
  intros H. split.
  - intros (k & Hk) ->. assert (Hin : k ∈ Dict.keys (@nil (string * V)))
      by (apply H; now right).
    simpl in Hin. now apply elem_of_nil in Hin.
  - destruct d as [|[k v] d]; [congruence|]. intros _. exists k.
    assert (Hin : k ∈ Dict.keys ((k, v) :: d)) by (simpl; constructor).
    apply H in Hin as [Hin|Hin]; [|exact Hin].
    simpl in Hin. now apply elem_of_nil in Hin.
Qed.

(** One signal: the ids of the checklist are kept, and an entry is logged
    exactly when the signal names an item or a sub-item. *)
Lemma apply_signal_spec (items0 : list ChecklistItem.t)
    (signal : ProgressSignalModel.t) (s : ResearchState.t) (w : World) :
  id_shape (items_of s) = id_shape items0 ->
  exists s' w',
    apply_signal (index_items items0) (index_sub_items items0) s signal w
      = (Return s', w') /\
    id_shape (items_of s') = id_shape items0 /\
    if names_something items0 signal
    then exists e,
           progress_log_of s' = progress_log_of s ++ [e] /\
           logged_for items0 signal e
    else progress_log_of s' = progress_log_of s.
Proof.
  intros Hshape. unfold apply_signal.
  pose proof (fold_records_keys
                (signal_item_step (index_items items0) signal)
                (fun acc => Dict.keys (snd acc))
                (fun acc => id_shape (fst acc) = id_shape items0)
                (is_one_of (item_ids items0))
                (fun acc k H => signal_item_step_spec items0 signal acc k H)
                (ProgressSignalModel.item_ids signal)
                (items_of s, Dict.empty) Hshape NoDup_nil_2)
    as (Hshape1 & Hnd1 & Hmem1).
  destruct (fold_left _ (ProgressSignalModel.item_ids signal) _)
    as [items1 tm1]. simpl in Hshape1, Hnd1, Hmem1.
  pose proof (fold_records_keys
                (signal_sub_item_step (index_sub_items items0) signal)
                (fun acc => Dict.keys (snd acc))
                (fun acc => id_shape (fst acc) = id_shape items0)
                (is_one_of (all_sub_item_ids items0))
                (fun acc k H =>
                   signal_sub_item_step_spec items0 signal acc k H)
                (ProgressSignalModel.sub_item_ids signal)
                (items1, Dict.empty) Hshape1 NoDup_nil_2)
    as (Hshape2 & Hnd2 & Hmem2).
  destruct (fold_left _ (ProgressSignalModel.sub_item_ids signal) _)
    as [items2 tm2]. simpl in Hshape2, Hnd2, Hmem2.
  pose proof (keys_nonempty_iff tm1 _ _ Hmem1) as Hne1.
  pose proof (keys_nonempty_iff tm2 _ _ Hmem2) as Hne2.
  rewrite <- names_item_iff in Hne1. rewrite <- names_sub_item_iff in Hne2.
  assert (Hitems : forall k,
            k ∈ Dict.keys tm1
            <-> k ∈ ProgressSignalModel.item_ids signal /\ k ∈ item_ids items0).
  { intros k. rewrite Hmem1, is_one_of_iff. simpl. rewrite elem_of_nil. tauto. }
  assert (Hsubs : forall k,
            k ∈ Dict.keys tm2
            <-> k ∈ ProgressSignalModel.sub_item_ids signal /\
                k ∈ all_sub_item_ids items0).
  { intros k. rewrite Hmem2, is_one_of_iff. simpl. rewrite elem_of_nil. tauto. }
  unfold names_something.
  destruct tm1 as [|kv1 tm1].
  - assert (H1 : names_item items0 signal = false)
      by (apply not_true_is_false; intros H; now apply Hne1 in H).
    rewrite H1. simpl orb.
    destruct tm2 as [|kv2 tm2].
    + assert (H2 : names_sub_item items0 signal = false)
        by (apply not_true_is_false; intros H; now apply Hne2 in H).
      rewrite H2. do 2 eexists. split; [reflexivity|]. now split.
    + assert (H2 : names_sub_item items0 signal = true)
        by (apply Hne2; discriminate).
      rewrite H2. do 2 eexists. split; [reflexivity|]. split; [exact Hshape2|].
      eexists. split; [reflexivity|].
      unfold logged_for. simpl.
      split; [reflexivity|]. split; [apply NoDup_nil_2|].
      split; [exact Hitems|]. split; [exact Hnd2|]. split; [exact Hsubs|].
      reflexivity.
  - assert (H1 : names_item items0 signal = true)
      by (apply Hne1; discriminate).
    rewrite H1. simpl orb.
    do 2 eexists. split; [reflexivity|]. split; [exact Hshape2|].
    eexists. split; [reflexivity|].
    unfold logged_for. simpl.
    split; [reflexivity|]. split; [exact Hnd1|].
    split; [exact Hitems|]. split; [exact Hnd2|]. split; [exact Hsubs|].
    reflexivity.
Qed.

Lemma signals_loop (items0 : list ChecklistItem.t)
    (signals : list ProgressSignalModel.t) :
  forall (s : ResearchState.t) (w : World),
    id_shape (items_of s) = id_shape items0 ->
    exists s' w' entries,
      for_each (apply_signal (index_items items0) (index_sub_items items0))
        signals s w = (Return s', w') /\
      id_shape (items_of s') = id_shape items0 /\
      progress_log_of s' = progress_log_of s ++ entries /\
      Forall2 (logged_for items0)
        (List.filter (names_something items0) signals) entries.
Proof.
  induction signals as [|signal signals IH]; intros s w Hshape; simpl.
  - exists s, w, []. rewrite app_nil_r. repeat split; [exact Hshape|].
    constructor.
  - destruct (apply_signal_spec items0 signal s w Hshape)
      as (s1 & w1 & Heq1 & Hshape1 & Hlog1).
    unfold bind. rewrite Heq1.
    destruct (IH s1 w1 Hshape1) as (s2 & w2 & entries & Heq2 & Hshape2 & Hlog2 & Hall).
    destruct (names_something items0 signal).
    + destruct Hlog1 as (e & Hlog1 & He).
      exists s2, w2, (e :: entries). split; [exact Heq2|].
      split; [exact Hshape2|]. split.
      * rewrite Hlog2, Hlog1, <- app_assoc. reflexivity.
      * now constructor.
    + exists s2, w2, entries. split; [exact Heq2|].
      split; [exact Hshape2|]. split; [|exact Hall].
      now rewrite Hlog2, Hlog1.
Qed.



(** The same happens when the signal repeats the current status. *)
Example same_status_is_logged :
  exists s' w',
    _handle_interpret_progress_update
      (set_checklist_items
         [an_item "item-1" "Write spec" ChecklistItemStatus.PENDING []] a_state)
      (InterpretProgressUpdateOutput.mk "ok"
         [a_signal ["item-1"] [] (Some ChecklistItemStatus.PENDING) None]
         false None) a_world = (Return s', w') /\
    items_of s'
      = [an_item "item-1" "Write spec" ChecklistItemStatus.PENDING []] /\
    length (progress_log_of s') = 1.
Proof. do 2 eexists. split; [vm_compute; reflexivity|]. split; reflexivity. Qed.

Example item_done_scenario :
  exists s' w' e,
    _handle_interpret_progress_update
      (set_checklist_items
         [an_item "item-1" "Write spec" ChecklistItemStatus.PENDING []] a_state)
      (InterpretProgressUpdateOutput.mk "Noted"
         [a_signal ["item-1"] [] (Some ChecklistItemStatus.COMPLETE)
            (Some "done")] false None) a_world = (Return s', w') /\
    items_of s'
      = [ChecklistItem.mk "item-1" "Write spec" None
           ChecklistItemStatus.COMPLETE None ["done"] []] /\
    progress_log_of s' = [e] /\
    ProgressLogEntry.referenced_item_ids e = ["item-1"] /\
    ProgressLogEntry.status_transitions e
      = [("item-1", ChecklistItemStatus.COMPLETE)] /\
    phase_of s' = WorkflowPhase.GENERATING_SUMMARY.
Proof.
  do 3 eexists. split; [vm_compute; reflexivity|]. repeat split.
Qed.



Lemma other_handlers_keep_items (state : ResearchState.t) (w : World) :
  (forall output,
     exists s' w',
       _handle_generate_refinement_questions state output w = (Return s', w') /\
       items_of s' = items_of state) /\
  (forall output,
     exists s' w',
       _handle_completion_summary state output w = (Return s', w') /\
       items_of s' = items_of state).
Proof.
  split; intros output.
  - unfold _handle_generate_refinement_questions.
    unfold bind at 1. simpl. unfold bind at 1. simpl.
    match goal with
    | |- context [for_each ?b ?l ?s1 ?w1] =>
        destruct (ask_each_prompt l s1 w1) as (entries & w' & Heq & _);
        rewrite Heq
    end.
    do 2 eexists. split; reflexivity.
  - unfold _handle_completion_summary. do 2 eexists. split; reflexivity.
Qed.

(** * Further properties *)

(** ** What each handler returns *)

Lemma append_exchanges_nil (s : ResearchState.t) : append_exchanges [] s = s.
Proof.
  destruct s as [c m wf [d i q x l cl pl fp cs cp]].
  unfold append_exchanges, on_working. simpl. now rewrite app_nil_r.
Qed.

Lemma append_exchanges_app (e1 e2 : list RefinementExchange.t)
    (s : ResearchState.t) :
  append_exchanges e2 (append_exchanges e1 s) = append_exchanges (e1 ++ e2) s.
Proof.
  unfold append_exchanges, on_working. simpl. now rewrite app_assoc.
Qed.

Lemma record_each_exchange (answer_text : string)
    (prompts : list RefinementPrompt.t) :
  forall (s : ResearchState.t) (w : World),
  exists exchanges w',
    for_each
      (fun new_state prompt =>
         let* exchange :=
           new_RefinementExchange (RefinementPrompt.question prompt)
             (RefinementPrompt.intent prompt) answer_text in
         ret (append_refinement_exchange exchange new_state))
      prompts s w
    = (Return (append_exchanges exchanges s), w') /\
    map (fun x => (RefinementExchange.question x, RefinementExchange.intent x,
                   RefinementExchange.answer x)) exchanges
    = map (fun p => (RefinementPrompt.question p, RefinementPrompt.intent p,
                     answer_text)) prompts.
Proof.
  induction prompts as [|p prompts IH]; intros s w.
  - exists [], w. simpl. now rewrite append_exchanges_nil.
  - simpl. unfold bind at 1. simpl.
    match goal with
    | |- context [for_each _ prompts ?s1 ?w1] =>
        destruct (IH s1 w1) as (exchanges & w' & Heq & Hc); rewrite Heq
    end.
    eexists (_ :: exchanges), w'. split.
    + change (append_refinement_exchange ?e s) with (append_exchanges [e] s).
      now rewrite append_exchanges_app.
    + simpl. now rewrite Hc.
Qed.

Lemma with_progress_same (s : ResearchState.t) :
  with_progress (items_of s) (progress_log_of s) s = s.
Proof. now destruct s as [c m wf [d i q x l cl pl fp cs cp]]. Qed.

Lemma apply_signal_effect (items_by_id : Dict.t nat)
    (sub_items_by_id : Dict.t (nat * nat)) (s : ResearchState.t)
    (signal : ProgressSignalModel.t) (w : World) :
  exists items' log' w',
    apply_signal items_by_id sub_items_by_id s signal w
    = (Return (with_progress items' log' s), w').
Proof.
  unfold apply_signal.
  destruct (fold_left _ (ProgressSignalModel.item_ids signal) _)
    as [items1 tm1].
  destruct (fold_left _ (ProgressSignalModel.sub_item_ids signal) _)
    as [items2 tm2].
  destruct tm1 as [|kv1 tm1]; [destruct tm2 as [|kv2 tm2]|].
  - exists items2, (progress_log_of s), w. reflexivity.
  - exists items2. do 2 eexists. reflexivity.
  - exists items2. do 2 eexists. reflexivity.
Qed.

Lemma signals_effect (items_by_id : Dict.t nat)
    (sub_items_by_id : Dict.t (nat * nat))
    (signals : list ProgressSignalModel.t) :
  forall (s : ResearchState.t) (w : World),
  exists items' log' w',
    for_each (apply_signal items_by_id sub_items_by_id) signals s w
    = (Return (with_progress items' log' s), w').
Proof.
  induction signals as [|signal signals IH]; intros s w; simpl.
  - exists (items_of s), (progress_log_of s), w. now rewrite with_progress_same.
  - destruct (apply_signal_effect items_by_id sub_items_by_id s signal w)
      as (items1 & log1 & w1 & Heq1).
    unfold bind. rewrite Heq1.
    destruct (IH (with_progress items1 log1 s) w1)
      as (items2 & log2 & w2 & Heq2).
    rewrite Heq2. now exists items2, log2, w2.
Qed.

(** The state that [_handle_incorporate_refinements] returns. *)
Lemma incorporate_refinements_effect (state : ResearchState.t)
    (output : IncorporateRefinementsOutput.t) (w : World) :
  exists exchanges entry now w',
    _handle_incorporate_refinements state output w
    = (Return
         (append_conversation_log entry
            (set_last_transition_at now
               (set_phase WorkflowPhase.CHECK_APPROVAL
                  (set_latest_user_message None
                     (set_refinement_questions []
                        (append_exchanges exchanges
                           (set_checklist_items
                              (refined_items (items_of state)
                                 (IncorporateRefinementsOutput.updates output))
                              state))))))),
       w') /\
    map (fun x => (RefinementExchange.question x, RefinementExchange.intent x,
                   RefinementExchange.answer x)) exchanges
    = map (fun p => (RefinementPrompt.question p, RefinementPrompt.intent p,
                     Py.or_str (latest_user_message_of state) ""))
        (WorkingMemory.refinement_questions (ResearchState.working state)) /\
    ConversationEntry.kind entry = ConversationEntryKind.AGENT /\
    ConversationEntry.content entry
      = IncorporateRefinementsOutput.ai_response output.
Proof.
  unfold _handle_incorporate_refinements, deepcopy.
  unfold bind at 1.
  match goal with
  | |- context [for_each _ ?qs ?s1 w] =>
      destruct (record_each_exchange
                  (Py.or_str (latest_user_message_of state) "") qs s1 w)
        as (exchanges & w1 & Heq & Hmap)
  end.
  unfold latest_user_message_of in Heq. simpl in Heq. simpl. rewrite Heq.
  exists exchanges. do 3 eexists. split; [reflexivity|].
  split; [exact Hmap|]. split; reflexivity.
Qed.

(** The state that [_handle_interpret_progress_update] returns. *)
Lemma interpret_progress_effect (state : ResearchState.t)
    (output : InterpretProgressUpdateOutput.t) (w : World) :
  exists items' log' entry now w',
    let logged :=
      append_conversation_log entry (with_progress items' log' state) in
    _handle_interpret_progress_update state output w
    = (Return
         (set_last_transition_at now
            (if InterpretProgressUpdateOutput.needs_clarification output
             then
               set_clarification_prompt
                 (InterpretProgressUpdateOutput.clarification_prompt output)
                 (set_phase WorkflowPhase.ASKING_CLARIFICATION
                    (set_awaiting_clarification true logged))
             else
               set_phase
                 (if checklist_is_complete (with_progress items' log' state)
                  then WorkflowPhase.GENERATING_SUMMARY
                  else WorkflowPhase.ACKNOWLEDGING_PROGRESS)
                 (set_clarification_prompt None
                    (set_awaiting_clarification false logged)))),
       w') /\
    ConversationEntry.kind entry = ConversationEntryKind.AGENT /\
    ConversationEntry.content entry
      = InterpretProgressUpdateOutput.ai_response output /\
    (exists logged, log' = progress_log_of state ++ logged) /\
    exists w1,
      for_each
        (apply_signal (index_items (items_of state))
           (index_sub_items (items_of state)))
        (InterpretProgressUpdateOutput.signals output) state w
      = (Return (with_progress items' log' state), w1).
Proof.
  unfold _handle_interpret_progress_update, deepcopy.
  destruct (signals_effect (index_items (items_of state))
              (index_sub_items (items_of state))
              (InterpretProgressUpdateOutput.signals output) state w)
    as (items' & log' & w1 & Heq).
  destruct (signals_loop (items_of state)
              (InterpretProgressUpdateOutput.signals output) state w eq_refl)
    as (s2 & w2 & logged & Heq2 & _ & Hlog & _).
  rewrite Heq in Heq2. injection Heq2 as <- _.
  unfold bind at 1. rewrite Heq.
  exists items', log'. do 3 eexists. cbv zeta. split.
  - destruct (InterpretProgressUpdateOutput.needs_clarification output);
      [reflexivity|].
    unfold bind, new_ConversationEntry, uuid4_hex, utcnow, ret. simpl.
    reflexivity.
  - split; [reflexivity|]. split; [reflexivity|].
    split; [now exists logged|]. now exists w1.
Qed.

(** ** Stored texts *)

Lemma rstrip_idem (p : ascii -> bool) (s : string) :
  Py.rstrip_with p (Py.rstrip_with p s) = Py.rstrip_with p s.
Proof.
  induction s as [|c r IH]; [reflexivity|].
  simpl. destruct (Py.rstrip_with p r) as [|c' r'] eqn:E.
  - destruct (p c) eqn:Ec; [reflexivity|]. simpl. now rewrite Ec.
  - simpl. simpl in IH. rewrite IH. reflexivity.
Qed.

Lemma lstrip_head (p : ascii -> bool) (s : string) :
  Py.lstrip_with p s = EmptyString \/
  exists c r, Py.lstrip_with p s = String c r /\ p c = false.
Proof.
  induction s as [|c r IH]; [now left|].
  simpl. destruct (p c) eqn:Ec; [exact IH|].
  right. now exists c, r.
Qed.

Lemma rstrip_head (p : ascii -> bool) (c : ascii) (r : string) :
  p c = false -> exists r', Py.rstrip_with p (String c r) = String c r'.
Proof.
  intros Hc. simpl. destruct (Py.rstrip_with p r) as [|c' r'].
  - rewrite Hc. now eexists.
  - now eexists.
Qed.

Lemma strip_idem (s : string) : Py.strip (Py.strip s) = Py.strip s.
Proof.
  unfold Py.strip.
  destruct (lstrip_head Py.is_space s) as [->|(c & r & -> & Hc)];
    [reflexivity|].
  destruct (rstrip_head Py.is_space c r Hc) as (r' & E).
  rewrite E. simpl Py.lstrip_with. rewrite Hc, <- E.
  apply rstrip_idem.
Qed.

Lemma strip_stored (s : string) :
  Py.truthy (Py.strip s) = true -> stored_text (Py.strip s).
Proof.
  intros Ht. split; [|apply strip_idem].
  destruct (blank (Py.strip s)) eqn:Eb; [|reflexivity].
  apply strip_empty_iff in Eb. rewrite strip_idem in Eb.
  now rewrite Eb in Ht.
Qed.

Lemma truthy_strip (s : string) : Py.truthy (Py.strip s) = negb (blank s).
Proof.
  destruct (blank s) eqn:Eb.
  - now rewrite (strip_blank s Eb).
  - destruct (Py.strip s) eqn:E; [|reflexivity].
    apply strip_empty_iff in E. congruence.
Qed.

Lemma stored_text_visible (t : string) : stored_text t -> Py.truthy t = true.
Proof.
  intros [Hb Hs]. rewrite <- Hs, truthy_strip. now rewrite Hb.
Qed.

(** ** What each function of the state manager returns *)

Lemma ingest_user_description_effect (s : ResearchState.t) (text : string)
    (w : World) :
  (blank text = true /\ ingest_user_description s text w = (Return s, w)) \/
  (blank text = false /\
   exists entry now w',
     ingest_user_description s text w
     = (Return
          (append_conversation_log entry
             (set_last_transition_at now
                (set_phase WorkflowPhase.GENERATING_CHECKLIST
                   (on_working
                      (WorkingMemory.with_original_description
                         (Some (Py.strip text))) s)))), w') /\
     ConversationEntry.kind entry = ConversationEntryKind.USER /\
     ConversationEntry.content entry = Py.strip text /\
     ConversationEntry.metadata entry = Dict.empty).
Proof.
  unfold ingest_user_description, deepcopy.
  rewrite truthy_strip. destruct (blank text); [now left|right].
  split; [reflexivity|]. do 3 eexists. split; [reflexivity|]. now repeat split.
Qed.

Lemma record_user_feedback_effect (s : ResearchState.t) (text : string)
    (w : World) :
  (blank text = true /\ record_user_feedback s text w = (Return s, w)) \/
  (blank text = false /\
   exists entry now w',
     record_user_feedback s text w
     = (Return
          (append_conversation_log entry
             (set_last_transition_at now
                (set_phase WorkflowPhase.PROCESSING_FEEDBACK
                   (set_latest_user_message (Some (Py.strip text)) s)))),
        w') /\
     ConversationEntry.kind entry = ConversationEntryKind.USER /\
     ConversationEntry.content entry = Py.strip text /\
     ConversationEntry.metadata entry = Dict.empty).
Proof.
  unfold record_user_feedback, deepcopy.
  rewrite truthy_strip. destruct (blank text); [now left|right].
  split; [reflexivity|]. do 3 eexists. split; [reflexivity|]. now repeat split.
Qed.

Lemma ingest_progress_input_effect (s : ResearchState.t) (text : string)
    (w : World) :
  (blank text = true /\ ingest_progress_input s text w = (Return s, w)) \/
  (blank text = false /\
   exists entry now w',
     ingest_progress_input s text w
     = (Return
          (append_conversation_log entry
             (set_last_transition_at now
                (set_phase WorkflowPhase.INTERPRETING_INTENT
                   (set_latest_user_message (Some (Py.strip text)) s)))),
        w') /\
     ConversationEntry.kind entry = ConversationEntryKind.USER /\
     ConversationEntry.content entry = Py.strip text /\
     ConversationEntry.metadata entry = Dict.empty).
Proof.
  unfold ingest_progress_input, deepcopy.
  rewrite truthy_strip. destruct (blank text); [now left|right].
  split; [reflexivity|]. do 3 eexists. split; [reflexivity|]. now repeat split.
Qed.

Lemma mark_checklist_rejected_effect (s : ResearchState.t) (text : string)
    (w : World) :
  exists entries now w',
    mark_checklist_rejected s text w
    = (Return
         (set_last_transition_at now
            (set_phase WorkflowPhase.PROCESSING_FEEDBACK
               (append_entries entries s))), w') /\
    (if blank text then entries = []
     else exists entry,
         entries = [entry] /\
         ConversationEntry.kind entry = ConversationEntryKind.USER /\
         ConversationEntry.content entry = Py.strip text).
Proof.
  unfold mark_checklist_rejected, deepcopy.
  rewrite truthy_strip. destruct (blank text); simpl.
  - exists []. do 2 eexists. rewrite append_entries_nil.
    split; reflexivity.
  - eexists [_]. do 2 eexists. split; [reflexivity|].
    eexists. now repeat split.
Qed.

Lemma generate_initial_checklist_effect (s : ResearchState.t)
    (output : GenerateInitialChecklistOutput.t) (w : World) :
  exists items entry now w',
    _handle_generate_initial_checklist s output w
    = (Return
         (append_conversation_log entry
            (set_last_transition_at now
               (set_phase WorkflowPhase.ASKING_REFINEMENT_QUESTIONS
                  (set_questions_asked 0
                     (set_checklist_items items s))))), w') /\
    ConversationEntry.kind entry = ConversationEntryKind.AGENT /\
    ConversationEntry.content entry
      = GenerateInitialChecklistOutput.ai_response output.
Proof.
  unfold _handle_generate_initial_checklist, deepcopy.
  do 4 eexists. split; [reflexivity|]. now split.
Qed.

Lemma generate_refinement_questions_effect (s : ResearchState.t)
    (output : GenerateRefinementQuestionsOutput.t) (w : World) :
  exists prompts entries now w',
    _handle_generate_refinement_questions s output w
    = (Return
         (append_entries entries
            (set_last_transition_at now
               (set_phase
                  (match prompts with
                   | _ :: _ => WorkflowPhase.AWAITING_USER_RESPONSE
                   | [] => WorkflowPhase.CHECK_APPROVAL
                   end)
                  (set_questions_asked
                     (questions_asked_of s + Z.of_nat (length prompts))
                     (set_refinement_questions prompts s))))), w') /\
    length prompts
      = length (GenerateRefinementQuestionsOutput.questions output).
Proof.
  unfold _handle_generate_refinement_questions, deepcopy.
  set (prompts := map _ (GenerateRefinementQuestionsOutput.questions output)).
  unfold bind at 1. simpl. unfold bind at 1. simpl.
  match goal with
  | |- context [for_each _ prompts ?s1 ?w1] =>
      destruct (ask_each_prompt prompts s1 w1) as (entries & w' & Heq & _)
  end.
  exists prompts. eexists (_ :: entries). do 2 eexists. split.
  - rewrite Heq.
    change (append_conversation_log ?e ?x) with (append_entries [e] x).
    rewrite append_entries_app. reflexivity.
  - unfold prompts. now rewrite length_map.
Qed.

Lemma completion_summary_effect (s : ResearchState.t)
    (output : CompletionSummaryOutput.t) (w : World) :
  exists entry now w',
    _handle_completion_summary s output w
    = (Return
         (append_conversation_log entry
            (set_last_transition_at now
               (set_phase WorkflowPhase.PRESENTING_SUMMARY
                  (on_working
                     (WorkingMemory.with_completion_summary
                        (Some (CompletionSummaryOutput.ai_response output)))
                     s)))), w').
Proof.
  unfold _handle_completion_summary, deepcopy.
  do 3 eexists. reflexivity.
Qed.

(** ** The states that the state manager leads to *)

Lemma record_save_result_effect (model_dump : ChecklistArtifact.t -> Any)
    (s : ResearchState.t) (artifact : ChecklistArtifact.t)
    (file_path : string) (w : World) :
  exists entry now w',
    record_save_result model_dump s artifact file_path w
    = (Return
         (append_conversation_log entry
            (set_last_transition_at now
               (set_phase WorkflowPhase.CONFIRMING_SAVE
                  (on_workflow (WorkflowState.with_pending_save false)
                     (on_working
                        (WorkingMemory.with_checklist_file_path
                           (Some file_path)) s))))), w') /\
    ConversationEntry.kind entry = ConversationEntryKind.SYSTEM /\
    ConversationEntry.content entry
      = ("Checklist saved to " ++ file_path)%string /\
    ConversationEntry.metadata entry
      = [("artifact_summary", model_dump artifact)].
Proof.
  unfold record_save_result, deepcopy. do 3 eexists.
  split; [reflexivity|]. now repeat split.
Qed.

Lemma activate_tracking_mode_effect (s : ResearchState.t) (w : World) :
  exists started now w',
    activate_tracking_mode s w
    = (Return
         (set_last_transition_at now
            (on_workflow
               (WorkflowState.with_listening_started_at (Some started))
               (set_phase WorkflowPhase.LISTENING_FOR_PROGRESS s))), w') /\
    started = match listening_started_at_of s with
              | Some t => t
              | None => utc_clock w (utc_reads w)
              end.
Proof.
  unfold activate_tracking_mode, deepcopy, listening_started_at_of.
  simpl.
  destruct (WorkflowState.listening_started_at (ResearchState.workflow s));
    do 3 eexists; split; reflexivity.
Qed.

Lemma update_state_from_skill_effect (s : ResearchState.t)
    (skill_name : SkillName.t) (output : output_model skill_name)
    (w : World) :
  match skill_name
        return output_model skill_name -> Prop with
  | SkillName.GENERATE_INITIAL_CHECKLIST => fun output =>
      update_state_from_skill s SkillName.GENERATE_INITIAL_CHECKLIST output w
      = _handle_generate_initial_checklist s output w
  | SkillName.GENERATE_REFINEMENT_QUESTIONS => fun output =>
      update_state_from_skill s SkillName.GENERATE_REFINEMENT_QUESTIONS
        output w
      = _handle_generate_refinement_questions s output w
  | SkillName.INCORPORATE_REFINEMENTS => fun output =>
      update_state_from_skill s SkillName.INCORPORATE_REFINEMENTS output w
      = _handle_incorporate_refinements s output w
  | SkillName.INTERPRET_PROGRESS_UPDATE => fun output =>
      update_state_from_skill s SkillName.INTERPRET_PROGRESS_UPDATE output w
      = _handle_interpret_progress_update s output w
  | SkillName.GENERATE_COMPLETION_SUMMARY => fun output =>
      update_state_from_skill s SkillName.GENERATE_COMPLETION_SUMMARY output w
      = _handle_completion_summary s output w
  end output.
Proof. destruct skill_name; reflexivity. Qed.

Ltac open_state s :=
  destruct s as [?core ?semantic
                 [?phase ?asked ?ceiling ?finalized ?pending ?started
                  ?moved ?awaiting]
                 [?description ?items ?prompts ?exchanges ?message
                  ?entries ?progress ?path ?summary ?clarification]].

Ltac settle_coherent :=
  unfold coherent, phase_of, checklist_is_complete, items_of,
    questions_asked_of in *;
  cbn in *;
  repeat match goal with
         | H : _ /\ _ |- _ => destruct H
         end;
  repeat match goal with
         | |- _ /\ _ => split
         end;
  intros;
  try discriminate; try congruence; try lia; auto.

Lemma initial_coherent (user_handle : option string) (w : World)
    (s : ResearchState.t) (w' : World) :
  create_initial_state user_handle w = (Return s, w') -> coherent s.
Proof.
  intros H. injection H as <- _. settle_coherent.
Qed.

Lemma transition_coherent (model_dump : ChecklistArtifact.t -> Any)
    (s s' : ResearchState.t) :
  coherent s -> transition model_dump s s' -> coherent s'.
Proof.
  intros Hc Ht.
  destruct Ht as [s text w s' w' H|s text w s' w' H|s text w s' w' H
                 |s w s' w' H|s text w s' w' H|s artifact path w s' w' H
                 |s w s' w' H|s w s' w' H|s w s' w' H|s k output w s' w' H].
  - destruct (ingest_user_description_effect s text w)
      as [[_ E]|(Hb & entry & now & w1 & E & _)];
      rewrite E in H; injection H as <- _; [exact Hc|].
    pose proof (strip_stored text) as Hs. rewrite truthy_strip, Hb in Hs.
    specialize (Hs eq_refl).
    open_state s. settle_coherent.
  - destruct (record_user_feedback_effect s text w)
      as [[_ E]|(Hb & entry & now & w1 & E & _)];
      rewrite E in H; injection H as <- _; [exact Hc|].
    pose proof (strip_stored text) as Hs. rewrite truthy_strip, Hb in Hs.
    specialize (Hs eq_refl).
    open_state s. settle_coherent.
  - destruct (ingest_progress_input_effect s text w)
      as [[_ E]|(Hb & entry & now & w1 & E & _)];
      rewrite E in H; injection H as <- _; [exact Hc|].
    pose proof (strip_stored text) as Hs. rewrite truthy_strip, Hb in Hs.
    specialize (Hs eq_refl).
    open_state s. settle_coherent.
  - injection H as <- _. open_state s. settle_coherent.
  - destruct (mark_checklist_rejected_effect s text w)
      as (es & now & w1 & E & _).
    rewrite E in H; injection H as <- _.
    open_state s. settle_coherent.
  - destruct (record_save_result_effect model_dump s artifact path w)
      as (entry & now & w1 & E & _).
    rewrite E in H; injection H as <- _.
    open_state s. settle_coherent.
  - destruct (activate_tracking_mode_effect s w)
      as (started & now & w1 & E & _).
    rewrite E in H; injection H as <- _.
    open_state s. settle_coherent.
  - injection H as <- _. open_state s. settle_coherent.
  - injection H as <- _. open_state s. settle_coherent.
  - pose proof (update_state_from_skill_effect s k output w) as Hk.
    destruct k; cbv beta iota in Hk; rewrite Hk in H; clear Hk.
    + destruct (generate_initial_checklist_effect s output w)
        as (items & entry & now & w1 & E & _).
      rewrite E in H; injection H as <- _.
      open_state s. settle_coherent.
    + destruct (generate_refinement_questions_effect s output w)
        as (prompts & es & now & w1 & E & _).
      rewrite E in H; injection H as <- _.
      open_state s. destruct prompts; settle_coherent.
    + destruct (incorporate_refinements_effect s output w)
        as (xs & entry & now & w1 & E & _).
      rewrite E in H; injection H as <- _.
      open_state s. settle_coherent.
    + destruct (interpret_progress_effect s output w)
        as (items' & log' & entry & now & w1 & E & _).
      cbv zeta in E. rewrite E in H; injection H as <- _.
      destruct (InterpretProgressUpdateOutput.needs_clarification output).
      * open_state s. settle_coherent.
      * destruct (checklist_is_complete (with_progress items' log' s)) eqn:Ec;
          open_state s; settle_coherent.
    + destruct (completion_summary_effect s output w)
        as (entry & now & w1 & E).
      rewrite E in H; injection H as <- _.
      open_state s. settle_coherent.
Qed.

Lemma reachable_coherent (model_dump : ChecklistArtifact.t -> Any)
    (s : ResearchState.t) :
  reachable model_dump s -> coherent s.
Proof.
  induction 1 as [user_handle w s w' H|s s' _ IH Ht].
  - exact (initial_coherent user_handle w s w' H).
  - exact (transition_coherent model_dump s s' IH Ht).
Qed.

(** The example session is made of calls of the state manager. *)
Lemma a_session_start_reachable : reachable a_dump (fst a_session_start).
Proof.
  apply (reachable_initial a_dump (Some "ada") a_world _ (snd a_session_start)).
  reflexivity.
Defined.

Lemma a_session_described_reachable :
  reachable a_dump (fst a_session_described).
Proof.
  apply (reachable_step a_dump _ _ a_session_start_reachable).
  apply (by_ingest_user_description a_dump _ " Launch v2 "
           (snd a_session_start) _ (snd a_session_described)).
  reflexivity.
Defined.

Lemma a_session_drafted_reachable : reachable a_dump (fst a_session_drafted).
Proof.
  apply (reachable_step a_dump _ _ a_session_described_reachable).
  apply (by_update_state_from_skill a_dump _
           SkillName.GENERATE_INITIAL_CHECKLIST a_checklist_output
           (snd a_session_described) _ (snd a_session_drafted)).
  reflexivity.
Defined.

Lemma a_session_asked_reachable : reachable a_dump (fst a_session_asked).
Proof.
  apply (reachable_step a_dump _ _ a_session_drafted_reachable).
  apply (by_update_state_from_skill a_dump _
           SkillName.GENERATE_REFINEMENT_QUESTIONS a_questions_output
           (snd a_session_drafted) _ (snd a_session_asked)).
  reflexivity.
Defined.

Lemma a_session_answered_reachable :
  reachable a_dump (fst a_session_answered).
Proof.
  apply (reachable_step a_dump _ _ a_session_asked_reachable).
  apply (by_record_user_feedback a_dump _ "Ada reviews it"
           (snd a_session_asked) _ (snd a_session_answered)).
  reflexivity.
Defined.

Lemma a_session_refined_reachable : reachable a_dump (fst a_session_refined).
Proof.
  apply (reachable_step a_dump _ _ a_session_answered_reachable).
  apply (by_update_state_from_skill a_dump _
           SkillName.INCORPORATE_REFINEMENTS a_refinement_output
           (snd a_session_answered) _ (snd a_session_refined)).
  vm_compute. reflexivity.
Defined.

Lemma a_session_approved_reachable :
  reachable a_dump (fst a_session_approved).
Proof.
  apply (reachable_step a_dump _ _ a_session_refined_reachable).
  apply (by_mark_checklist_approved a_dump _
           (snd a_session_refined) _ (snd a_session_approved)).
  vm_compute. reflexivity.
Defined.

Lemma a_session_saved_reachable : reachable a_dump (fst a_session_saved).
Proof.
  apply (reachable_step a_dump _ _ a_session_approved_reachable).
  apply (by_record_save_result a_dump _ an_artifact "launch.json"
           (snd a_session_approved) _ (snd a_session_saved)).
  vm_compute. reflexivity.
Defined.

Lemma a_session_tracking_reachable :
  reachable a_dump (fst a_session_tracking).
Proof.
  apply (reachable_step a_dump _ _ a_session_saved_reachable).
  apply (by_activate_tracking_mode a_dump _
           (snd a_session_saved) _ (snd a_session_tracking)).
  vm_compute. reflexivity.
Defined.

Lemma a_session_reported_reachable :
  reachable a_dump (fst a_session_reported).
Proof.
  apply (reachable_step a_dump _ _ a_session_tracking_reachable).
  apply (by_ingest_progress_input a_dump _ "shipped it"
           (snd a_session_tracking) _ (snd a_session_reported)).
  vm_compute. reflexivity.
Defined.

Lemma a_session_progressed_reachable :
  reachable a_dump (fst a_session_progressed).
Proof.
  apply (reachable_step a_dump _ _ a_session_reported_reachable).
  apply (by_update_state_from_skill a_dump _
           SkillName.INTERPRET_PROGRESS_UPDATE a_progress_output
           (snd a_session_reported) _ (snd a_session_progressed)).
  vm_compute. reflexivity.
Defined.

(** X1. In a session that starts from [create_initial_state], eight of the
    23 workflow phases are never entered: no function of the state manager
    sets them. *)
Theorem unused_phases_never_entered
    (model_dump : ChecklistArtifact.t -> Any) (s : ResearchState.t) :
  reachable model_dump s ->
  ~ In (phase_of s)
      [WorkflowPhase.RECEIVING_DESCRIPTION;
       WorkflowPhase.PRESENTING_INITIAL_CHECKLIST;
       WorkflowPhase.UPDATING_CHECKLIST;
       WorkflowPhase.PRESENTING_REVISED_CHECKLIST;
       WorkflowPhase.RECEIVING_USER_INPUT;
       WorkflowPhase.LOGGING_CONTEXT;
       WorkflowPhase.PERSISTING_UPDATE;
       WorkflowPhase.CHECKING_COMPLETION].
Proof.
  intros Hr. apply reachable_coherent in Hr as (Hp & _).
  destruct (phase_of s); simpl; intuition discriminate.
Qed.

Lemma unused_phases_never_entered_witness :
  reachable a_dump (fst a_session_progressed) /\
  ~ In (phase_of (fst a_session_progressed))
      [WorkflowPhase.RECEIVING_DESCRIPTION;
       WorkflowPhase.PRESENTING_INITIAL_CHECKLIST;
       WorkflowPhase.UPDATING_CHECKLIST;
       WorkflowPhase.PRESENTING_REVISED_CHECKLIST;
       WorkflowPhase.RECEIVING_USER_INPUT;
       WorkflowPhase.LOGGING_CONTEXT;
       WorkflowPhase.PERSISTING_UPDATE;
       WorkflowPhase.CHECKING_COMPLETION].
Proof.
  split; [exact a_session_progressed_reachable|].
  exact (unused_phases_never_entered a_dump _ a_session_progressed_reachable).
Defined.

(** X2. In a session that starts from [create_initial_state] the ceiling on
    refinement questions is never met: the ceiling is 3, the count is 0
    whenever the phase is [asking_refinement_questions], so the coordinator
    asks for the questions skill there and never gives its
    limit-was-reached answer. *)
Theorem question_ceiling_never_met
    (model_dump : ChecklistArtifact.t -> Any) (s : ResearchState.t) :
  reachable model_dump s ->
  WorkflowState.max_refinement_questions (ResearchState.workflow s) = 3%Z /\
  (0 <= questions_asked_of s)%Z /\
  (phase_of s = WorkflowPhase.ASKING_REFINEMENT_QUESTIONS ->
   questions_asked_of s = 0%Z /\
   Coordinator.next_action s
   = Decision.llm SkillName.GENERATE_REFINEMENT_QUESTIONS
       "Need up to three clarifying questions" None) /\
  Coordinator.next_action s
  <> Decision.noop
       "Awaiting user responses because refinement question limit was reached".
Proof.
  intros Hr.
  apply reachable_coherent in Hr as (_ & Hmax & Hpos & Hzero & _).
  unfold questions_asked_of, MAX_REFINEMENT_QUESTIONS in *.
  split; [exact Hmax|]. split; [exact Hpos|].
  unfold Coordinator.next_action. rewrite Hmax.
  destruct (phase_of s) eqn:Ep; simpl;
    try (split; [discriminate|discriminate]).
  rewrite (Hzero eq_refl). simpl. split; [now intros _|discriminate].
Qed.

Lemma question_ceiling_never_met_witness :
  reachable a_dump (fst a_session_drafted) /\
  phase_of (fst a_session_drafted)
    = WorkflowPhase.ASKING_REFINEMENT_QUESTIONS /\
  Coordinator.next_action (fst a_session_drafted)
  = Decision.llm SkillName.GENERATE_REFINEMENT_QUESTIONS
      "Need up to three clarifying questions" None.
Proof.
  split; [exact a_session_drafted_reachable|]. split; [reflexivity|].
  destruct (question_ceiling_never_met a_dump _ a_session_drafted_reachable)
    as (_ & _ & H & _).
  exact (proj2 (H eq_refl)).
Defined.

(** X3. In a session that starts from [create_initial_state], whenever the
    coordinator asks for a skill the input of that skill is there: a
    stored description for the initial checklist, a stored user message for
    the interpretation of progress, a complete checklist for the summary. *)
Theorem requested_skill_has_its_input
    (model_dump : ChecklistArtifact.t -> Any) (s : ResearchState.t) :
  reachable model_dump s ->
  match Decision.skill (Coordinator.next_action s) with
  | Some SkillName.GENERATE_INITIAL_CHECKLIST =>
      exists d, original_description_of s = Some d /\ stored_text d
  | Some SkillName.INTERPRET_PROGRESS_UPDATE =>
      exists t, latest_user_message_of s = Some t /\ stored_text t
  | Some SkillName.GENERATE_COMPLETION_SUMMARY =>
      checklist_is_complete s = true
  | _ => True
  end.
Proof.
  intros Hr.
  apply reachable_coherent in Hr
    as (_ & _ & _ & _ & Hd & Hm & Hgen & Hint & Hsum & _).
  unfold Coordinator.next_action, original_description_of,
    latest_user_message_of.
  destruct (phase_of s) eqn:Ep; simpl; try exact I.
  - specialize (Hgen eq_refl).
    destruct (WorkingMemory.original_description (ResearchState.working s))
      as [d|]; [|congruence].
    exists d. split; [reflexivity|]. now apply Hd.
  - now destruct (_ <=? _)%Z.
  - specialize (Hint eq_refl).
    destruct (WorkingMemory.latest_user_message (ResearchState.working s))
      as [t|]; [|congruence].
    exists t. split; [reflexivity|]. now apply Hm.
  - now apply Hsum.
Qed.

Lemma requested_skill_has_its_input_witness :
  reachable a_dump (fst a_session_reported) /\
  Decision.skill (Coordinator.next_action (fst a_session_reported))
  = Some SkillName.INTERPRET_PROGRESS_UPDATE /\
  exists t,
    latest_user_message_of (fst a_session_reported) = Some t /\
    stored_text t.
Proof.
  split; [exact a_session_reported_reachable|]. split; [reflexivity|].
  exact (requested_skill_has_its_input a_dump _ a_session_reported_reachable).
Defined.

(** X4. In a session that starts from [create_initial_state] the flags of
    saving agree with the phase: a pending save is of a finalized
    checklist, in [saving_checklist] the save is pending, and in
    [confirming_save] the path of the file is set and no save is
    pending. *)
Theorem save_flags_agree
    (model_dump : ChecklistArtifact.t -> Any) (s : ResearchState.t) :
  reachable model_dump s ->
  (WorkflowState.pending_save (ResearchState.workflow s) = true ->
   WorkflowState.checklist_finalized (ResearchState.workflow s) = true) /\
  (phase_of s = WorkflowPhase.SAVING_CHECKLIST ->
   WorkflowState.pending_save (ResearchState.workflow s) = true /\
   WorkflowState.checklist_finalized (ResearchState.workflow s) = true) /\
  (phase_of s = WorkflowPhase.CONFIRMING_SAVE ->
   WorkingMemory.checklist_file_path (ResearchState.working s) <> None /\
   WorkflowState.pending_save (ResearchState.workflow s) = false).
Proof.
  intros Hr.
  apply reachable_coherent in Hr
    as (_ & _ & _ & _ & _ & _ & _ & _ & _ & Hpend & Hsave & Hconf & _).
  split; [exact Hpend|]. split; [|exact Hconf].
  intros Hp. split; [now apply Hsave|]. now apply Hpend, Hsave.
Qed.

Lemma save_flags_agree_witness :
  reachable a_dump (fst a_session_saved) /\
  phase_of (fst a_session_saved) = WorkflowPhase.CONFIRMING_SAVE /\
  WorkingMemory.checklist_file_path (ResearchState.working (fst a_session_saved))
    <> None /\
  WorkflowState.pending_save (ResearchState.workflow (fst a_session_saved))
    = false.
Proof.
  split; [exact a_session_saved_reachable|]. split; [reflexivity|].
  destruct (save_flags_agree a_dump _ a_session_saved_reachable)
    as (_ & _ & H).
  exact (H eq_refl).
Defined.

(** X5. In a session that starts from [create_initial_state] each waiting
    phase has what it waits on: there are open questions in
    [awaiting_user_response] and none in [check_approval], the
    clarification flag is set in [asking_clarification], the summary is
    stored in [presenting_summary], and in [idle] nothing has been
    recorded. *)
Theorem phase_has_its_data
    (model_dump : ChecklistArtifact.t -> Any) (s : ResearchState.t) :
  reachable model_dump s ->
  (phase_of s = WorkflowPhase.AWAITING_USER_RESPONSE ->
   WorkingMemory.refinement_questions (ResearchState.working s) <> []) /\
  (phase_of s = WorkflowPhase.CHECK_APPROVAL ->
   WorkingMemory.refinement_questions (ResearchState.working s) = []) /\
  (phase_of s = WorkflowPhase.ASKING_CLARIFICATION ->
   WorkflowState.awaiting_clarification (ResearchState.workflow s) = true) /\
  (phase_of s = WorkflowPhase.PRESENTING_SUMMARY ->
   WorkingMemory.completion_summary (ResearchState.working s) <> None) /\
  (phase_of s = WorkflowPhase.IDLE ->
   conversation_log_of s = [] /\ items_of s = [] /\
   original_description_of s = None).
Proof.
  intros Hr.
  apply reachable_coherent in Hr
    as (_ & _ & _ & _ & _ & _ & _ & _ & _ & _ & _ & _
        & Hwait & Hcheck & Hclar & Hsum & Hidle).
  split; [exact Hwait|]. split; [exact Hcheck|]. split; [exact Hclar|].
  split; [exact Hsum|exact Hidle].
Qed.

Lemma phase_has_its_data_witness :
  reachable a_dump (fst a_session_asked) /\
  phase_of (fst a_session_asked) = WorkflowPhase.AWAITING_USER_RESPONSE /\
  WorkingMemory.refinement_questions
    (ResearchState.working (fst a_session_asked)) <> [].
Proof.
  split; [exact a_session_asked_reachable|]. split; [reflexivity|].
  destruct (phase_has_its_data a_dump _ a_session_asked_reachable) as (H & _).
  exact (H eq_refl).
Defined.

(** ** What a call of the state manager keeps *)

(** The cases of a call of the state manager, each with the state it
    returns. *)
Ltac transition_cases Ht :=
  let H := fresh "H" in
  let E := fresh "E" in
  destruct Ht as [?s ?text ?w ?s' ?w' H|?s ?text ?w ?s' ?w' H
                 |?s ?text ?w ?s' ?w' H|?s ?w ?s' ?w' H
                 |?s ?text ?w ?s' ?w' H|?s ?artifact ?path ?w ?s' ?w' H
                 |?s ?w ?s' ?w' H|?s ?w ?s' ?w' H|?s ?w ?s' ?w' H
                 |?s ?k ?output ?w ?s' ?w' H];
  [ match type of H with
    | ingest_user_description ?s ?text ?w = _ =>
        destruct (ingest_user_description_effect s text w)
          as [[_ E]|(?Hb & ?entry & ?now & ?w1 & E & ?Hkind & ?Hcontent & _)];
        rewrite E in H; injection H as <- _; clear E
    end
  | match type of H with
    | record_user_feedback ?s ?text ?w = _ =>
        destruct (record_user_feedback_effect s text w)
          as [[_ E]|(?Hb & ?entry & ?now & ?w1 & E & ?Hkind & ?Hcontent & _)];
        rewrite E in H; injection H as <- _; clear E
    end
  | match type of H with
    | ingest_progress_input ?s ?text ?w = _ =>
        destruct (ingest_progress_input_effect s text w)
          as [[_ E]|(?Hb & ?entry & ?now & ?w1 & E & ?Hkind & ?Hcontent & _)];
        rewrite E in H; injection H as <- _; clear E
    end
  | injection H as <- _
  | match type of H with
    | mark_checklist_rejected ?s ?text ?w = _ =>
        destruct (mark_checklist_rejected_effect s text w)
          as (?es & ?now & ?w1 & E & _);
        rewrite E in H; injection H as <- _; clear E
    end
  | match type of H with
    | record_save_result ?md ?s ?artifact ?path ?w = _ =>
        destruct (record_save_result_effect md s artifact path w)
          as (?entry & ?now & ?w1 & E & _);
        rewrite E in H; injection H as <- _; clear E
    end
  | match type of H with
    | activate_tracking_mode ?s ?w = _ =>
        destruct (activate_tracking_mode_effect s w)
          as (?started & ?now & ?w1 & E & ?Hstarted);
        rewrite E in H; injection H as <- _; clear E
    end
  | injection H as <- _
  | injection H as <- _
  | match type of H with
    | update_state_from_skill ?s ?k ?output ?w = _ =>
        let Hk := fresh "Hk" in
        pose proof (update_state_from_skill_effect s k output w) as Hk;
        destruct k; cbv beta iota in Hk; rewrite Hk in H; clear Hk;
        [ destruct (generate_initial_checklist_effect s output w)
            as (?items & ?entry & ?now & ?w1 & E & _)
        | destruct (generate_refinement_questions_effect s output w)
            as (?prompts & ?es & ?now & ?w1 & E & _)
        | destruct (incorporate_refinements_effect s output w)
            as (?xs & ?entry & ?now & ?w1 & E & _)
        | destruct (interpret_progress_effect s output w)
            as (?items' & ?log' & ?entry & ?now & ?w1 & E & _ & _
                & (?logged & ?Hlogged) & _);
          cbv zeta in E
        | destruct (completion_summary_effect s output w)
            as (?entry & ?now & ?w1 & E) ];
        rewrite E in H; injection H as <- _; clear E
    end ].

(** X6. A call of the state manager only appends to the three logs of the
    session: the conversation log, the refinement exchanges and the
    progress log of the result begin with those of the input. *)
Theorem logs_only_grow (model_dump : ChecklistArtifact.t -> Any)
    (s s' : ResearchState.t) :
  transition model_dump s s' ->
  (exists entries,
     conversation_log_of s' = conversation_log_of s ++ entries) /\
  (exists exchanges,
     refinement_exchanges_of s' = refinement_exchanges_of s ++ exchanges) /\
  (exists logged, progress_log_of s' = progress_log_of s ++ logged).
Proof.
  intros Ht.
  assert (Hsame : forall A (l : list A), exists r, l = l ++ r)
    by (intros A l; exists []; now rewrite app_nil_r).
  assert (Hmore : forall A (l r : list A), exists r', l ++ r = l ++ r')
    by (intros A l r; now exists r).
  transition_cases Ht;
    try (destruct (InterpretProgressUpdateOutput.needs_clarification output));
    try subst log';
    unfold conversation_log_of, refinement_exchanges_of, progress_log_of;
    cbn; auto.
Qed.

Lemma logs_only_grow_witness :
  transition a_dump (fst a_session_reported) (fst a_session_progressed) /\
  exists logged,
    progress_log_of (fst a_session_progressed)
    = progress_log_of (fst a_session_reported) ++ logged.
Proof.
  assert (Ht : transition a_dump (fst a_session_reported)
                 (fst a_session_progressed)).
  { apply (by_update_state_from_skill a_dump _
             SkillName.INTERPRET_PROGRESS_UPDATE a_progress_output
             (snd a_session_reported) _ (snd a_session_progressed)).
    vm_compute. reflexivity. }
  split; [exact Ht|].
  exact (proj2 (proj2 (logs_only_grow a_dump _ _ Ht))).
Defined.

(** X7. A call of the state manager never takes back what the session has
    settled: a finalized checklist stays finalized (also when the user
    asks for more changes), a description, a file path and a completion
    summary that are set stay set, the start of the tracking keeps its
    value, and the ceiling on the questions and the core and semantic
    memories are never written. *)
Theorem settled_fields_are_kept (model_dump : ChecklistArtifact.t -> Any)
    (s s' : ResearchState.t) :
  transition model_dump s s' ->
  (WorkflowState.checklist_finalized (ResearchState.workflow s) = true ->
   WorkflowState.checklist_finalized (ResearchState.workflow s') = true) /\
  (original_description_of s <> None -> original_description_of s' <> None) /\
  (WorkingMemory.checklist_file_path (ResearchState.working s) <> None ->
   WorkingMemory.checklist_file_path (ResearchState.working s') <> None) /\
  (WorkingMemory.completion_summary (ResearchState.working s) <> None ->
   WorkingMemory.completion_summary (ResearchState.working s') <> None) /\
  (forall t, listening_started_at_of s = Some t ->
             listening_started_at_of s' = Some t) /\
  WorkflowState.max_refinement_questions (ResearchState.workflow s')
    = WorkflowState.max_refinement_questions (ResearchState.workflow s) /\
  ResearchState.core s' = ResearchState.core s /\
  ResearchState.semantic s' = ResearchState.semantic s.
Proof.
  intros Ht.
  transition_cases Ht;
    try (destruct (InterpretProgressUpdateOutput.needs_clarification output));
    unfold original_description_of, listening_started_at_of in *;
    cbn in *;
    repeat match goal with
           | |- _ /\ _ => split
           end;
    intros; try discriminate; try congruence; auto.
  subst started.
  match goal with
  | H : _ = Some _ |- _ => now rewrite H
  end.
Qed.

Lemma settled_fields_are_kept_witness :
  transition a_dump (fst a_session_approved)
    (fst (after (fun s => mark_checklist_rejected s "one more step")
            a_session_approved)) /\
  WorkflowState.checklist_finalized
    (ResearchState.workflow
       (fst (after (fun s => mark_checklist_rejected s "one more step")
               a_session_approved))) = true.
Proof.
  assert (Ht : transition a_dump (fst a_session_approved)
                 (fst (after (fun s => mark_checklist_rejected s "one more step")
                         a_session_approved))).
  { apply (by_mark_checklist_rejected a_dump _ "one more step"
             (snd a_session_approved) _
             (snd (after (fun s => mark_checklist_rejected s "one more step")
                     a_session_approved))).
    vm_compute. reflexivity. }
  split; [exact Ht|].
  exact (proj1 (settled_fields_are_kept a_dump _ _ Ht) eq_refl).
Defined.

(** ** The coordinator and the dispatch of skill outputs *)

Lemma next_action_cases (s : ResearchState.t) :
  (exists k reason,
     Coordinator.next_action s = Decision.llm k reason None /\
     match k with
     | SkillName.GENERATE_INITIAL_CHECKLIST =>
         phase_of s = WorkflowPhase.GENERATING_CHECKLIST
     | SkillName.GENERATE_REFINEMENT_QUESTIONS =>
         phase_of s = WorkflowPhase.ASKING_REFINEMENT_QUESTIONS
     | SkillName.INCORPORATE_REFINEMENTS =>
         phase_of s = WorkflowPhase.PROCESSING_FEEDBACK
     | SkillName.INTERPRET_PROGRESS_UPDATE =>
         phase_of s = WorkflowPhase.INTERPRETING_INTENT
     | SkillName.GENERATE_COMPLETION_SUMMARY =>
         phase_of s = WorkflowPhase.GENERATING_SUMMARY
     end) \/
  (exists reason, Coordinator.next_action s = Decision.noop reason).
Proof.
  unfold Coordinator.next_action.
  destruct (phase_of s) eqn:Ep; simpl;
    try (right; eexists; reflexivity);
    try (left; do 2 eexists; split; reflexivity).
  destruct (_ <=? _)%Z.
  - right. eexists. reflexivity.
  - left. do 2 eexists. split; reflexivity.
Qed.

(** The phases in which the coordinator asks for nothing, whatever the
    counters. *)
Lemma next_action_resting (s : ResearchState.t) :
  In (phase_of s)
    [WorkflowPhase.AWAITING_USER_RESPONSE; WorkflowPhase.CHECK_APPROVAL;
     WorkflowPhase.ASKING_CLARIFICATION; WorkflowPhase.ACKNOWLEDGING_PROGRESS;
     WorkflowPhase.PRESENTING_SUMMARY] ->
  Coordinator.next_action s
  = Decision.noop "No LLM action required for the current phase".
Proof.
  unfold Coordinator.next_action. simpl.
  intros [<-|[<-|[<-|[<-|[<-|[]]]]]]; reflexivity.
Qed.

Lemma skill_result_phase (s : ResearchState.t) (skill_name : SkillName.t)
    (output : output_model skill_name) (w : World) :
  exists s' w',
    update_state_from_skill s skill_name output w = (Return s', w') /\
    (exists entry entries,
       conversation_log_of s' = conversation_log_of s ++ entry :: entries) /\
    match skill_name with
    | SkillName.GENERATE_INITIAL_CHECKLIST =>
        phase_of s' = WorkflowPhase.ASKING_REFINEMENT_QUESTIONS /\
        questions_asked_of s' = 0%Z
    | SkillName.GENERATE_REFINEMENT_QUESTIONS =>
        phase_of s' = WorkflowPhase.AWAITING_USER_RESPONSE \/
        phase_of s' = WorkflowPhase.CHECK_APPROVAL
    | SkillName.INCORPORATE_REFINEMENTS =>
        phase_of s' = WorkflowPhase.CHECK_APPROVAL
    | SkillName.INTERPRET_PROGRESS_UPDATE =>
        phase_of s' = WorkflowPhase.ASKING_CLARIFICATION \/
        phase_of s' = WorkflowPhase.GENERATING_SUMMARY \/
        phase_of s' = WorkflowPhase.ACKNOWLEDGING_PROGRESS
    | SkillName.GENERATE_COMPLETION_SUMMARY =>
        phase_of s' = WorkflowPhase.PRESENTING_SUMMARY
    end.
Proof.
  pose proof (update_state_from_skill_effect s skill_name output w) as Hk.
  destruct skill_name; cbv beta iota in Hk; rewrite Hk; clear Hk.
  - destruct (generate_initial_checklist_effect s output w)
      as (items & entry & now & w1 & E & _).
    rewrite E. do 2 eexists. split; [reflexivity|].
    split; [now exists entry, []|]. split; reflexivity.
  - unfold _handle_generate_refinement_questions, deepcopy.
    set (prompts := map _ (GenerateRefinementQuestionsOutput.questions output)).
    unfold bind at 1. simpl. unfold bind at 1. simpl.
    match goal with
    | |- context [for_each _ prompts ?s1 ?w1] =>
        destruct (ask_each_prompt prompts s1 w1) as (entries & w' & Heq & _)
    end.
    rewrite Heq. do 2 eexists. split; [reflexivity|]. split.
    + do 2 eexists. unfold conversation_log_of, append_entries. simpl.
      rewrite <- app_assoc. reflexivity.
    + destruct prompts; [right|left]; reflexivity.
  - destruct (incorporate_refinements_effect s output w)
      as (xs & entry & now & w1 & E & _).
    rewrite E. do 2 eexists. split; [reflexivity|].
    split; [now exists entry, []|]. reflexivity.
  - destruct (interpret_progress_effect s output w)
      as (items' & log' & entry & now & w1 & E & _).
    cbv zeta in E. rewrite E. do 2 eexists. split; [reflexivity|].
    destruct (InterpretProgressUpdateOutput.needs_clarification output).
    + split; [now exists entry, []|]. now left.
    + split; [now exists entry, []|].
      destruct (checklist_is_complete _); [right; left|right; right];
        reflexivity.
  - destruct (completion_summary_effect s output w)
      as (entry & now & w1 & E).
    rewrite E. do 2 eexists. split; [reflexivity|].
    split; [now exists entry, []|]. reflexivity.
Qed.

(** X8. The coordinator reads the phase and the two counters of the
    questions only; it plans a skill or nothing (never a tool, never the
    end of the session), names the skill exactly when it plans one, and
    attaches no metadata. *)
Theorem coordinator_plans_skill_or_nothing (s : ResearchState.t) :
  Decision.metadata (Coordinator.next_action s) = Dict.empty /\
  ((Decision.decision_type (Coordinator.next_action s)
      = DecisionType.LLM_SKILL /\
    Decision.skill (Coordinator.next_action s) <> None) \/
   (Decision.decision_type (Coordinator.next_action s) = DecisionType.NOOP /\
    Decision.skill (Coordinator.next_action s) = None)) /\
  forall s2,
    phase_of s2 = phase_of s ->
    questions_asked_of s2 = questions_asked_of s ->
    WorkflowState.max_refinement_questions (ResearchState.workflow s2)
      = WorkflowState.max_refinement_questions (ResearchState.workflow s) ->
    Coordinator.next_action s2 = Coordinator.next_action s.
Proof.
  split; [|split].
  - destruct (next_action_cases s) as [(k & r & -> & _)|(r & ->)];
      reflexivity.
  - destruct (next_action_cases s) as [(k & r & -> & _)|(r & ->)];
      [left|right]; split; try reflexivity. discriminate.
  - intros s2 Hp Hq Hm. unfold Coordinator.next_action, questions_asked_of in *.
    now rewrite Hp, Hq, Hm.
Qed.


(** ** The agent *)

Section Agent.

Variable model_dump : ChecklistArtifact.t -> Any.
Variable run_skill :
  forall skill_name : SkillName.t,
    ResearchState.t -> option (Dict.t Any) -> M (output_model skill_name).
Variable repository_save : ChecklistArtifact.t -> M string.

Ltac resting Hp :=
  eexists; apply next_action_resting;
  repeat match type of Hp with
         | _ \/ _ => destruct Hp as [Hp|Hp]
         end;
  rewrite Hp; simpl; auto 10.

Lemma run_planned_action_noop (context : option (Dict.t Any))
    (st : ResearchState.t) (w : World) (reason : string) :
  Coordinator.next_action st = Decision.noop reason ->
  run_planned_action run_skill context st w
  = (Return (Decision.noop reason), st, w).
Proof.
  intros E. unfold run_planned_action, next_decision, method_bind, self_state,
    method_ret.
  now rewrite E.
Qed.

Lemma run_planned_action_skill (context : option (Dict.t Any))
    (st : ResearchState.t) (w : World) (k : SkillName.t) (reason : string) :
  Coordinator.next_action st = Decision.llm k reason None ->
  run_planned_action run_skill context st w
  = match run_skill k st (planned_context context Dict.empty) w with
    | (Return output, w1) =>
        match update_state_from_skill st k output w1 with
        | (Return s', w2) => (Return (Decision.llm k reason None), s', w2)
        | (Raise e, w2) => (Raise e, st, w2)
        end
    | (Raise e, w1) => (Raise e, st, w1)
    end.
Proof.
  intros E. unfold run_planned_action, next_decision, method_bind, self_state,
    method_ret, call, _swap_state.
  rewrite E. simpl.
  destruct (run_skill k st _ w) as [[output|e] w1]; [|reflexivity].
  destruct (update_state_from_skill st k output w1) as [[s'|e] w2];
    reflexivity.
Qed.

(** After one planned action the agent is at most one skill away from
    rest. *)
Lemma planned_action_lands (context : option (Dict.t Any))
    (st : ResearchState.t) (w : World) (d : Decision.t)
    (st1 : ResearchState.t) (w1 : World) :
  run_planned_action run_skill context st w = (Return d, st1, w1) ->
  d = Coordinator.next_action st /\
  ((exists reason, Coordinator.next_action st1 = Decision.noop reason) \/
   (phase_of st1 = WorkflowPhase.ASKING_REFINEMENT_QUESTIONS /\
    questions_asked_of st1 = 0%Z) \/
   phase_of st1 = WorkflowPhase.GENERATING_SUMMARY).
Proof.
  intros H.
  destruct (next_action_cases st) as [(k & r & E & _)|(r & E)].
  - rewrite (run_planned_action_skill context st w k r E) in H.
    destruct (run_skill k st _ w) as [[output|e] w2]; [|discriminate].
    destruct (skill_result_phase st k output w2) as (s' & w3 & E' & _ & Hp).
    rewrite E' in H. injection H as <- <- _. split; [now rewrite E|].
    destruct k.
    + right. left. exact Hp.
    + left. resting Hp.
    + left. resting Hp.
    + destruct Hp as [Hp|[Hp|Hp]].
      * left. resting Hp.
      * right. right. exact Hp.
      * left. resting Hp.
    + left. resting Hp.
  - rewrite (run_planned_action_noop context st w r E) in H.
    injection H as <- <- _. split; [now rewrite E|]. left. now exists r.
Qed.

(** X10. [run_planned_action] returns the decision that the coordinator
    takes on the state before the call. When that decision is to do
    nothing, the call touches neither the state nor the world (the
    executor is not called); when the call raises, the state of the agent
    is the one before the call. *)
Theorem planned_action_is_all_or_nothing (context : option (Dict.t Any))
    (st : ResearchState.t) (w : World) :
  (Decision.decision_type (Coordinator.next_action st) = DecisionType.NOOP ->
   run_planned_action run_skill context st w
   = (Return (Coordinator.next_action st), st, w)) /\
  (forall d st' w',
     run_planned_action run_skill context st w = (Return d, st', w') ->
     d = Coordinator.next_action st) /\
  (forall e st' w',
     run_planned_action run_skill context st w = (Raise e, st', w') ->
     st' = st).
Proof.
  destruct (next_action_cases st) as [(k & r & E & _)|(r & E)].
  - rewrite (run_planned_action_skill context st w k r E), E.
    split; [discriminate|].
    destruct (run_skill k st _ w) as [[output|e] w2].
    + destruct (update_state_from_skill st k output w2) as [[s'|e] w3].
      * split; [|discriminate]. now intros d st' w' [= <- _ _].
      * split; [discriminate|]. now intros e' st' w' [= _ <- _].
    + split; [discriminate|]. now intros e' st' w' [= _ <- _].
  - rewrite (run_planned_action_noop context st w r E), E.
    split; [reflexivity|]. split; [|discriminate].
    now intros d st' w' [= <- _ _].
Qed.

(** X11. The agent runs at most two skills in a row: after two planned
    actions that return, the next decision of the coordinator is to do
    nothing, so a third planned action changes neither the state nor the
    world. *)
Theorem third_planned_action_rests (c1 c2 c3 : option (Dict.t Any))
    (st : ResearchState.t) (w : World) (d1 d2 : Decision.t)
    (st1 st2 : ResearchState.t) (w1 w2 : World) :
  run_planned_action run_skill c1 st w = (Return d1, st1, w1) ->
  run_planned_action run_skill c2 st1 w1 = (Return d2, st2, w2) ->
  Decision.decision_type (Coordinator.next_action st2) = DecisionType.NOOP /\
  run_planned_action run_skill c3 st2 w2
  = (Return (Coordinator.next_action st2), st2, w2).
Proof.
  intros H1 H2.
  assert (Hrest : exists reason,
             Coordinator.next_action st2 = Decision.noop reason).
  { destruct (planned_action_lands c1 st w d1 st1 w1 H1)
      as (_ & [(r & E)|[(Hp & Hq)|Hp]]).
    - rewrite (run_planned_action_noop c2 st1 w1 r E) in H2.
      injection H2 as _ <- _. now exists r.
    - destruct (next_action_cases st1) as [(k & r & E & Hk)|(r & E)].
      + rewrite (run_planned_action_skill c2 st1 w1 k r E) in H2.
        destruct (run_skill k st1 _ w1) as [[output|e] w3]; [|discriminate].
        destruct (skill_result_phase st1 k output w3)
          as (s' & w4 & E' & _ & Hland).
        rewrite E' in H2. injection H2 as _ <- _.
        destruct k; rewrite Hp in Hk; try discriminate.
        resting Hland.
      + rewrite (run_planned_action_noop c2 st1 w1 r E) in H2.
        injection H2 as _ <- _. now exists r.
    - destruct (next_action_cases st1) as [(k & r & E & Hk)|(r & E)].
      + rewrite (run_planned_action_skill c2 st1 w1 k r E) in H2.
        destruct (run_skill k st1 _ w1) as [[output|e] w3]; [|discriminate].
        destruct (skill_result_phase st1 k output w3)
          as (s' & w4 & E' & _ & Hland).
        rewrite E' in H2. injection H2 as _ <- _.
        destruct k; rewrite Hp in Hk; try discriminate.
        resting Hland.
      + rewrite (run_planned_action_noop c2 st1 w1 r E) in H2.
        injection H2 as _ <- _. now exists r. }
  destruct Hrest as (r & E).
  rewrite (run_planned_action_noop c3 st2 w2 r E), E. now split.
Qed.

Lemma save_checklist_unfolded (st : ResearchState.t) (w : World) :
  save_checklist model_dump repository_save st w
  = match build_artifact st w with
    | (Return artifact, w1) =>
        match repository_save artifact w1 with
        | (Return file_path, w2) =>
            match record_save_result model_dump st artifact file_path w2 with
            | (Return s1, w3) =>
                match activate_tracking_mode s1 w3 with
                | (Return s2, w4) => (Return file_path, s2, w4)
                | (Raise e, w4) => (Raise e, s1, w4)
                end
            | (Raise e, w3) => (Raise e, st, w3)
            end
        | (Raise e, w2) => (Raise e, st, w2)
        end
    | (Raise e, w1) => (Raise e, st, w1)
    end.
Proof.
  unfold save_checklist, method_bind, self_state, method_ret, call,
    _swap_state.
  destruct (build_artifact st w) as [[artifact|e] w1]; [|reflexivity].
  destruct (repository_save artifact w1) as [[file_path|e] w2];
    [|reflexivity].
  destruct (record_save_result model_dump st artifact file_path w2)
    as [[s1|e] w3]; [|reflexivity].
  destruct (activate_tracking_mode s1 w3) as [[s2|e] w4]; reflexivity.
Qed.

(** X12. A [save_checklist] that raises leaves the state of the agent as
    it was. Without a description it raises the error of [build_artifact]
    before the repository is called; with one, it raises exactly when the
    repository does, with the error of the repository. *)
Theorem failed_save_changes_nothing (st : ResearchState.t) (w : World) :
  (original_description_of st = None ->
   save_checklist model_dump repository_save st w
   = (Raise missing_description, st, w)) /\
  (forall e st' w',
     save_checklist model_dump repository_save st w = (Raise e, st', w') ->
     st' = st /\
     (original_description_of st <> None ->
      exists artifact w1 w2,
        build_artifact st w = (Return artifact, w1) /\
        repository_save artifact w1 = (Raise e, w2) /\ w' = w2)).
Proof.
  rewrite save_checklist_unfolded. unfold original_description_of.
  destruct (WorkingMemory.original_description (ResearchState.working st))
    as [d|] eqn:Ed.
  - assert (Hb : exists artifact w1,
               build_artifact st w = (Return artifact, w1)).
    { unfold build_artifact. rewrite Ed. do 2 eexists. reflexivity. }
    destruct Hb as (artifact & w1 & Eb). rewrite Eb.
    split; [discriminate|]. intros e st' w'.
    destruct (repository_save artifact w1) as [[file_path|e2] w2] eqn:Er.
    + destruct (record_save_result_effect model_dump st artifact file_path w2)
        as (entry & now & w3 & E & _).
      rewrite E.
      match goal with
      | |- context [activate_tracking_mode ?s1 ?w3] =>
          destruct (activate_tracking_mode_effect s1 w3)
            as (started & now' & w4 & E' & _); rewrite E'
      end.
      discriminate.
    + intros [= <- <- <-]. split; [reflexivity|]. intros _.
      now exists artifact, w1, w2.
  - assert (Eb : build_artifact st w = (Raise missing_description, w)).
    { unfold build_artifact. now rewrite Ed. }
    rewrite Eb. split; [reflexivity|]. intros e st' w' [= _ <- _].
    split; [reflexivity|congruence].
Qed.

(** X13. A [save_checklist] that returns has built the artifact from the
    state before the call and has given it to the repository; the path it
    returns is the one stored, no save is pending, one system entry that
    names the path is appended to the conversation log, and the agent is
    left listening for progress, with the start of the tracking set (the
    phase [confirming_save] is passed over). The checklist and its
    finalized flag are as before: the method does not ask whether the
    checklist was approved. *)
Theorem save_leaves_agent_listening (st : ResearchState.t) (w : World)
    (file_path : string) (st' : ResearchState.t) (w' : World) :
  save_checklist model_dump repository_save st w
  = (Return file_path, st', w') ->
  exists artifact w1 w2 entry,
    build_artifact st w = (Return artifact, w1) /\
    repository_save artifact w1 = (Return file_path, w2) /\
    phase_of st' = WorkflowPhase.LISTENING_FOR_PROGRESS /\
    WorkingMemory.checklist_file_path (ResearchState.working st')
      = Some file_path /\
    WorkflowState.pending_save (ResearchState.workflow st') = false /\
    listening_started_at_of st'
      = Some match listening_started_at_of st with
             | Some t => t
             | None => utc_clock w2 (S (S (utc_reads w2)))
             end /\
    conversation_log_of st' = conversation_log_of st ++ [entry] /\
    ConversationEntry.kind entry = ConversationEntryKind.SYSTEM /\
    ConversationEntry.content entry
      = ("Checklist saved to " ++ file_path)%string /\
    ConversationEntry.metadata entry
      = [("artifact_summary", model_dump artifact)] /\
    items_of st' = items_of st /\
    WorkflowState.checklist_finalized (ResearchState.workflow st')
      = WorkflowState.checklist_finalized (ResearchState.workflow st).
Proof.
  rewrite save_checklist_unfolded.
  destruct (build_artifact st w) as [[artifact|e] w1] eqn:Eb; [|discriminate].
  destruct (repository_save artifact w1) as [[p|e] w2] eqn:Er;
    [|discriminate].
  unfold record_save_result, activate_tracking_mode, deepcopy,
    listening_started_at_of.
  unfold bind, utcnow, uuid4_hex, new_ConversationEntry, ret. simpl.
  destruct (WorkflowState.listening_started_at (ResearchState.workflow st));
    intros [= <- <- <-]; exists artifact, w1, w2; eexists;
    (split; [reflexivity|]); (split; [exact Er|]);
    repeat split.
Qed.

End Agent.

Lemma planned_action_is_all_or_nothing_witness :
  Decision.decision_type (Coordinator.next_action (fst a_session_asked))
    = DecisionType.NOOP /\
  run_planned_action a_failing_executor None (fst a_session_asked)
    (snd a_session_asked)
  = (Return (Coordinator.next_action (fst a_session_asked)),
     fst a_session_asked, snd a_session_asked).
Proof.
  split; [reflexivity|].
  exact (proj1 (planned_action_is_all_or_nothing a_failing_executor None
                  (fst a_session_asked) (snd a_session_asked)) eq_refl).
Defined.

Lemma third_planned_action_rests_witness :
  phase_of (fst a_session_described) = WorkflowPhase.GENERATING_CHECKLIST /\
  phase_of (fst (a_planned_step (a_planned_step a_session_described)))
    = WorkflowPhase.AWAITING_USER_RESPONSE /\
  run_planned_action an_executor None
    (fst (a_planned_step (a_planned_step a_session_described)))
    (snd (a_planned_step (a_planned_step a_session_described)))
  = (Return
       (Coordinator.next_action
          (fst (a_planned_step (a_planned_step a_session_described)))),
     fst (a_planned_step (a_planned_step a_session_described)),
     snd (a_planned_step (a_planned_step a_session_described))).
Proof.
  split; [reflexivity|]. split; [reflexivity|].
  refine (proj2 (third_planned_action_rests an_executor None None None
                   (fst a_session_described) (snd a_session_described)
                   (Coordinator.next_action (fst a_session_described))
                   (Coordinator.next_action
                      (fst (a_planned_step a_session_described)))
                   (fst (a_planned_step a_session_described))
                   (fst (a_planned_step (a_planned_step a_session_described)))
                   (snd (a_planned_step a_session_described))
                   (snd (a_planned_step (a_planned_step a_session_described)))
                   _ _)).
  - vm_compute. reflexivity.
  - vm_compute. reflexivity.
Defined.

Lemma failed_save_changes_nothing_witness :
  original_description_of a_state = None /\
  save_checklist a_dump a_repository a_state a_world
  = (Raise missing_description, a_state, a_world).
Proof.
  split; [reflexivity|].
  exact (proj1 (failed_save_changes_nothing a_dump a_repository a_state
                  a_world) eq_refl).
Defined.

Lemma save_leaves_agent_listening_witness :
  exists st' w',
    save_checklist a_dump a_repository (fst a_session_approved)
      (snd a_session_approved)
    = (Return "storage/checklists/checklist_20240101T000000.json", st', w') /\
    phase_of st' = WorkflowPhase.LISTENING_FOR_PROGRESS /\
    WorkingMemory.checklist_file_path (ResearchState.working st')
    = Some "storage/checklists/checklist_20240101T000000.json".
Proof.
  do 2 eexists.
  assert (H : save_checklist a_dump a_repository (fst a_session_approved)
                (snd a_session_approved)
              = (Return "storage/checklists/checklist_20240101T000000.json",
                 fst (after (fun s => activate_tracking_mode s)
                        (after (fun s =>
                                  record_save_result a_dump s
                                    (match build_artifact
                                             (fst a_session_approved)
                                             (snd a_session_approved) with
                                     | (Return a, _) => a
                                     | _ => an_artifact
                                     end)
                                    "storage/checklists/checklist_20240101T000000.json")
                           (fst a_session_approved,
                            after_utcnow (snd a_session_approved)))),
                 snd (after (fun s => activate_tracking_mode s)
                        (after (fun s =>
                                  record_save_result a_dump s
                                    (match build_artifact
                                             (fst a_session_approved)
                                             (snd a_session_approved) with
                                     | (Return a, _) => a
                                     | _ => an_artifact
                                     end)
                                    "storage/checklists/checklist_20240101T000000.json")
                           (fst a_session_approved,
                            after_utcnow (snd a_session_approved))))))
    by (vm_compute; reflexivity).
  split; [exact H|].
  destruct (save_leaves_agent_listening a_dump a_repository _ _ _ _ _ H)
    as (artifact & w1 & w2 & entry & _ & _ & Hp & Hpath & _).
  split; [exact Hp|exact Hpath].
Defined.

(** ** Texts of the user *)

(** X14. A text with a visible character is stored without the white
    space around it, and what is stored is a text that [strip] leaves
    alone: the description goes to [original_description], feedback and
    progress go to [latest_user_message], each with one user entry of the
    same content appended to the conversation log, and the checklist is
    untouched. *)
Theorem visible_text_is_stored_stripped (s : ResearchState.t)
    (text : string) (w : World) :
  blank text = false ->
  stored_text (Py.strip text) /\
  (exists s' w' entry,
     ingest_user_description s text w = (Return s', w') /\
     original_description_of s' = Some (Py.strip text) /\
     latest_user_message_of s' = latest_user_message_of s /\
     phase_of s' = WorkflowPhase.GENERATING_CHECKLIST /\
     conversation_log_of s' = conversation_log_of s ++ [entry] /\
     ConversationEntry.kind entry = ConversationEntryKind.USER /\
     ConversationEntry.content entry = Py.strip text /\
     items_of s' = items_of s) /\
  (exists s' w' entry,
     record_user_feedback s text w = (Return s', w') /\
     latest_user_message_of s' = Some (Py.strip text) /\
     original_description_of s' = original_description_of s /\
     phase_of s' = WorkflowPhase.PROCESSING_FEEDBACK /\
     conversation_log_of s' = conversation_log_of s ++ [entry] /\
     ConversationEntry.kind entry = ConversationEntryKind.USER /\
     ConversationEntry.content entry = Py.strip text /\
     items_of s' = items_of s) /\
  (exists s' w' entry,
     ingest_progress_input s text w = (Return s', w') /\
     latest_user_message_of s' = Some (Py.strip text) /\
     original_description_of s' = original_description_of s /\
     phase_of s' = WorkflowPhase.INTERPRETING_INTENT /\
     conversation_log_of s' = conversation_log_of s ++ [entry] /\
     ConversationEntry.kind entry = ConversationEntryKind.USER /\
     ConversationEntry.content entry = Py.strip text /\
     items_of s' = items_of s).
Proof.
  intros Hb. split.
  - apply strip_stored. now rewrite truthy_strip, Hb.
  - split; [|split].
    + destruct (ingest_user_description_effect s text w)
        as [[Hb' _]|(_ & entry & now & w1 & E & Hk & Hc & _)]; [congruence|].
      rewrite E. do 2 eexists. exists entry. split; [reflexivity|].
      now repeat split.
    + destruct (record_user_feedback_effect s text w)
        as [[Hb' _]|(_ & entry & now & w1 & E & Hk & Hc & _)]; [congruence|].
      rewrite E. do 2 eexists. exists entry. split; [reflexivity|].
      now repeat split.
    + destruct (ingest_progress_input_effect s text w)
        as [[Hb' _]|(_ & entry & now & w1 & E & Hk & Hc & _)]; [congruence|].
      rewrite E. do 2 eexists. exists entry. split; [reflexivity|].
      now repeat split.
Qed.

Lemma visible_text_is_stored_stripped_witness :
  blank "  ship it " = false /\
  Py.strip "  ship it " = "ship it" /\
  stored_text (Py.strip "  ship it ").
Proof.
  split; [reflexivity|]. split; [reflexivity|].
  exact (proj1 (visible_text_is_stored_stripped a_state "  ship it " a_world
                  eq_refl)).
Defined.

(** X15. A rejection with a visible reason logs the reason, stripped, as
    one user entry and moves to [processing_feedback]; the reason is not
    stored as the latest user message, and the flags of approval
    ([checklist_finalized], [pending_save]) stay as they were. *)
Theorem rejection_reason_is_only_logged (s : ResearchState.t)
    (reason : string) (w : World) :
  blank reason = false ->
  exists s' w' entry,
    mark_checklist_rejected s reason w = (Return s', w') /\
    conversation_log_of s' = conversation_log_of s ++ [entry] /\
    ConversationEntry.kind entry = ConversationEntryKind.USER /\
    ConversationEntry.content entry = Py.strip reason /\
    latest_user_message_of s' = latest_user_message_of s /\
    phase_of s' = WorkflowPhase.PROCESSING_FEEDBACK /\
    WorkflowState.checklist_finalized (ResearchState.workflow s')
      = WorkflowState.checklist_finalized (ResearchState.workflow s) /\
    WorkflowState.pending_save (ResearchState.workflow s')
      = WorkflowState.pending_save (ResearchState.workflow s) /\
    items_of s' = items_of s.
Proof.
  intros Hb.
  destruct (mark_checklist_rejected_effect s reason w)
    as (es & now & w1 & E & Hes).
  rewrite Hb in Hes. destruct Hes as (entry & -> & Hk & Hc).
  rewrite E. do 2 eexists. exists entry. split; [reflexivity|].
  now repeat split.
Qed.

Lemma rejection_reason_is_only_logged_witness :
  exists s' w' entry,
    mark_checklist_rejected (fst a_session_approved) " add a rollback step "
      (snd a_session_approved) = (Return s', w') /\
    conversation_log_of s'
    = conversation_log_of (fst a_session_approved) ++ [entry] /\
    ConversationEntry.content entry = "add a rollback step" /\
    latest_user_message_of s' = None /\
    WorkflowState.pending_save (ResearchState.workflow s') = true.
Proof.
  destruct (rejection_reason_is_only_logged (fst a_session_approved)
              " add a rollback step " (snd a_session_approved) eq_refl)
    as (s' & w' & entry & E & Hlog & _ & Hc & Hm & _ & _ & Hp & _).
  exists s', w', entry. split; [exact E|]. split; [exact Hlog|].
  split; [exact Hc|]. split; [exact Hm|exact Hp].
Defined.


(** ** Decisions *)

Lemma dict_get_update {V : Type} (k : string) (other : Dict.t V) :
  NoDup (Dict.keys other) ->
  forall d : Dict.t V,
    Dict.get k (dict_update d other)
    = match Dict.get k other with
      | Some v => Some v
      | None => Dict.get k d
      end.
Proof.
  unfold dict_update.
  induction other as [|[k' v'] other IH]; intros Hnd d; [reflexivity|].
  simpl in Hnd. apply NoDup_cons in Hnd as [Hk' Hnd].
  simpl. rewrite (IH Hnd). rewrite dict_get_set.
  destruct (String.eqb k' k) eqn:Ek; [|reflexivity].
  apply String.eqb_eq in Ek. subst k'.
  destruct (Dict.get k other) as [v|] eqn:Eg; [|reflexivity].
  exfalso. apply Hk'. apply dict_mem_keys. unfold Dict.mem. now rewrite Eg.
Qed.

(** X17. [Decision.tool] makes a decision of type tool without a skill.
    Its metadata is the given metadata laid over the entry for the tool:
    every key of the given metadata has the given value, so a key [tool]
    among them replaces the name of the tool, and without such a key the
    name is found under [tool]. *)
Theorem tool_decision_metadata (tool reason : string)
    (metadata : option (Dict.t Any)) :
  Decision.decision_type (Decision_tool tool reason metadata)
    = DecisionType.TOOL /\
  Decision.skill (Decision_tool tool reason metadata) = None /\
  Decision.reason (Decision_tool tool reason metadata) = reason /\
  match metadata with
  | None =>
      Decision.metadata (Decision_tool tool reason metadata)
      = [("tool", AnyStr tool)]
  | Some m =>
      NoDup (Dict.keys m) ->
      forall k,
        Dict.get k (Decision.metadata (Decision_tool tool reason metadata))
        = match Dict.get k m with
          | Some v => Some v
          | None => if String.eqb "tool" k then Some (AnyStr tool) else None
          end
  end.
Proof.
  split; [reflexivity|]. split; [reflexivity|]. split; [reflexivity|].
  destruct metadata as [[|kv m]|]; [| |reflexivity].
  - intros _ k. reflexivity.
  - intros Hnd k.
    change (Decision.metadata (Decision_tool tool reason (Some (kv :: m))))
      with (dict_update [("tool", AnyStr tool)] (kv :: m)).
    now rewrite (dict_get_update k (kv :: m) Hnd).
Qed.

Lemma tool_decision_metadata_witness :
  NoDup (Dict.keys [("tool", AnyStr "search"); ("depth", AnyInt 2)]) /\
  Dict.get "tool"
    (Decision.metadata
       (Decision_tool "save" "persist the checklist"
          (Some [("tool", AnyStr "search"); ("depth", AnyInt 2)])))
  = Some (AnyStr "search").
Proof.
  assert (Hnd : NoDup (Dict.keys [("tool", AnyStr "search");
                                  ("depth", AnyInt 2)])).
  { apply NoDup_cons. split.
    - intros Hin. apply list_elem_of_singleton in Hin. discriminate.
    - apply NoDup_cons. split; [apply not_elem_of_nil|apply NoDup_nil_2]. }
  split; [exact Hnd|].
  destruct (tool_decision_metadata "save" "persist the checklist"
              (Some [("tool", AnyStr "search"); ("depth", AnyInt 2)]))
    as (_ & _ & _ & H).
  exact (H Hnd "tool").
Defined.

(** ** What the progress handler changes *)

Section Moved.

Variables named_items named_sub_items : list string.

Lemma sub_item_moved_refl (sub : ChecklistSubItem.t) :
  sub_item_moved named_sub_items sub sub.
Proof.
  repeat split; try reflexivity. exists []. now rewrite app_nil_r.
Qed.

Lemma sub_item_moved_trans (a b c : ChecklistSubItem.t) :
  sub_item_moved named_sub_items a b -> sub_item_moved named_sub_items b c ->
  sub_item_moved named_sub_items a c.
Proof.
  intros (Hi & Hs & Hd & Hc & (m1 & Hn) & Hu)
         (Hi' & Hs' & Hd' & Hc' & (m2 & Hn') & Hu').
  repeat split; try congruence.
  - exists (m1 ++ m2). now rewrite Hn', Hn, app_assoc.
  - intros Hk. rewrite Hu', Hu; auto. now rewrite Hi.
Qed.

Lemma Forall2_refl_of {A : Type} (R : A -> A -> Prop) (l : list A) :
  (forall x, R x x) -> Forall2 R l l.
Proof. intros HR. induction l; constructor; auto. Qed.

Lemma Forall2_trans_of {A : Type} (R : A -> A -> Prop) :
  (forall x y z, R x y -> R y z -> R x z) ->
  forall l1 l2 l3, Forall2 R l1 l2 -> Forall2 R l2 l3 -> Forall2 R l1 l3.
Proof.
  intros HR l1 l2 l3 H12. revert l3.
  induction H12 as [|x y l1 l2 Hxy _ IH]; intros l3 H23.
  - inversion H23. constructor.
  - inversion H23 as [|? z ? l3' Hyz H23']; subst.
    constructor; [now apply (HR x y z)|now apply IH].
Qed.

Lemma item_moved_refl (item : ChecklistItem.t) :
  item_moved named_items named_sub_items item item.
Proof.
  repeat split; try reflexivity.
  - exists []. now rewrite app_nil_r.
  - apply Forall2_refl_of, sub_item_moved_refl.
Qed.

Lemma item_moved_trans (a b c : ChecklistItem.t) :
  item_moved named_items named_sub_items a b ->
  item_moved named_items named_sub_items b c ->
  item_moved named_items named_sub_items a c.
Proof.
  intros (Hi & Hs & Hd & Hc & (m1 & Hn) & Hu & Hsub)
         (Hi' & Hs' & Hd' & Hc' & (m2 & Hn') & Hu' & Hsub').
  split; [congruence|]. split; [congruence|]. split; [congruence|].
  split; [congruence|]. split; [|split].
  - exists (m1 ++ m2). now rewrite Hn', Hn, app_assoc.
  - intros Hk. destruct (Hu Hk) as [H1 H2].
    rewrite <- Hi in Hk. destruct (Hu' Hk) as [H3 H4].
    split; congruence.
  - exact (Forall2_trans_of _ sub_item_moved_trans _ _ _ Hsub Hsub').
Qed.

Lemma items_moved_refl (items : list ChecklistItem.t) :
  Forall2 (item_moved named_items named_sub_items) items items.
Proof. apply Forall2_refl_of, item_moved_refl. Qed.

Lemma items_moved_trans (l1 l2 l3 : list ChecklistItem.t) :
  Forall2 (item_moved named_items named_sub_items) l1 l2 ->
  Forall2 (item_moved named_items named_sub_items) l2 l3 ->
  Forall2 (item_moved named_items named_sub_items) l1 l3.
Proof. apply Forall2_trans_of, item_moved_trans. Qed.

Lemma items_moved_insert (items : list ChecklistItem.t) (a : nat)
    (item item' : ChecklistItem.t) :
  items !! a = Some item ->
  item_moved named_items named_sub_items item item' ->
  Forall2 (item_moved named_items named_sub_items) items (<[a := item']> items).
Proof.
  intros Ha Hm.
  rewrite <- (list_insert_id items a item Ha) at 1.
  apply Forall2_insert; [apply items_moved_refl|exact Hm].
Qed.

Lemma sub_items_moved_insert (subs : list ChecklistSubItem.t) (b : nat)
    (sub sub' : ChecklistSubItem.t) :
  subs !! b = Some sub ->
  sub_item_moved named_sub_items sub sub' ->
  Forall2 (sub_item_moved named_sub_items) subs (<[b := sub']> subs).
Proof.
  intros Hb Hm.
  rewrite <- (list_insert_id subs b sub Hb) at 1.
  apply Forall2_insert;
    [apply Forall2_refl_of, sub_item_moved_refl|exact Hm].
Qed.

(** One turn of the loop over the item ids of a signal. *)
Lemma signal_item_step_moved (items0 : list ChecklistItem.t)
    (signal : ProgressSignalModel.t)
    (acc : list ChecklistItem.t * Dict.t ChecklistItemStatus.t)
    (k : string) :
  k ∈ named_items ->
  id_shape (fst acc) = id_shape items0 ->
  Forall2 (item_moved named_items named_sub_items) (fst acc)
    (fst (signal_item_step (index_items items0) signal acc k)).
Proof.
  intros Hk Hshape. destruct acc as [items tm]. simpl in *.
  unfold signal_item_step.
  destruct (Dict.get k (index_items items0)) as [a|] eqn:Eg;
    [|apply items_moved_refl].
  destruct (index_items_get items0 k a Eg) as (item0 & Ha0 & Hid0).
  destruct (shape_lookup items items0 a item0 Hshape Ha0)
    as (item & Ha & Hid & _).
  rewrite Ha. simpl.
  apply (items_moved_insert items a item _ Ha).
  assert (Hnamed : ChecklistItem.item_id item ∈ named_items)
    by now rewrite Hid, Hid0.
  destruct (ProgressSignalModel.new_status signal) as [st|];
    [destruct (negb _)|];
    (destruct (ProgressSignalModel.note signal) as [note|];
     [destruct (Py.truthy note)|]);
    (split; [reflexivity|]); (split; [reflexivity|]);
    (split; [reflexivity|]); (split; [reflexivity|]);
    (split; [simpl; first [now exists [note]
                          |exists []; now rewrite app_nil_r]|]);
    (split; [now intros Hn|]);
    apply Forall2_refl_of, sub_item_moved_refl.
Qed.

(** One turn of the loop over the sub-item ids of a signal. *)
Lemma signal_sub_item_step_moved (items0 : list ChecklistItem.t)
    (signal : ProgressSignalModel.t)
    (acc : list ChecklistItem.t * Dict.t ChecklistItemStatus.t)
    (k : string) :
  k ∈ named_sub_items ->
  id_shape (fst acc) = id_shape items0 ->
  Forall2 (item_moved named_items named_sub_items) (fst acc)
    (fst (signal_sub_item_step (index_sub_items items0) signal acc k)).
Proof.
  intros Hk Hshape. destruct acc as [items tm]. simpl in *.
  unfold signal_sub_item_step.
  destruct (Dict.get k (index_sub_items items0)) as [[a b]|] eqn:Eg;
    [|apply items_moved_refl].
  destruct (index_sub_items_get items0 k (a, b) Eg)
    as (item0 & sub0 & Ha0 & Hb0 & Hid0).
  simpl in Ha0, Hb0.
  destruct (shape_lookup items items0 a item0 Hshape Ha0)
    as (item & Ha & Hid & Hsubs).
  assert (Hb : exists sub,
             ChecklistItem.sub_items item !! b = Some sub /\
             ChecklistSubItem.sub_item_id sub = k).
  { assert (H0 : sub_item_ids item0 !! b = Some k).
    { unfold sub_item_ids. rewrite list_lookup_fmap, Hb0. simpl.
      now rewrite Hid0. }
    rewrite <- Hsubs in H0. unfold sub_item_ids in H0.
    rewrite list_lookup_fmap in H0.
    destruct (ChecklistItem.sub_items item !! b) as [sub|]; [|discriminate].
    exists sub. split; [reflexivity|]. simpl in H0. congruence. }
  destruct Hb as (sub & Hb & Hsid).
  unfold sub_item_at, store_sub_item. simpl. rewrite Ha, Hb. simpl.
  apply (items_moved_insert items a item _ Ha).
  split; [reflexivity|]. split; [reflexivity|]. split; [reflexivity|].
  split; [reflexivity|]. split; [exists []; now rewrite app_nil_r|].
  split; [now intros _|].
  simpl. apply (sub_items_moved_insert _ b sub _ Hb).
  assert (Hnamed : ChecklistSubItem.sub_item_id sub ∈ named_sub_items)
    by now rewrite Hsid.
  destruct (ProgressSignalModel.new_status signal) as [st|];
    [destruct (negb _)|];
    (destruct (ProgressSignalModel.note signal) as [note|];
     [destruct (Py.truthy note)|]);
    (split; [reflexivity|]); (split; [reflexivity|]);
    (split; [reflexivity|]); (split; [reflexivity|]);
    (split; [simpl; first [now exists [note]
                          |exists []; now rewrite app_nil_r]|]);
    now intros Hn.
Qed.

Lemma fold_moved (items0 : list ChecklistItem.t)
    (step : list ChecklistItem.t * Dict.t ChecklistItemStatus.t -> string ->
            list ChecklistItem.t * Dict.t ChecklistItemStatus.t)
    (named : list string) :
  (forall acc k,
     k ∈ named -> id_shape (fst acc) = id_shape items0 ->
     id_shape (fst (step acc k)) = id_shape items0 /\
     Forall2 (item_moved named_items named_sub_items) (fst acc)
       (fst (step acc k))) ->
  forall ids acc,
    (forall k, k ∈ ids -> k ∈ named) ->
    id_shape (fst acc) = id_shape items0 ->
    id_shape (fst (fold_left step ids acc)) = id_shape items0 /\
    Forall2 (item_moved named_items named_sub_items) (fst acc)
      (fst (fold_left step ids acc)).
Proof.
  intros Hstep. induction ids as [|k ids IH]; intros acc Hin Hshape; simpl.
  - split; [exact Hshape|apply items_moved_refl].
  - destruct (Hstep acc k) as [Hs1 Hm1];
      [apply Hin; now left|exact Hshape|].
    destruct (IH (step acc k)) as [Hs2 Hm2];
      [intros k' Hk'; apply Hin; now right|exact Hs1|].
    split; [exact Hs2|]. exact (items_moved_trans _ _ _ Hm1 Hm2).
Qed.

(** One signal. *)
Lemma apply_signal_moved (items0 : list ChecklistItem.t)
    (signal : ProgressSignalModel.t) (s : ResearchState.t) (w : World) :
  (forall k, k ∈ ProgressSignalModel.item_ids signal -> k ∈ named_items) ->
  (forall k, k ∈ ProgressSignalModel.sub_item_ids signal ->
             k ∈ named_sub_items) ->
  id_shape (items_of s) = id_shape items0 ->
  exists s' w',
    apply_signal (index_items items0) (index_sub_items items0) s signal w
    = (Return s', w') /\
    id_shape (items_of s') = id_shape items0 /\
    Forall2 (item_moved named_items named_sub_items) (items_of s)
      (items_of s').
Proof.
  intros Hitems Hsubs Hshape. unfold apply_signal.
  destruct (fold_moved items0 (signal_item_step (index_items items0) signal)
              named_items
              (fun acc k Hk Hs =>
                 conj (proj1 (signal_item_step_spec items0 signal acc k Hs))
                      (signal_item_step_moved items0 signal acc k Hk Hs))
              (ProgressSignalModel.item_ids signal)
              (items_of s, Dict.empty) Hitems Hshape) as [Hs1 Hm1].
  destruct (fold_left (signal_item_step _ signal) _ _) as [items1 tm1].
  simpl in Hs1, Hm1.
  destruct (fold_moved items0
              (signal_sub_item_step (index_sub_items items0) signal)
              named_sub_items
              (fun acc k Hk Hs =>
                 conj (proj1 (signal_sub_item_step_spec items0 signal acc k
                                Hs))
                      (signal_sub_item_step_moved items0 signal acc k Hk Hs))
              (ProgressSignalModel.sub_item_ids signal)
              (items1, Dict.empty) Hsubs Hs1) as [Hs2 Hm2].
  destruct (fold_left (signal_sub_item_step _ signal) _ _) as [items2 tm2].
  simpl in Hs2, Hm2.
  pose proof (items_moved_trans _ _ _ Hm1 Hm2) as Hm.
  destruct tm1 as [|kv1 tm1]; [destruct tm2 as [|kv2 tm2]|];
    do 2 eexists; (split; [reflexivity|]); split; assumption.
Qed.

(** The loop over the signals. *)
Lemma signals_moved (items0 : list ChecklistItem.t)
    (signals : list ProgressSignalModel.t) :
  (forall k, k ∈ named_item_ids signals -> k ∈ named_items) ->
  (forall k, k ∈ named_sub_item_ids signals -> k ∈ named_sub_items) ->
  forall (s : ResearchState.t) (w : World),
    id_shape (items_of s) = id_shape items0 ->
    exists s' w',
      for_each (apply_signal (index_items items0) (index_sub_items items0))
        signals s w = (Return s', w') /\
      id_shape (items_of s') = id_shape items0 /\
      Forall2 (item_moved named_items named_sub_items) (items_of s)
        (items_of s').
Proof.
  induction signals as [|signal signals IH]; intros Hitems Hsubs s w Hshape.
  - exists s, w. split; [reflexivity|]. split; [exact Hshape|].
    apply items_moved_refl.
  - unfold named_item_ids, named_sub_item_ids in *. simpl in Hitems, Hsubs.
    destruct (apply_signal_moved items0 signal s w) as (s1 & w1 & E1 & Hs1 & Hm1);
      [intros k Hk; apply Hitems, elem_of_app; now left
      |intros k Hk; apply Hsubs, elem_of_app; now left
      |exact Hshape|].
    destruct (IH (fun k Hk => Hitems k (proj2 (elem_of_app _ _ _) (or_intror Hk)))
                 (fun k Hk => Hsubs k (proj2 (elem_of_app _ _ _) (or_intror Hk)))
                 s1 w1 Hs1) as (s2 & w2 & E2 & Hs2 & Hm2).
    exists s2, w2. simpl. unfold bind. rewrite E1.
    split; [exact E2|]. split; [exact Hs2|].
    exact (items_moved_trans _ _ _ Hm1 Hm2).
Qed.

End Moved.

(** X18. The progress handler changes statuses and notes only, and only
    of what the signals name: the checklist of the result has the items
    and sub-items of the input in their order, with their ids, summaries,
    details and success criteria; notes are only appended; an item whose
    id is in no signal keeps its status and its notes, and a sub-item
    whose id is in no signal is unchanged. *)
Theorem progress_moves_only_what_is_named (state : ResearchState.t)
    (output : InterpretProgressUpdateOutput.t) (w : World) :
  exists s' w',
    _handle_interpret_progress_update state output w = (Return s', w') /\
    Forall2
      (item_moved
         (named_item_ids (InterpretProgressUpdateOutput.signals output))
         (named_sub_item_ids (InterpretProgressUpdateOutput.signals output)))
      (items_of state) (items_of s').
Proof.
  destruct (interpret_progress_effect state output w)
    as (items' & log' & entry & now & w' & E & _ & _ & _ & (w1 & Eloop)).
  cbv zeta in E. rewrite E. do 2 eexists. split; [reflexivity|].
  destruct (signals_moved
              (named_item_ids (InterpretProgressUpdateOutput.signals output))
              (named_sub_item_ids (InterpretProgressUpdateOutput.signals output))
              (items_of state) (InterpretProgressUpdateOutput.signals output)
              (fun k Hk => Hk) (fun k Hk => Hk) state w eq_refl)
    as (s2 & w2 & E2 & _ & Hm).
  rewrite Eloop in E2. injection E2 as <- _.
  now destruct (InterpretProgressUpdateOutput.needs_clarification output).
Qed.

(** X19. After its loop the progress handler appends one agent entry with
    the response and settles the phase: when the output asks for
    clarification the phase is [asking_clarification], with the flag set
    and the prompt of the output stored (also when the checklist is
    complete); otherwise the flag and the prompt are cleared and the phase
    is [generating_summary] exactly when the checklist of the result is
    complete, else [acknowledging_progress]. The latest user message is
    kept. *)
Theorem progress_settles_phase (state : ResearchState.t)
    (output : InterpretProgressUpdateOutput.t) (w : World) :
  exists s' w' entry,
    _handle_interpret_progress_update state output w = (Return s', w') /\
    conversation_log_of s' = conversation_log_of state ++ [entry] /\
    ConversationEntry.kind entry = ConversationEntryKind.AGENT /\
    ConversationEntry.content entry
      = InterpretProgressUpdateOutput.ai_response output /\
    latest_user_message_of s' = latest_user_message_of state /\
    if InterpretProgressUpdateOutput.needs_clarification output
    then
      phase_of s' = WorkflowPhase.ASKING_CLARIFICATION /\
      WorkflowState.awaiting_clarification (ResearchState.workflow s') = true /\
      WorkingMemory.clarification_prompt (ResearchState.working s')
        = InterpretProgressUpdateOutput.clarification_prompt output
    else
      phase_of s'
        = (if checklist_is_complete s'
           then WorkflowPhase.GENERATING_SUMMARY
           else WorkflowPhase.ACKNOWLEDGING_PROGRESS) /\
      WorkflowState.awaiting_clarification (ResearchState.workflow s')
        = false /\
      WorkingMemory.clarification_prompt (ResearchState.working s') = None.
Proof.
  destruct (interpret_progress_effect state output w)
    as (items' & log' & entry & now & w' & E & Hk & Hc & _).
  cbv zeta in E. rewrite E. do 2 eexists. exists entry.
  split; [reflexivity|].
  destruct (InterpretProgressUpdateOutput.needs_clarification output);
    now repeat split.
Qed.

Lemma for_each_app {A S : Type} (body : S -> A -> M S) (l1 l2 : list A) :
  forall (s : S) (w : World),
    for_each body (l1 ++ l2) s w
    = match for_each body l1 s w with
      | (Return s1, w1) => for_each body l2 s1 w1
      | (Raise e, w1) => (Raise e, w1)
      end.
Proof.
  induction l1 as [|x l1 IH]; intros s w; simpl; [reflexivity|].
  unfold bind. destruct (body s x w) as [[s1|e] w1]; [apply IH|reflexivity].
Qed.

Lemma signal_item_step_status (items0 : list ChecklistItem.t)
    (signal : ProgressSignalModel.t) (k : string)
    (st : ChecklistItemStatus.t) (a : nat)
    (acc : list ChecklistItem.t * Dict.t ChecklistItemStatus.t)
    (k' : string) :
  ProgressSignalModel.new_status signal = Some st ->
  Dict.get k (index_items items0) = Some a ->
  id_shape (fst acc) = id_shape items0 ->
  k' = k \/ ChecklistItem.status <$> fst acc !! a = Some st ->
  ChecklistItem.status
    <$> fst (signal_item_step (index_items items0) signal acc k') !! a
  = Some st.
Proof.
  intros Hst Hk Hshape Hor. destruct acc as [items tm]. simpl in *.
  unfold signal_item_step. rewrite Hst.
  destruct (Dict.get k' (index_items items0)) as [a'|] eqn:Eg.
  - destruct (index_items_get items0 k' a' Eg) as (item0 & Ha0 & _).
    destruct (shape_lookup items items0 a' item0 Hshape Ha0)
      as (item & Ha & _).
    rewrite Ha. simpl.
    destruct (decide (a' = a)) as [->|Hne].
    + rewrite list_lookup_insert_eq
        by (apply lookup_lt_is_Some; now exists item).
      simpl. f_equal.
      destruct (ChecklistItemStatus.eqb (ChecklistItem.status item) st) eqn:Eb;
        simpl;
        (destruct (ProgressSignalModel.note signal) as [note|];
         [destruct (Py.truthy note)|]); simpl; try reflexivity;
        now apply status_eqb_eq.
    + rewrite list_lookup_insert_ne by exact Hne.
      destruct Hor as [->|Hor]; [congruence|exact Hor].
  - destruct Hor as [->|Hor]; [congruence|exact Hor].
Qed.

Lemma fold_item_status (items0 : list ChecklistItem.t)
    (signal : ProgressSignalModel.t) (k : string)
    (st : ChecklistItemStatus.t) (a : nat) :
  ProgressSignalModel.new_status signal = Some st ->
  Dict.get k (index_items items0) = Some a ->
  forall ids acc,
    id_shape (fst acc) = id_shape items0 ->
    k ∈ ids \/ ChecklistItem.status <$> fst acc !! a = Some st ->
    ChecklistItem.status
      <$> fst (fold_left (signal_item_step (index_items items0) signal)
                 ids acc) !! a
    = Some st.
Proof.
  intros Hst Hk. induction ids as [|k' ids IH]; intros acc Hshape Hor; simpl.
  - destruct Hor as [Hin|Hor]; [|exact Hor]. now apply elem_of_nil in Hin.
  - apply IH;
      [exact (proj1 (signal_item_step_spec items0 signal acc k' Hshape))|].
    destruct Hor as [Hin|Hor].
    + apply elem_of_cons in Hin as [->|Hin]; [|now left].
      right.
      apply (signal_item_step_status items0 signal k' st a acc k' Hst Hk
               Hshape). now left.
    + right.
      apply (signal_item_step_status items0 signal k st a acc k' Hst Hk
               Hshape). now right.
Qed.

Lemma signal_sub_item_step_statuses (sub_items_by_id : Dict.t (nat * nat))
    (signal : ProgressSignalModel.t)
    (acc : list ChecklistItem.t * Dict.t ChecklistItemStatus.t)
    (k : string) :
  map ChecklistItem.status
    (fst (signal_sub_item_step sub_items_by_id signal acc k))
  = map ChecklistItem.status (fst acc).
Proof.
  destruct acc as [items tm]. unfold signal_sub_item_step.
  destruct (Dict.get k sub_items_by_id) as [p|]; [|reflexivity].
  destruct (sub_item_at items p) as [sub|]; [|reflexivity].
  simpl. unfold store_sub_item.
  destruct (items !! fst p) as [item|] eqn:Ea; [|reflexivity].
  change (map ChecklistItem.status ?l) with (ChecklistItem.status <$> l).
  rewrite list_fmap_insert. simpl.
  apply list_insert_id. now rewrite list_lookup_fmap, Ea.
Qed.

Lemma fold_sub_item_statuses (sub_items_by_id : Dict.t (nat * nat))
    (signal : ProgressSignalModel.t) :
  forall ids acc,
    map ChecklistItem.status
      (fst (fold_left (signal_sub_item_step sub_items_by_id signal) ids acc))
    = map ChecklistItem.status (fst acc).
Proof.
  induction ids as [|k ids IH]; intros acc; simpl; [reflexivity|].
  now rewrite IH, signal_sub_item_step_statuses.
Qed.

(** A signal with a new status gives it to the items it names. *)
Lemma apply_signal_status (items0 : list ChecklistItem.t)
    (signal : ProgressSignalModel.t) (k : string)
    (st : ChecklistItemStatus.t) (a : nat) (s : ResearchState.t)
    (w : World) :
  ProgressSignalModel.new_status signal = Some st ->
  Dict.get k (index_items items0) = Some a ->
  k ∈ ProgressSignalModel.item_ids signal ->
  id_shape (items_of s) = id_shape items0 ->
  exists s' w',
    apply_signal (index_items items0) (index_sub_items items0) s signal w
    = (Return s', w') /\
    id_shape (items_of s') = id_shape items0 /\
    ChecklistItem.status <$> items_of s' !! a = Some st.
Proof.
  intros Hst Hk Hin Hshape.
  destruct (apply_signal_spec items0 signal s w Hshape)
    as (s' & w' & E & Hs' & _).
  exists s', w'. split; [exact E|]. split; [exact Hs'|].
  revert E. unfold apply_signal.
  pose proof (fold_item_status items0 signal k st a Hst Hk
                (ProgressSignalModel.item_ids signal)
                (items_of s, Dict.empty) Hshape (or_introl Hin)) as H1.
  destruct (fold_left (signal_item_step _ signal) _ _) as [items1 tm1].
  simpl in H1.
  pose proof (fold_sub_item_statuses (index_sub_items items0) signal
                (ProgressSignalModel.sub_item_ids signal)
                (items1, Dict.empty)) as H2.
  destruct (fold_left (signal_sub_item_step _ signal) _ _) as [items2 tm2].
  simpl in H2.
  assert (H3 : ChecklistItem.status <$> items2 !! a = Some st).
  { rewrite <- list_lookup_fmap.
    change (ChecklistItem.status <$> items2)
      with (map ChecklistItem.status items2).
    rewrite H2.
    change (map ChecklistItem.status items1)
      with (ChecklistItem.status <$> items1).
    now rewrite list_lookup_fmap. }
  destruct tm1 as [|kv1 tm1]; [destruct tm2 as [|kv2 tm2]|];
    intros [= <- _]; exact H3.
Qed.

(** X20. On a checklist whose item ids are pairwise distinct, the last
    signal that names an item decides its status: when that signal
    carries a new status, the item of that id has this status in the
    result. *)
Theorem last_naming_signal_sets_status (state : ResearchState.t)
    (output : InterpretProgressUpdateOutput.t) (w : World)
    (earlier later : list ProgressSignalModel.t)
    (signal : ProgressSignalModel.t) (k : string)
    (st : ChecklistItemStatus.t) :
  NoDup (item_ids (items_of state)) ->
  InterpretProgressUpdateOutput.signals output = earlier ++ signal :: later ->
  k ∈ ProgressSignalModel.item_ids signal ->
  ProgressSignalModel.new_status signal = Some st ->
  k ∉ named_item_ids later ->
  exists s' w',
    _handle_interpret_progress_update state output w = (Return s', w') /\
    forall item,
      item ∈ items_of s' -> ChecklistItem.item_id item = k ->
      ChecklistItem.status item = st.
Proof.
  intros Hnd Hsignals Hin Hst Hlater.
  destruct (interpret_progress_effect state output w)
    as (items' & log' & entry & now & w' & E & _ & _ & _ & (w1 & Eloop)).
  cbv zeta in E. rewrite E. do 2 eexists. split; [reflexivity|].
  assert (Hitems : forall item,
             item ∈ items' -> ChecklistItem.item_id item = k ->
             ChecklistItem.status item = st);
    [|now destruct (InterpretProgressUpdateOutput.needs_clarification output)].
  set (items0 := items_of state) in *.
  rewrite Hsignals, for_each_app in Eloop.
  destruct (signals_loop items0 earlier state w eq_refl)
    as (s1 & w2 & _ & E1 & Hs1 & _).
  rewrite E1 in Eloop. simpl in Eloop. unfold bind in Eloop.
  intros item Hitem Hid.
  apply list_elem_of_lookup_1 in Hitem as (i & Hi).
  assert (Hshape' : id_shape items' = id_shape items0).
  { destruct (signals_loop items0 (earlier ++ signal :: later) state w eq_refl)
      as (s3 & w3 & _ & E3 & Hs3 & _).
    rewrite for_each_app, E1 in E3. simpl in E3. unfold bind in E3.
    rewrite Eloop in E3. injection E3 as <- _. exact Hs3. }
  assert (Hk0 : item_ids items0 !! i = Some k).
  { rewrite <- (item_ids_of_shape items' items0 Hshape').
    unfold item_ids. change (map ?f ?l) with (f <$> l).
    now rewrite list_lookup_fmap, Hi, <- Hid. }
  assert (Hmem : Dict.mem k (index_items items0) = true).
  { rewrite index_items_mem. apply is_one_of_iff.
    now apply list_elem_of_lookup_2 in Hk0. }
  unfold Dict.mem in Hmem.
  destruct (Dict.get k (index_items items0)) as [a|] eqn:Eg; [|discriminate].
  destruct (index_items_get items0 k a Eg) as (item0 & Ha0 & Hid0).
  assert (Hai : a = i).
  { apply (NoDup_lookup (item_ids items0) a i k Hnd); [|exact Hk0].
    unfold item_ids. change (map ?f ?l) with (f <$> l).
    now rewrite list_lookup_fmap, Ha0, <- Hid0. }
  subst a.
  destruct (apply_signal_status items0 signal k st i s1 w2 Hst Eg Hin Hs1)
    as (s2 & w3 & E2 & Hs2 & Hstatus).
  rewrite E2 in Eloop.
  destruct (signals_moved (named_item_ids later) (named_sub_item_ids later)
              items0 later (fun k Hk => Hk) (fun k Hk => Hk) s2 w3 Hs2)
    as (s3 & w4 & E3 & _ & Hm).
  rewrite E3 in Eloop. injection Eloop as Hs3 _.
  assert (Hitems3 : items_of s3 = items') by now rewrite Hs3.
  rewrite Hitems3 in Hm.
  destruct (items_of s2 !! i) as [item2|] eqn:Ei2; [|discriminate].
  simpl in Hstatus. injection Hstatus as Hstatus.
  destruct (Forall2_lookup_l _ _ _ _ _ Hm Ei2) as (item3 & Hi3 & Hmoved).
  rewrite Hi in Hi3. injection Hi3 as <-.
  destruct Hmoved as (Hid2 & _ & _ & _ & _ & Hkeep & _).
  destruct Hkeep as [Hkeep _]; [|congruence].
  now rewrite <- Hid2, Hid.
Qed.

Lemma last_naming_signal_sets_status_witness :
  exists s' w',
    _handle_interpret_progress_update (fst a_session_reported)
      a_progress_output (snd a_session_reported) = (Return s', w') /\
    forall item,
      item ∈ items_of s' -> ChecklistItem.item_id item = "item-2" ->
      ChecklistItem.status item = ChecklistItemStatus.COMPLETE.
Proof.
  apply (last_naming_signal_sets_status (fst a_session_reported)
           a_progress_output (snd a_session_reported) [] []
           (a_signal ["item-2"] [] (Some ChecklistItemStatus.COMPLETE)
              (Some "shipped on Friday"))
           "item-2" ChecklistItemStatus.COMPLETE).
  - vm_compute. repeat constructor; intros H; apply list_elem_of_In in H;
      simpl in H; intuition discriminate.
  - reflexivity.
  - apply list_elem_of_In. simpl. now left.
  - reflexivity.
  - intros H. apply list_elem_of_In in H. exact H.
Defined.

(** ** Generated ids, once more *)






(** ** A round of progress *)

Lemma apply_signal_user_text (items_by_id : Dict.t nat)
    (sub_items_by_id : Dict.t (nat * nat)) (s : ResearchState.t)
    (signal : ProgressSignalModel.t) (w : World) :
  exists items' logged w',
    apply_signal items_by_id sub_items_by_id s signal w
    = (Return (with_progress items' (progress_log_of s ++ logged) s), w') /\
    Forall
      (fun e =>
         ProgressLogEntry.user_text e
         = Py.or_str (latest_user_message_of s) "" /\
         ProgressLogEntry.contextual_notes e
         = ProgressSignalModel.context signal)
      logged /\
    (length logged <= 1)%nat.
Proof.
  unfold apply_signal.
  destruct (fold_left _ (ProgressSignalModel.item_ids signal) _)
    as [items1 tm1].
  destruct (fold_left _ (ProgressSignalModel.sub_item_ids signal) _)
    as [items2 tm2].
  destruct tm1 as [|kv1 tm1]; [destruct tm2 as [|kv2 tm2]|].
  - exists items2, [], w. rewrite app_nil_r. split; [reflexivity|].
    split; [apply Forall_nil_2|simpl; lia].
  - exists items2. eexists [_]. eexists. split; [reflexivity|].
    split; [|simpl; lia]. constructor; [|constructor]. now split.
  - exists items2. eexists [_]. eexists. split; [reflexivity|].
    split; [|simpl; lia]. constructor; [|constructor]. now split.
Qed.

Lemma signals_user_text (items_by_id : Dict.t nat)
    (sub_items_by_id : Dict.t (nat * nat))
    (signals : list ProgressSignalModel.t) :
  forall (s : ResearchState.t) (w : World),
  exists items' logged w',
    for_each (apply_signal items_by_id sub_items_by_id) signals s w
    = (Return (with_progress items' (progress_log_of s ++ logged) s), w') /\
    Forall
      (fun e =>
         ProgressLogEntry.user_text e
         = Py.or_str (latest_user_message_of s) "")
      logged /\
    (length logged <= length signals)%nat.
Proof.
  induction signals as [|signal signals IH]; intros s w; simpl.
  - exists (items_of s), [], w. rewrite app_nil_r, with_progress_same.
    split; [reflexivity|]. split; [apply Forall_nil_2|simpl; lia].
  - destruct (apply_signal_user_text items_by_id sub_items_by_id s signal w)
      as (items1 & logged1 & w1 & E1 & Ht1 & Hl1).
    unfold bind. rewrite E1.
    destruct (IH (with_progress items1 (progress_log_of s ++ logged1) s) w1)
      as (items2 & logged2 & w2 & E2 & Ht2 & Hl2).
    rewrite E2. exists items2, (logged1 ++ logged2), w2.
    split; [|split].
    + unfold with_progress, on_working, progress_log_of. simpl.
      now rewrite app_assoc.
    + apply Forall_app. split; [|exact Ht2].
      eapply Forall_impl; [exact Ht1|]. now intros e [He _].
    + rewrite length_app. lia.
Qed.

(** X24. A round of progress composes: a visible update is ingested, its
    interpretation is applied, and the acknowledgement brings the agent
    back to listening. Every entry that the round adds to the progress
    log carries the stripped text of the update, there is at most one
    entry per signal, the conversation log gains the user's entry and the
    agent's, and after the acknowledgement the latest message, the
    clarification prompt and its flag are cleared while the checklist and
    the progress log stay. *)
Theorem progress_round_returns_to_listening (s : ResearchState.t)
    (text : string) (output : InterpretProgressUpdateOutput.t) (w : World) :
  blank text = false ->
  exists s1 w1 s2 w2 s3 w3 logged said answered,
    ingest_progress_input s text w = (Return s1, w1) /\
    update_state_from_skill s1 SkillName.INTERPRET_PROGRESS_UPDATE output w1
    = (Return s2, w2) /\
    acknowledge_progress_ack s2 w2 = (Return s3, w3) /\
    progress_log_of s2 = progress_log_of s ++ logged /\
    Forall (fun e => ProgressLogEntry.user_text e = Py.strip text) logged /\
    (length logged
     <= length (InterpretProgressUpdateOutput.signals output))%nat /\
    conversation_log_of s3 = conversation_log_of s ++ [said; answered] /\
    ConversationEntry.content said = Py.strip text /\
    ConversationEntry.content answered
      = InterpretProgressUpdateOutput.ai_response output /\
    phase_of s3 = WorkflowPhase.LISTENING_FOR_PROGRESS /\
    latest_user_message_of s3 = None /\
    WorkingMemory.clarification_prompt (ResearchState.working s3) = None /\
    WorkflowState.awaiting_clarification (ResearchState.workflow s3) = false /\
    items_of s3 = items_of s2 /\
    progress_log_of s3 = progress_log_of s2.
Proof.
  intros Hb.
  destruct (ingest_progress_input_effect s text w)
    as [[Hb' _]|(_ & said & now1 & w1 & E1 & _ & Hsaid & _)]; [congruence|].
  set (s1 := append_conversation_log said _) in E1.
  destruct (interpret_progress_effect s1 output w1)
    as (items' & log' & answered & now2 & w2 & E2 & _ & Hans & _
        & (w3 & Eloop)).
  cbv zeta in E2.
  destruct (signals_user_text (index_items (items_of s1))
              (index_sub_items (items_of s1))
              (InterpretProgressUpdateOutput.signals output) s1 w1)
    as (items2 & logged & w4 & Eloop' & Htext & Hlen).
  rewrite Eloop in Eloop'. injection Eloop' as Hitems Hlog _.
  assert (Hts : Py.or_str (latest_user_message_of s1) "" = Py.strip text).
  { unfold s1, latest_user_message_of, Py.or_str. simpl.
    pose proof (truthy_strip text) as Ht. rewrite Hb in Ht.
    now rewrite Ht. }
  rewrite Hts in Htext.
  exists s1, w1. do 4 eexists. exists logged, said, answered.
  split; [exact E1|]. split; [exact E2|]. split; [reflexivity|].
  subst log'.
  destruct (InterpretProgressUpdateOutput.needs_clarification output);
    (split; [reflexivity|]); (split; [exact Htext|]); (split; [exact Hlen|]);
    (split; [unfold conversation_log_of, s1; simpl;
             now rewrite <- app_assoc|]);
    (split; [exact Hsaid|]); (split; [exact Hans|]);
    now repeat split.
Qed.

Lemma progress_round_returns_to_listening_witness :
  blank "shipped it" = false /\
  phase_of (fst (after acknowledge_progress_ack a_session_progressed))
    = WorkflowPhase.LISTENING_FOR_PROGRESS /\
  latest_user_message_of
    (fst (after acknowledge_progress_ack a_session_progressed)) = None.
Proof.
  split; [reflexivity|].
  destruct (progress_round_returns_to_listening (fst a_session_tracking)
              "shipped it" a_progress_output (snd a_session_tracking) eq_refl)
    as (s1 & w1 & s2 & w2 & s3 & w3 & logged & said & answered
        & E1 & E2 & E3 & _ & _ & _ & _ & _ & _ & Hp & Hm & _).
  assert (H1 : (s1, w1) = a_session_reported).
  { unfold a_session_reported, after. now rewrite E1. }
  assert (H2 : (s2, w2) = a_session_progressed).
  { unfold a_session_progressed, after. rewrite <- H1. cbn [fst snd].
    now rewrite E2. }
  assert (H3 : after acknowledge_progress_ack a_session_progressed = (s3, w3)).
  { rewrite <- H2. unfold after. cbn [fst snd]. now rewrite E3. }
  rewrite H3. split; [exact Hp|exact Hm].
Defined.

(** ** The table of the skills *)

(** X25. Every skill has a definition, so [get_skill_definition] never
    raises its [KeyError]: the definition found carries the name asked
    for, its output model is the one that the handler of the skill takes,
    and no two skills share a template. *)
Theorem every_skill_is_defined (skill_name : SkillName.t) :
  exists definition,
    get_skill_definition skill_name = Some definition /\
    SkillDefinition.name definition = skill_name /\
    SkillDefinition.output_model definition = output_model skill_name /\
    forall other definition',
      get_skill_definition other = Some definition' ->
      SkillDefinition.template_path definition'
        = SkillDefinition.template_path definition ->
      other = skill_name.
Proof.
  destruct skill_name; eexists; (split; [reflexivity|]);
    (split; [reflexivity|]); (split; [reflexivity|]);
    intros other definition' H Hp; destruct other;
    injection H as <-; simpl in Hp; congruence.
Qed.

(** ** An update of a known item *)








(** ** The agent stays within the session *)

Lemma wrapper_lands (model_dump : ChecklistArtifact.t -> Any)
    (step : ResearchState.t -> M ResearchState.t) (st : ResearchState.t) :
  reachable model_dump st ->
  (forall w s' w', step st w = (Return s', w') -> transition model_dump st s') ->
  lands_in (reachable model_dump)
    (do* state := self_state in
     do* new_state := call (step state) in
     _swap_state new_state) st.
Proof.
  intros Hr Hstep w outcome st' w'.
  unfold method_bind, self_state, call, _swap_state.
  destruct (step st w) as [[s1|e] w1] eqn:E; intros [= _ <- _].
  - exact (reachable_step model_dump st s1 Hr (Hstep w s1 w1 E)).
  - exact Hr.
Qed.

(** X27. An agent whose state was made by [create_initial_state] and by
    calls of the state manager stays so under every method of the agent,
    whatever the executor and the repository do, also when the method
    raises: what holds of the sessions of the state manager holds of the
    state of the agent. *)
Theorem agent_stays_in_session (model_dump : ChecklistArtifact.t -> Any)
    (run_skill :
       forall skill_name : SkillName.t,
         ResearchState.t -> option (Dict.t Any) -> M (output_model skill_name))
    (repository_save : ChecklistArtifact.t -> M string)
    (st : ResearchState.t) :
  reachable model_dump st ->
  (forall text, lands_in (reachable model_dump) (ingest_description text) st) /\
  (forall text,
     lands_in (reachable model_dump) (record_refinement_feedback text) st) /\
  lands_in (reachable model_dump) approve_checklist st /\
  (forall text,
     lands_in (reachable model_dump) (request_more_changes text) st) /\
  lands_in (reachable model_dump) start_tracking st /\
  (forall text,
     lands_in (reachable model_dump) (ingest_progress_update text) st) /\
  lands_in (reachable model_dump) acknowledge_progress st /\
  lands_in (reachable model_dump) acknowledge_summary st /\
  lands_in (reachable model_dump) (save_checklist model_dump repository_save)
    st /\
  (forall context,
     lands_in (reachable model_dump) (run_planned_action run_skill context)
       st).
Proof.
  intros Hr.
  split; [intros text; apply wrapper_lands; [exact Hr|];
          intros w s' w'; apply by_ingest_user_description|].
  split; [intros text; apply wrapper_lands; [exact Hr|];
          intros w s' w'; apply by_record_user_feedback|].
  split; [apply wrapper_lands; [exact Hr|];
          intros w s' w'; apply by_mark_checklist_approved|].
  split; [intros text; apply wrapper_lands; [exact Hr|];
          intros w s' w'; apply by_mark_checklist_rejected|].
  split; [apply wrapper_lands; [exact Hr|];
          intros w s' w'; apply by_activate_tracking_mode|].
  split; [intros text; apply wrapper_lands; [exact Hr|];
          intros w s' w'; apply by_ingest_progress_input|].
  split; [apply wrapper_lands; [exact Hr|];
          intros w s' w'; apply by_acknowledge_progress_ack|].
  split; [apply wrapper_lands; [exact Hr|];
          intros w s' w'; apply by_acknowledge_summary_delivery|].
  split.
  - intros w outcome st' w'. rewrite save_checklist_unfolded.
    destruct (build_artifact st w) as [[artifact|e] w1];
      [|now intros [= _ <- _]].
    destruct (repository_save artifact w1) as [[file_path|e] w2];
      [|now intros [= _ <- _]].
    destruct (record_save_result model_dump st artifact file_path w2)
      as [[s1|e] w3] eqn:E1; [|now intros [= _ <- _]].
    assert (Hr1 : reachable model_dump s1).
    { apply (reachable_step model_dump st s1 Hr).
      exact (by_record_save_result model_dump st artifact file_path w2 s1 w3
               E1). }
    destruct (activate_tracking_mode s1 w3) as [[s2|e] w4] eqn:E2;
      intros [= _ <- _]; [|exact Hr1].
    apply (reachable_step model_dump s1 s2 Hr1).
    exact (by_activate_tracking_mode model_dump s1 w3 s2 w4 E2).
  - intros context w outcome st' w'.
    destruct (next_action_cases st) as [(k & r & E & _)|(r & E)].
    + rewrite (run_planned_action_skill run_skill context st w k r E).
      destruct (run_skill k st _ w) as [[output|e] w1];
        [|now intros [= _ <- _]].
      destruct (update_state_from_skill st k output w1) as [[s1|e] w2] eqn:E1;
        intros [= _ <- _]; [|exact Hr].
      apply (reachable_step model_dump st s1 Hr).
      exact (by_update_state_from_skill model_dump st k output w1 s1 w2 E1).
    + rewrite (run_planned_action_noop run_skill context st w r E).
      now intros [= _ <- _].
Qed.

Lemma agent_stays_in_session_witness :
  reachable a_dump (fst a_session_described) /\
  reachable a_dump (fst (a_planned_step a_session_described)).
Proof.
  split; [exact a_session_described_reachable|].
  destruct (agent_stays_in_session a_dump an_executor a_repository
              (fst a_session_described) a_session_described_reachable)
    as (_ & _ & _ & _ & _ & _ & _ & _ & _ & H).
  apply (H None (snd a_session_described)
           (Return (Coordinator.next_action (fst a_session_described)))
           _ (snd (a_planned_step a_session_described))).
  reflexivity.
Defined.
